(** * Economics bot: the economic simulation engine and its ledger operations

    A shallow embedding of the simulation core of the Economics bot
    ([config.py], [economic_engine.py], [database.py], [bot.py],
    [bot_commands.py], [bot_commands2.py]) together with the properties its
    specification states about it.

    Conventions of the embedding.
    - Python numbers (int and float alike) are exact rationals [Q]; the
      comparisons, [min] and [max] of the source are the rational ones.
      Results are compared with [==] ([Qeq]).  Rounding is outside the
      embedding.  The non-finite floats enter only where a command hands
      a text of the user to [float()]: they are values of [pyfloat], and a
      run that stores one of them is reported as such.  The values of
      [log10] and of the Gaussian draw, which are not rational functions
      of their inputs, are arguments.
    - A Python exception is a value of [exn]; a function that may raise
      returns [result A].
    - Every draw from the global random generator and every reading of the
      clock is an explicit argument.
    - A Mongo collection is the list of its documents in cursor order; a
      dict that the code iterates over is the list of its items.
    - A stateful operation takes the database and returns the database it
      leaves behind, paired with its result; when it raises, the database
      is the one reached at the raise. *)

From Stdlib Require Import QArith Qminmax Qround Qabs Lqa ZArith Lia Ascii String.
From stdpp Require Import base option list sorting strings gmap fin_maps.

Local Open Scope string_scope.
Local Open Scope Q_scope.

(** ** Exceptions and results *)

Inductive exn : Type :=
| KeyError (key : string)
| IndexError
| ValueError
| ZeroDivisionError.

Inductive result (A : Type) : Type :=
| Ok (a : A)
| Raise (e : exn).
Arguments Ok {A} a.
Arguments Raise {A} e.

Definition rbind {A B} (r : result A) (k : A -> result B) : result B :=
  match r with
  | Ok a => k a
  | Raise e => Raise e
  end.

Notation "'let!' x ':=' r 'in' k" := (rbind r (fun x => k))
  (at level 10, x name, r at level 100, k at level 200).

(** [[f(x) for x in xs]] where [f] may raise: the first exception wins. *)
Fixpoint rmap {A B} (f : A -> result B) (xs : list A) : result (list B) :=
  match xs with
  | [] => Ok []
  | x :: rest =>
      let! y := f x in
      let! ys := rmap f rest in
      Ok (y :: ys)
  end.

(** [d[key]] on a dict: raises [KeyError] when the key is absent. *)
Definition getitem {V} (d : gmap string V) (key : string) : result V :=
  match d !! key with
  | Some v => Ok v
  | None => Raise (KeyError key)
  end.

(** Python's true division [a / b]. *)
Definition pydiv (a b : Q) : result Q :=
  if Qeq_bool b 0 then Raise ZeroDivisionError else Ok (a / b).

(** [int(x)] on a float: truncation towards zero. *)
Definition py_int (x : Q) : Z := Z.quot (Qnum x) (Z.pos (Qden x)).

(** A [datetime] is a count of microseconds; a [timedelta] is a difference
    of two of them. *)
Abbreviation datetime := Z (only parsing).

Definition MICROSECONDS_PER_SECOND : Z := 1000000.
Definition MICROSECONDS_PER_DAY : Z := 86400 * MICROSECONDS_PER_SECOND.

(** [delta.days]: the day field of a normalised timedelta (a floor). *)
Definition timedelta_days (delta : Z) : Z := (delta / MICROSECONDS_PER_DAY)%Z.

(** [timedelta(days=d)], [timedelta(hours=h)] and a number of seconds as a
    timedelta. *)
Definition timedelta_of_days (d : Z) : Z := (d * MICROSECONDS_PER_DAY)%Z.
Definition timedelta_of_hours (h : Z) : Z :=
  (h * 3600 * MICROSECONDS_PER_SECOND)%Z.
Definition timedelta_of_seconds (s : Z) : Z := (s * MICROSECONDS_PER_SECOND)%Z.

(** ** config.py *)

Inductive EconomicClass : Type := LOWER | MIDDLE | UPPER | ELITE | OLIGARCH.

(** The upper end of a band; [None] is [float('inf')]. *)
Definition band : Type := (Q * option Q)%type.

Definition CLASS_THRESHOLDS : list (EconomicClass * band) :=
  [ (LOWER, (0, Some 10000));
    (MIDDLE, (10001, Some 50000));
    (UPPER, (50001, Some 200000));
    (ELITE, (200001, Some 1000000));
    (OLIGARCH, (1000001, None)) ].


Definition CLASS_TAX_RATES (c : EconomicClass) : Q :=
  match c with
  | LOWER => 0.05
  | MIDDLE => 0.15
  | UPPER => 0.28
  | ELITE => 0.37
  | OLIGARCH => 0.45
  end.

(** *** Labor market *)

Module Job.
Record t : Type := mk {
  base_salary : Q;
  skill_required : Z;
  demand_elasticity : Q;
  automation_risk : Q }.
End Job.

Definition JOBS_items : list (string * Job.t) :=
  [ ("unemployed", Job.mk 0 0 0 0);
    ("beggar", Job.mk 200 0 0.1 0.05);
    ("street_cleaner", Job.mk 500 0 0.2 0.6);
    ("dishwasher", Job.mk 600 0 0.3 0.7);
    ("laborer", Job.mk 800 0 0.2 0.7);
    ("garbage_collector", Job.mk 900 0 0.2 0.5);
    ("janitor", Job.mk 1200 1 0.3 0.6);
    ("delivery_driver", Job.mk 1400 1 0.5 0.8);
    ("security_guard", Job.mk 1500 1 0.3 0.4);
    ("cashier", Job.mk 1600 1 0.4 0.7);
    ("waiter", Job.mk 1700 2 0.5 0.5);
    ("warehouse_worker", Job.mk 2000 2 0.5 0.5);
    ("factory_worker", Job.mk 2200 2 0.4 0.8);
    ("receptionist", Job.mk 2400 2 0.4 0.6);
    ("sales_associate", Job.mk 2600 3 0.6 0.5);
    ("barista", Job.mk 2300 2 0.5 0.6);
    ("cook", Job.mk 2800 3 0.4 0.4);
    ("mechanic", Job.mk 3200 4 0.5 0.3);
    ("electrician", Job.mk 3400 4 0.5 0.3);
    ("plumber", Job.mk 3300 4 0.5 0.2);
    ("technician", Job.mk 3500 4 0.6 0.3);
    ("paramedic", Job.mk 3600 5 0.3 0.2);
    ("teacher", Job.mk 3800 5 0.3 0.2);
    ("police_officer", Job.mk 4000 5 0.3 0.2);
    ("firefighter", Job.mk 4100 5 0.3 0.1);
    ("nurse", Job.mk 4200 5 0.4 0.2);
    ("accountant", Job.mk 4500 6 0.6 0.5);
    ("software_developer", Job.mk 5000 6 0.8 0.3);
    ("data_analyst", Job.mk 4800 6 0.7 0.4);
    ("engineer", Job.mk 5500 7 0.7 0.4);
    ("architect", Job.mk 5600 7 0.6 0.3);
    ("manager", Job.mk 6000 6 0.5 0.3);
    ("marketing_manager", Job.mk 6200 7 0.6 0.4);
    ("pharmacist", Job.mk 6500 8 0.4 0.3);
    ("dentist", Job.mk 7000 8 0.4 0.2);
    ("lawyer", Job.mk 7500 8 0.5 0.3);
    ("doctor", Job.mk 8000 9 0.4 0.1);
    ("surgeon", Job.mk 9000 10 0.3 0.1);
    ("pilot", Job.mk 8500 9 0.5 0.4);
    ("investment_banker", Job.mk 10000 9 0.7 0.3);
    ("executive", Job.mk 12000 9 0.8 0.2);
    ("ceo", Job.mk 15000 10 0.9 0.1);
    ("entrepreneur", Job.mk 18000 8 0.9 0.1) ].

Definition JOBS : gmap string Job.t := list_to_map JOBS_items.

(** *** Economic cycles *)

Definition CYCLE_PHASES : list string :=
  ["expansion"; "peak"; "recession"; "trough"; "recovery"].

Definition CYCLE_DURATION_DAYS : Z := 28.

Module Phase.
Record t : Type := mk {
  gdp_growth : Q;
  unemployment : Q;
  inflation : Q }.
End Phase.

Definition PHASE_MODIFIERS_items : list (string * Phase.t) :=
  [ ("expansion", Phase.mk 1.15 0.85 1.10);
    ("peak", Phase.mk 1.05 0.90 1.15);
    ("recession", Phase.mk 0.85 1.30 0.95);
    ("trough", Phase.mk 0.80 1.50 0.90);
    ("recovery", Phase.mk 1.10 1.10 1.02) ].

Definition PHASE_MODIFIERS : gmap string Phase.t :=
  list_to_map PHASE_MODIFIERS_items.

(** *** Crime system *)

Module Crime.
Record t : Type := mk {
  base_success : Q;
  min_steal : Q;
  max_steal : Q;
  jail_time_hours : Z;
  skill_required : Z }.
End Crime.

Definition CRIME_TYPES_items : list (string * Crime.t) :=
  [ ("pickpocket", Crime.mk 0.4 100 500 2 0);
    ("robbery", Crime.mk 0.25 500 3000 6 3);
    ("heist", Crime.mk 0.15 5000 20000 24 7);
    ("embezzlement", Crime.mk 0.20 10000 50000 48 8);
    ("tax_evasion", Crime.mk 0.35 5000 30000 72 6) ].

Definition CRIME_TYPES : gmap string Crime.t := list_to_map CRIME_TYPES_items.

(** *** Investment options *)

Module Investment.
Record t : Type := mk {
  min_amount : Q;
  annual_return : Q;
  risk : Q;
  liquidity : Q }.
End Investment.

Definition INVESTMENT_TYPES_items : list (string * Investment.t) :=
  [ ("savings_account", Investment.mk 100 0.02 0.01 1.0);
    ("bonds", Investment.mk 1000 0.04 0.05 0.8);
    ("stocks", Investment.mk 500 0.08 0.20 0.9);
    ("real_estate", Investment.mk 50000 0.06 0.10 0.3);
    ("venture_capital", Investment.mk 100000 0.15 0.40 0.2);
    ("cryptocurrency", Investment.mk 100 0.20 0.60 0.95) ].

Definition INVESTMENT_TYPES : gmap string Investment.t :=
  list_to_map INVESTMENT_TYPES_items.

(** *** Market items *)

Module Item.
Record t : Type := mk {
  base_price : Q;
  elasticity : Q;
  necessity : Q }.
End Item.

Definition BASE_ITEMS_items : list (string * Item.t) :=
  [ ("bread", Item.mk 5 0.3 0.9);
    ("water", Item.mk 3 0.2 1.0);
    ("medicine", Item.mk 50 0.1 0.8);
    ("phone", Item.mk 500 0.7 0.4);
    ("laptop", Item.mk 1200 0.8 0.3);
    ("car", Item.mk 25000 0.9 0.5);
    ("house", Item.mk 200000 1.2 0.9);
    ("luxury_watch", Item.mk 5000 1.5 0.0);
    ("yacht", Item.mk 1000000 2.0 0.0) ].

Definition BASE_ITEMS : gmap string Item.t := list_to_map BASE_ITEMS_items.

(** *** Constants *)

Definition INFLATION_SENSITIVITY : Q := 0.05.

(** Cooldowns, in seconds. *)
Definition COOLDOWN_work : Z := 28800.
Definition COOLDOWN_crime : Z := 21600.

(** ** database.py: the documents

    Only the fields that the modelled operations read or write are kept:
    a user document also carries an inventory, periodic-claim timestamps,
    achievements and cached display fields, a server document its
    currency names, feature switches and political positions. *)

Module Stats.
Record t : Type := mk {
  total_earned : Q;
  total_spent : Q;
  crimes_committed : Z;
  crimes_success : Z;
  jobs_worked : Z;
  taxes_paid : Q;
  loans_taken : Z;
  investments_made : Z }.
End Stats.

Module User.
Record t : Type := mk {
  user_id : Z;
  guild_id : Z;
  balance : Q;
  bank : Q;
  job : string;
  skill_level : Z;
  experience : Z;
  last_work : option datetime;
  last_crime : option datetime;
  jail_until : option datetime;
  reputation : Z;
  statistics : Stats.t }.
End User.

Module JobMarket.
Record t : Type := mk {
  employed : Z;
  wage_multiplier : Q }.
End JobMarket.

Module Settings.
Record t : Type := mk {
  tax_rate : Q;
  welfare_amount : Q }.
End Settings.

Definition DEFAULT_SERVER_SETTINGS : Settings.t := Settings.mk 0.20 500.

Module Server.
Record t : Type := mk {
  guild_id : Z;
  settings : Settings.t;
  gdp : Q;
  total_money_supply : Q;
  inflation_rate : Q;
  unemployment_rate : Q;
  gini_coefficient : Q;
  cycle_phase : string;
  cycle_start : datetime;
  interest_rate : Q;
  min_wage : Q;
  tax_revenue : Q;
  government_budget : Q;
  market_prices : list (string * Q);
  job_market : gmap string JobMarket.t;
  last_update : datetime;
  created_at : datetime }.
End Server.

Module Loan.
Record t : Type := mk {
  _id : Z;
  user_id : Z;
  guild_id : Z;
  principal : Q;
  interest_rate : Q;
  remaining : Q;
  due_date : datetime;
  created_at : datetime;
  defaulted : bool }.
End Loan.

Module Holding.
(** A document of the [investments] collection. *)
Record t : Type := mk {
  _id : Z;
  user_id : Z;
  guild_id : Z;
  type : string;
  principal : Q;
  current_value : Q;
  created_at : datetime;
  last_update : datetime }.
End Holding.

Module Txn.
Record t : Type := mk {
  guild_id : Z;
  from_user : Z;
  to_user : Z;
  amount : Q;
  type : string;
  timestamp : datetime }.
End Txn.

Module CrimeRecord.
Record t : Type := mk {
  user_id : Z;
  guild_id : Z;
  crime_type : string;
  success : bool;
  amount : Q;
  timestamp : datetime }.
End CrimeRecord.

Module Snapshot.
(** A document of the [market_history] collection. *)
Record t : Type := mk {
  guild_id : Z;
  timestamp : datetime;
  gdp : Q;
  inflation : Q;
  unemployment : Q;
  gini : Q;
  cycle_phase : string }.
End Snapshot.

(** ** economic_engine.py *)

(** [min_wealth <= wealth <= max_wealth] *)
Definition in_band (wealth : Q) (b : band) : bool :=
  Qle_bool (fst b) wealth &&
  match snd b with
  | Some max_wealth => Qle_bool wealth max_wealth
  | None => true
  end.

(** The [for] loop of [calculate_economic_class]: the first band, in the
    dict's order, that contains the wealth. *)
Fixpoint first_band (wealth : Q) (l : list (EconomicClass * band))
  : option EconomicClass :=
  match l with
  | [] => None
  | (econ_class, b) :: rest =>
      if in_band wealth b then Some econ_class else first_band wealth rest
  end.

Definition calculate_economic_class (wealth : Q) : EconomicClass :=
  match first_band wealth CLASS_THRESHOLDS with
  | Some econ_class => econ_class
  | None => LOWER
  end.

(** The bands that contain a wealth value. *)
Definition bands_of (wealth : Q) : list EconomicClass :=
  map fst (List.filter (fun cb => in_band wealth (snd cb)) CLASS_THRESHOLDS).


Definition calculate_tax (income : Q) (economic_class : EconomicClass)
    (server_tax_modifier : Q) : Q :=
  let base_rate := CLASS_TAX_RATES economic_class in
  let effective_rate := base_rate * server_tax_modifier in
  income * effective_rate.

(** The divisors [max(employed_count, 1)], [max(skill_required, 1)] and
    the constant [1000000] are never zero, so these divisions cannot
    raise. *)
Definition calculate_salary (job : string) (server_data : Server.t)
    (user_skill : Z) (economic_phase : string) : result Q :=
  if String.eqb job "unemployed" then Ok 0
  else
    let! job_data := getitem JOBS job in
    let base_salary := Job.base_salary job_data in
    let! phase := getitem PHASE_MODIFIERS economic_phase in
    let phase_modifier := Phase.gdp_growth phase in
    let job_market :=
      default (JobMarket.mk 1 1.0) (Server.job_market server_data !! job) in
    let employed_count := JobMarket.employed job_market in
    let demand_elasticity := Job.demand_elasticity job_data in
    let supply_modifier :=
      1.0 + demand_elasticity * (1 / inject_Z (Z.max employed_count 1)) in
    let supply_modifier := Qmin supply_modifier 2.0 in
    let skill_required := Z.max (Job.skill_required job_data) 1 in
    let skill_modifier :=
      1.0 + (inject_Z user_skill / inject_Z skill_required) * 0.5 in
    let skill_modifier := Qmin skill_modifier 1.5 in
    let gdp_modifier := 1.0 + (Server.gdp server_data / 1000000) * 0.1 in
    let gdp_modifier := Qmin gdp_modifier 2.0 in
    let calculated_salary :=
      base_salary * phase_modifier * supply_modifier *
      skill_modifier * gdp_modifier in
    let min_wage := Server.min_wage server_data in
    Ok (Qmax calculated_salary min_wage).

Definition calculate_inflation (money_supply gdp velocity : Q) : Q :=
  if Qle_bool gdp 0 then 0.02
  else
    let price_level := (money_supply * velocity) / gdp in
    let inflation_rate := (price_level - 1.0) * INFLATION_SENSITIVITY in
    Qmax (-0.05) (Qmin inflation_rate 0.20).

(** [BASE_ITEMS.get(item, {"elasticity": 0.5, "necessity": 0.5})]: the two
    entries that are read, with their defaults for an unknown item. *)
Definition item_data_or_default (item : string) : Q * Q :=
  match BASE_ITEMS !! item with
  | Some item_data => (Item.elasticity item_data, Item.necessity item_data)
  | None => (0.5, 0.5)
  end.

Definition calculate_item_price (item : string)
    (base_price inflation_rate demand_factor : Q) : Q :=
  let item_data := item_data_or_default item in
  let inflation_adjusted := base_price * (1 + inflation_rate) in
  let elasticity := fst item_data in
  let demand_adjustment := 1.0 + ((demand_factor - 1.0) * elasticity) in
  let necessity := snd item_data in
  let price_floor := base_price * necessity * 0.5 in
  let final_price := inflation_adjusted * demand_adjustment in
  Qmax final_price price_floor.

Module CycleUpdate.
Record t : Type := mk {
  cycle_phase : string;
  phase_modifiers : Phase.t }.
End CycleUpdate.

(** The index of the phase that the elapsed time alone selects. *)
Definition current_phase_index (days_elapsed : Z) : Z :=
  let phase_duration :=
    inject_Z CYCLE_DURATION_DAYS / inject_Z (Z.of_nat (length CYCLE_PHASES)) in
  (py_int (inject_Z days_elapsed / phase_duration)
     mod Z.of_nat (length CYCLE_PHASES))%Z.

(** [utcnow] is the clock reading and [rnd] the value of
    [random.random()], a number of [[0, 1)]. *)
Definition update_economic_cycle (server_data : Server.t)
    (utcnow : datetime) (rnd : Q) : result CycleUpdate.t :=
  let cycle_start := Server.cycle_start server_data in
  let days_elapsed := timedelta_days (utcnow - cycle_start) in
  match CYCLE_PHASES !! Z.to_nat (current_phase_index days_elapsed) with
  | None => Raise IndexError
  | Some new_phase =>
      let new_phase :=
        if negb (Qle_bool 0.05 rnd) && String.eqb new_phase "expansion"
        then "recession" else new_phase in
      let! modifiers := getitem PHASE_MODIFIERS new_phase in
      Ok (CycleUpdate.mk new_phase modifiers)
  end.

Definition calculate_crime_success_rate (crime_type : string)
    (user_skill : Z) (inequality police_strength unemployment_rate : Q)
  : result Q :=
  let! crime_data := getitem CRIME_TYPES crime_type in
  let base_success := Crime.base_success crime_data in
  let skill_required := Crime.skill_required crime_data in
  let skill_bonus := inject_Z (user_skill - skill_required) * 0.05 in
  let inequality_bonus := Qmax 0 ((inequality - 0.45) * 0.5) in
  let unemployment_bonus := unemployment_rate * 0.3 in
  let police_penalty := police_strength * 0.2 in
  let success_rate :=
    base_success + skill_bonus + inequality_bonus +
    unemployment_bonus - police_penalty in
  Ok (Qmax 0.05 (Qmin success_rate 0.95)).

(** [random_shock] is the value drawn by
    [random.gauss(0, risk * math.sqrt(time_factor))]; the square root
    raises [ValueError] on a negative holding period. *)
Definition calculate_investment_return (investment_type : string)
    (market_conditions : gmap string Q) (holding_period_days : Z)
    (random_shock : Q) : result Q :=
  let! investment_data := getitem INVESTMENT_TYPES investment_type in
  let annual_return := Investment.annual_return investment_data in
  let time_factor := inject_Z holding_period_days / 365.0 in
  let expected_return := annual_return * time_factor in
  let gdp_growth := default 1.0 (market_conditions !! "gdp_growth") in
  let market_modifier := (gdp_growth - 0.9) * 2 in
  if negb (Qle_bool 0 time_factor) then Raise ValueError
  else
    let total_return := expected_return + market_modifier + random_shock in
    if String.eqb investment_type "cryptocurrency"
    then Ok (Qmax (-0.90) (Qmin total_return 5.0))
    else if String.eqb investment_type "venture_capital"
    then Ok (Qmax (-0.80) (Qmin total_return 3.0))
    else Ok (Qmax (-0.50) (Qmin total_return 1.0)).

(** [log10_experience] is the value of
    [math.log10(max(job_experience + 1, 1))]. *)
Definition calculate_productivity (skill_level : Z) (log10_experience : Q)
    (economic_phase : string) : result Q :=
  let base_productivity := 1.0 in
  let skill_factor := 1.0 + (inject_Z skill_level * 0.05) in
  let experience_factor := 1.0 + log10_experience * 0.1 in
  let! phase := getitem PHASE_MODIFIERS economic_phase in
  let cycle_factor := Phase.gdp_growth phase in
  let productivity :=
    base_productivity * skill_factor * experience_factor * cycle_factor in
  Ok (Qmin productivity 3.0).


(** ** database.py: the collections and their operations *)

Record database : Type := mkdb {
  users : list User.t;
  servers : list Server.t;
  transactions : list Txn.t;
  loans : list Loan.t;
  investments : list Holding.t;
  crimes : list CrimeRecord.t;
  market_history : list Snapshot.t;
  next_id : Z }.

Definition set_users (v : list User.t) (db : database) : database :=
  mkdb v (servers db) (transactions db) (loans db) (investments db)
       (crimes db) (market_history db) (next_id db).
Definition set_servers (v : list Server.t) (db : database) : database :=
  mkdb (users db) v (transactions db) (loans db) (investments db)
       (crimes db) (market_history db) (next_id db).
Definition set_transactions (v : list Txn.t) (db : database) : database :=
  mkdb (users db) (servers db) v (loans db) (investments db)
       (crimes db) (market_history db) (next_id db).
Definition set_loans (v : list Loan.t) (db : database) : database :=
  mkdb (users db) (servers db) (transactions db) v (investments db)
       (crimes db) (market_history db) (next_id db).
Definition set_investments (v : list Holding.t) (db : database) : database :=
  mkdb (users db) (servers db) (transactions db) (loans db) v
       (crimes db) (market_history db) (next_id db).
Definition set_crimes (v : list CrimeRecord.t) (db : database) : database :=
  mkdb (users db) (servers db) (transactions db) (loans db) (investments db)
       v (market_history db) (next_id db).
Definition set_market_history (v : list Snapshot.t) (db : database)
  : database :=
  mkdb (users db) (servers db) (transactions db) (loans db) (investments db)
       (crimes db) v (next_id db).
Definition set_next_id (v : Z) (db : database) : database :=
  mkdb (users db) (servers db) (transactions db) (loans db) (investments db)
       (crimes db) (market_history db) v.

(** [collection.find_one(filter)]: the first document that matches. *)
Definition find_one {A} (matches : A -> bool) (docs : list A) : option A :=
  head (List.filter matches docs).

(** [collection.update_one(filter, {"$set": ...})]: the first document
    that matches is replaced by its update; nothing changes when none
    matches. *)
Fixpoint update_one {A} (matches : A -> bool) (set : A -> A) (docs : list A)
  : list A :=
  match docs with
  | [] => []
  | doc :: rest =>
      if matches doc then set doc :: rest
      else doc :: update_one matches set rest
  end.

(** A [$set] document is the list of its field assignments, applied in
    order. *)
Definition apply_set {A} (update_data : list (A -> A)) (doc : A) : A :=
  foldl (fun d assign => assign d) doc update_data.

(** [sum(xs)]: a left fold from [0]. *)
Definition py_sum (xs : list Q) : Q := foldl Qplus 0 xs.

Global Instance Qle_dec : RelDecision Qle :=
  fun x y => decide (Qnum x * QDen y <= Qnum y * QDen x)%Z.

(** [sorted(xs)] on numbers. *)
Definition sorted (xs : list Q) : list Q := merge_sort Qle xs.

Module UserSet.
Import User.
Definition balance (v : Q) (u : t) : t :=
  mk (user_id u) (guild_id u) v (bank u) (job u) (skill_level u)
     (experience u) (last_work u) (last_crime u) (jail_until u)
     (reputation u) (statistics u).
Definition bank (v : Q) (u : t) : t :=
  mk (user_id u) (guild_id u) (User.balance u) v (job u) (skill_level u)
     (experience u) (last_work u) (last_crime u) (jail_until u)
     (reputation u) (statistics u).
Definition skill_level (v : Z) (u : t) : t :=
  mk (user_id u) (guild_id u) (User.balance u) (User.bank u) (job u) v
     (experience u) (last_work u) (last_crime u) (jail_until u)
     (reputation u) (statistics u).
Definition experience (v : Z) (u : t) : t :=
  mk (user_id u) (guild_id u) (User.balance u) (User.bank u) (job u)
     (User.skill_level u) v (last_work u) (last_crime u) (jail_until u)
     (reputation u) (statistics u).
Definition last_work (v : option datetime) (u : t) : t :=
  mk (user_id u) (guild_id u) (User.balance u) (User.bank u) (job u)
     (User.skill_level u) (User.experience u) v (last_crime u)
     (jail_until u) (reputation u) (statistics u).
Definition last_crime (v : option datetime) (u : t) : t :=
  mk (user_id u) (guild_id u) (User.balance u) (User.bank u) (job u)
     (User.skill_level u) (User.experience u) (User.last_work u) v
     (jail_until u) (reputation u) (statistics u).
Definition jail_until (v : option datetime) (u : t) : t :=
  mk (user_id u) (guild_id u) (User.balance u) (User.bank u) (job u)
     (User.skill_level u) (User.experience u) (User.last_work u)
     (User.last_crime u) v (reputation u) (statistics u).
Definition reputation (v : Z) (u : t) : t :=
  mk (user_id u) (guild_id u) (User.balance u) (User.bank u) (job u)
     (User.skill_level u) (User.experience u) (User.last_work u)
     (User.last_crime u) (User.jail_until u) v (statistics u).
Definition statistics (f : Stats.t -> Stats.t) (u : t) : t :=
  mk (user_id u) (guild_id u) (User.balance u) (User.bank u) (job u)
     (User.skill_level u) (User.experience u) (User.last_work u)
     (User.last_crime u) (User.jail_until u) (User.reputation u)
     (f (User.statistics u)).
End UserSet.

Module StatsSet.
Import Stats.
Definition total_earned (v : Q) (s : t) : t :=
  mk v (total_spent s) (crimes_committed s) (crimes_success s)
     (jobs_worked s) (taxes_paid s) (loans_taken s) (investments_made s).
Definition total_spent (v : Q) (s : t) : t :=
  mk (Stats.total_earned s) v (crimes_committed s) (crimes_success s)
     (jobs_worked s) (taxes_paid s) (loans_taken s) (investments_made s).
Definition crimes_committed (v : Z) (s : t) : t :=
  mk (Stats.total_earned s) (Stats.total_spent s) v (crimes_success s)
     (jobs_worked s) (taxes_paid s) (loans_taken s) (investments_made s).
Definition crimes_success (v : Z) (s : t) : t :=
  mk (Stats.total_earned s) (Stats.total_spent s) (Stats.crimes_committed s)
     v (jobs_worked s) (taxes_paid s) (loans_taken s) (investments_made s).
Definition jobs_worked (v : Z) (s : t) : t :=
  mk (Stats.total_earned s) (Stats.total_spent s) (Stats.crimes_committed s)
     (Stats.crimes_success s) v (taxes_paid s) (loans_taken s)
     (investments_made s).
Definition taxes_paid (v : Q) (s : t) : t :=
  mk (Stats.total_earned s) (Stats.total_spent s) (Stats.crimes_committed s)
     (Stats.crimes_success s) (Stats.jobs_worked s) v (loans_taken s)
     (investments_made s).
Definition investments_made (v : Z) (s : t) : t :=
  mk (Stats.total_earned s) (Stats.total_spent s) (Stats.crimes_committed s)
     (Stats.crimes_success s) (Stats.jobs_worked s) (Stats.taxes_paid s)
     (loans_taken s) v.
End StatsSet.

Module ServerSet.
Import Server.
Definition gdp (v : Q) (s : t) : t :=
  mk (guild_id s) (settings s) v (total_money_supply s) (inflation_rate s)
     (unemployment_rate s) (gini_coefficient s) (cycle_phase s)
     (cycle_start s) (interest_rate s) (min_wage s) (tax_revenue s)
     (government_budget s) (market_prices s) (job_market s) (last_update s)
     (created_at s).
Definition total_money_supply (v : Q) (s : t) : t :=
  mk (guild_id s) (settings s) (Server.gdp s) v (inflation_rate s)
     (unemployment_rate s) (gini_coefficient s) (cycle_phase s)
     (cycle_start s) (interest_rate s) (min_wage s) (tax_revenue s)
     (government_budget s) (market_prices s) (job_market s) (last_update s)
     (created_at s).
Definition inflation_rate (v : Q) (s : t) : t :=
  mk (guild_id s) (settings s) (Server.gdp s) (Server.total_money_supply s)
     v (unemployment_rate s) (gini_coefficient s) (cycle_phase s)
     (cycle_start s) (interest_rate s) (min_wage s) (tax_revenue s)
     (government_budget s) (market_prices s) (job_market s) (last_update s)
     (created_at s).
Definition unemployment_rate (v : Q) (s : t) : t :=
  mk (guild_id s) (settings s) (Server.gdp s) (Server.total_money_supply s)
     (Server.inflation_rate s) v (gini_coefficient s) (cycle_phase s)
     (cycle_start s) (interest_rate s) (min_wage s) (tax_revenue s)
     (government_budget s) (market_prices s) (job_market s) (last_update s)
     (created_at s).
Definition gini_coefficient (v : Q) (s : t) : t :=
  mk (guild_id s) (settings s) (Server.gdp s) (Server.total_money_supply s)
     (Server.inflation_rate s) (Server.unemployment_rate s) v
     (cycle_phase s) (cycle_start s) (interest_rate s) (min_wage s)
     (tax_revenue s) (government_budget s) (market_prices s) (job_market s)
     (last_update s) (created_at s).
Definition cycle_phase (v : string) (s : t) : t :=
  mk (guild_id s) (settings s) (Server.gdp s) (Server.total_money_supply s)
     (Server.inflation_rate s) (Server.unemployment_rate s)
     (Server.gini_coefficient s) v (cycle_start s) (interest_rate s)
     (min_wage s) (tax_revenue s) (government_budget s) (market_prices s)
     (job_market s) (last_update s) (created_at s).
Definition tax_revenue (v : Q) (s : t) : t :=
  mk (guild_id s) (settings s) (Server.gdp s) (Server.total_money_supply s)
     (Server.inflation_rate s) (Server.unemployment_rate s)
     (Server.gini_coefficient s) (Server.cycle_phase s) (cycle_start s)
     (interest_rate s) (min_wage s) v (government_budget s)
     (market_prices s) (job_market s) (last_update s) (created_at s).
Definition government_budget (v : Q) (s : t) : t :=
  mk (guild_id s) (settings s) (Server.gdp s) (Server.total_money_supply s)
     (Server.inflation_rate s) (Server.unemployment_rate s)
     (Server.gini_coefficient s) (Server.cycle_phase s) (cycle_start s)
     (interest_rate s) (min_wage s) (Server.tax_revenue s) v
     (market_prices s) (job_market s) (last_update s) (created_at s).
Definition market_prices (v : list (string * Q)) (s : t) : t :=
  mk (guild_id s) (settings s) (Server.gdp s) (Server.total_money_supply s)
     (Server.inflation_rate s) (Server.unemployment_rate s)
     (Server.gini_coefficient s) (Server.cycle_phase s) (cycle_start s)
     (interest_rate s) (min_wage s) (Server.tax_revenue s)
     (Server.government_budget s) v (job_market s) (last_update s)
     (created_at s).
Definition last_update (v : datetime) (s : t) : t :=
  mk (guild_id s) (settings s) (Server.gdp s) (Server.total_money_supply s)
     (Server.inflation_rate s) (Server.unemployment_rate s)
     (Server.gini_coefficient s) (Server.cycle_phase s) (cycle_start s)
     (interest_rate s) (min_wage s) (Server.tax_revenue s)
     (Server.government_budget s) (Server.market_prices s) (job_market s) v
     (created_at s).
End ServerSet.

Module LoanSet.
Import Loan.
Definition remaining (v : Q) (l : t) : t :=
  mk (_id l) (user_id l) (guild_id l) (principal l) (interest_rate l) v
     (due_date l) (created_at l) (defaulted l).
Definition defaulted (v : bool) (l : t) : t :=
  mk (_id l) (user_id l) (guild_id l) (principal l) (interest_rate l)
     (Loan.remaining l) (due_date l) (created_at l) v.
End LoanSet.

Module HoldingSet.
Import Holding.
Definition current_value (v : Q) (h : t) : t :=
  mk (_id h) (user_id h) (guild_id h) (type h) (principal h) v
     (created_at h) (last_update h).
Definition last_update (v : datetime) (h : t) : t :=
  mk (_id h) (user_id h) (guild_id h) (type h) (principal h)
     (Holding.current_value h) (created_at h) v.
End HoldingSet.

Definition is_user (user_id guild_id : Z) (u : User.t) : bool :=
  (User.user_id u =? user_id)%Z && (User.guild_id u =? guild_id)%Z.

Definition in_guild (guild_id : Z) (u : User.t) : bool :=
  (User.guild_id u =? guild_id)%Z.

Definition is_server (guild_id : Z) (s : Server.t) : bool :=
  (Server.guild_id s =? guild_id)%Z.

Definition default_user (user_id guild_id : Z) : User.t :=
  User.mk user_id guild_id 1000 0 "unemployed" 0 0 None None None 0
          (Stats.mk 1000 0 0 0 0 0 0 0).

(** Get or create the user profile. *)
Definition get_user (user_id guild_id : Z) (db : database)
  : User.t * database :=
  match find_one (is_user user_id guild_id) (users db) with
  | Some user => (user, db)
  | None =>
      let user := default_user user_id guild_id in
      (user, set_users (users db ++ [user]) db)
  end.

Definition update_user (user_id guild_id : Z)
    (update_data : list (User.t -> User.t)) (db : database) : database :=
  set_users
    (update_one (is_user user_id guild_id) (apply_set update_data) (users db))
    db.

Definition default_server (guild_id : Z) (utcnow : datetime) : Server.t :=
  Server.mk guild_id DEFAULT_SERVER_SETTINGS 0 0 0.02 0.05 0.0 "expansion"
            utcnow 0.05 1500 0 0
            (map (fun kv => (fst kv, Item.base_price (snd kv))) BASE_ITEMS_items)
            ((fun _ => JobMarket.mk 0 1.0) <$> JOBS)
            utcnow utcnow.

(** Get or create the server economy. *)
Definition get_server (guild_id : Z) (utcnow : datetime) (db : database)
  : Server.t * database :=
  match find_one (is_server guild_id) (servers db) with
  | Some server => (server, db)
  | None =>
      let server := default_server guild_id utcnow in
      (server, set_servers (servers db ++ [server]) db)
  end.

Definition update_server (guild_id : Z)
    (update_data : list (Server.t -> Server.t)) (db : database) : database :=
  set_servers
    (update_one (is_server guild_id) (apply_set update_data) (servers db))
    db.

Definition record_transaction (guild_id from_user to_user : Z) (amount : Q)
    (transaction_type : string) (utcnow : datetime) (db : database)
  : database :=
  set_transactions
    (transactions db ++
       [Txn.mk guild_id from_user to_user amount transaction_type utcnow])
    db.

(** The weighted sum [sum((i + 1) * w for i, w in enumerate(wealth))]. *)
Definition rank_weighted_sum (wealth : list Q) : Q :=
  py_sum (imap (fun i w => inject_Z (Z.of_nat i + 1) * w) wealth).

Definition calculate_gini_coefficient (guild_id : Z) (db : database)
  : result Q :=
  let users := List.filter (in_guild guild_id) (users db) in
  if (length users <? 2)%nat then Ok 0.0
  else
    let wealth := sorted (map (fun u => User.balance u + User.bank u) users) in
    let n := inject_Z (Z.of_nat (length wealth)) in
    let cumsum := rank_weighted_sum wealth in
    let! ratio := pydiv (2 * cumsum) (n * py_sum wealth) in
    let! share := pydiv (n + 1) n in
    Ok (ratio - share).

Definition get_gdp (guild_id : Z) (days : Z) (utcnow : datetime)
    (db : database) : Q :=
  let cutoff := (utcnow - timedelta_of_days days)%Z in
  let matched :=
    List.filter
      (fun t => (Txn.guild_id t =? guild_id)%Z && (cutoff <=? Txn.timestamp t)%Z)
      (transactions db) in
  match matched with
  | [] => 0.0
  | _ => py_sum (map Txn.amount matched)
  end.

Definition create_loan (user_id guild_id : Z) (amount interest_rate : Q)
    (duration_days : Z) (utcnow : datetime) (db : database)
  : Loan.t * database :=
  let loan :=
    Loan.mk (next_id db) user_id guild_id amount interest_rate
            (amount * (1 + interest_rate))
            (utcnow + timedelta_of_days duration_days)%Z utcnow false in
  (loan, set_next_id (next_id db + 1)%Z (set_loans (loans db ++ [loan]) db)).

Definition is_active_loan (user_id guild_id : Z) (l : Loan.t) : bool :=
  (Loan.user_id l =? user_id)%Z && (Loan.guild_id l =? guild_id)%Z &&
  negb (Qle_bool (Loan.remaining l) 0) && negb (Loan.defaulted l).

Definition get_active_loans (user_id guild_id : Z) (db : database)
  : list Loan.t :=
  List.filter (is_active_loan user_id guild_id) (loans db).

Definition create_investment (user_id guild_id : Z) (investment_type : string)
    (amount : Q) (utcnow : datetime) (db : database)
  : Holding.t * database :=
  let investment :=
    Holding.mk (next_id db) user_id guild_id investment_type amount amount
               utcnow utcnow in
  (investment,
   set_next_id (next_id db + 1)%Z
     (set_investments (investments db ++ [investment]) db)).

Definition record_crime (user_id guild_id : Z) (crime_type : string)
    (success : bool) (amount : Q) (utcnow : datetime) (db : database)
  : database :=
  set_crimes
    (crimes db ++
       [CrimeRecord.mk user_id guild_id crime_type success amount utcnow])
    db.

Definition record_market_snapshot (guild_id : Z) (utcnow : datetime)
    (gdp inflation unemployment gini : Q) (cycle_phase : string)
    (db : database) : database :=
  set_market_history
    (market_history db ++
       [Snapshot.mk guild_id utcnow gdp inflation unemployment gini
                    cycle_phase])
    db.

Definition get_unemployment_rate (guild_id : Z) (db : database) : Q :=
  let guild_users := List.filter (in_guild guild_id) (users db) in
  let total := Z.of_nat (length guild_users) in
  let unemployed :=
    Z.of_nat
      (length (List.filter (fun u => String.eqb (User.job u) "unemployed")
                           guild_users)) in
  inject_Z unemployed / inject_Z (Z.max total 1).


(** ** bot.py: the background tasks *)

(** In a stateful operation, [try! x := r at db in k] runs the pure step
    [r]; if it raises, the operation stops with the database [db]. *)
Notation "'try!' x ':=' r 'at' db 'in' k" :=
  (match r with
   | Ok x => k
   | Raise e => (db, Raise e)
   end)
  (at level 10, x name, r at level 100, db at level 9, k at level 200).

(** The price loop of [update_server_economy]. *)
Definition reprice (inflation : Q) (entry : string * Q)
  : result (string * Q) :=
  let item := fst entry in
  let! item_data := getitem BASE_ITEMS item in
  Ok (item, calculate_item_price item (Item.base_price item_data) inflation 1.0).

(** [rnd] is the value of [random.random()] drawn by the cycle update. *)
Definition update_server_economy (guild_id : Z) (utcnow : datetime) (rnd : Q)
    (db : database) : database * result unit :=
  let '(server, db) := get_server guild_id utcnow db in
  try! cycle_update := update_economic_cycle server utcnow rnd at db in
  let new_gdp := get_gdp guild_id 7 utcnow db in
  let total_money :=
    py_sum (map (fun u => User.balance u + User.bank u)
                (List.filter (in_guild guild_id) (users db))) in
  let inflation := calculate_inflation total_money new_gdp 1.5 in
  try! new_prices := rmap (reprice inflation) (Server.market_prices server)
    at db in
  try! gini := calculate_gini_coefficient guild_id db at db in
  let unemployment := get_unemployment_rate guild_id db in
  let db :=
    update_server guild_id
      [ ServerSet.cycle_phase (CycleUpdate.cycle_phase cycle_update);
        ServerSet.gdp new_gdp;
        ServerSet.total_money_supply total_money;
        ServerSet.inflation_rate inflation;
        ServerSet.market_prices new_prices;
        ServerSet.gini_coefficient gini;
        ServerSet.unemployment_rate unemployment;
        ServerSet.last_update utcnow ] db in
  let db :=
    record_market_snapshot guild_id utcnow new_gdp inflation unemployment gini
      (CycleUpdate.cycle_phase cycle_update) db in
  (db, Ok tt).

(** The body of an [async for] over a cursor: the documents are visited
    in order and the first exception leaves the loop. *)
Section ForEach.
Context {A : Type} (body : A -> database -> database * result unit).

Fixpoint for_each (cursor : list A) (db : database)
  : database * result unit :=
  match cursor with
  | [] => (db, Ok tt)
  | doc :: rest =>
      match body doc db with
      | (db', Ok _) => for_each rest db'
      | (db', Raise e) => (db', Raise e)
      end
  end.
End ForEach.

(** [try: ... except Exception as e: print(...)] around a whole task: the
    exception, if any, is what gets printed. *)
Definition logged (r : database * result unit) : database * option exn :=
  match r with
  | (db, Ok _) => (db, None)
  | (db, Raise e) => (db, Some e)
  end.

(** [rnd g] is the random number drawn during the update of guild [g]. *)
Definition economic_update_loop (utcnow : datetime) (rnd : Z -> Q)
    (db : database) : database * option exn :=
  logged
    (for_each
       (fun server db =>
          let guild_id := Server.guild_id server in
          update_server_economy guild_id utcnow (rnd guild_id) db)
       (servers db) db).

Definition handle_loan_default (loan : Loan.t) (db : database) : database :=
  let '(user, db) := get_user (Loan.user_id loan) (Loan.guild_id loan) db in
  let total_assets := User.balance user + User.bank user in
  let seized := Qmin total_assets (Loan.remaining loan) in
  let remaining_balance := total_assets - seized in
  let db :=
    update_user (Loan.user_id loan) (Loan.guild_id loan)
      [ UserSet.balance remaining_balance;
        UserSet.bank 0;
        UserSet.reputation (User.reputation user - 50)%Z ] db in
  set_loans
    (update_one (fun l => (Loan._id l =? Loan._id loan)%Z)
       (apply_set
          [ LoanSet.defaulted true;
            LoanSet.remaining (Qmax 0 (Loan.remaining loan - seized)) ])
       (loans db))
    db.

Definition is_overdue (utcnow : datetime) (l : Loan.t) : bool :=
  (Loan.due_date l <? utcnow)%Z && negb (Qle_bool (Loan.remaining l) 0) &&
  negb (Loan.defaulted l).

Definition loan_check_loop (utcnow : datetime) (db : database)
  : database * option exn :=
  let overdue_loans := List.filter (is_overdue utcnow) (loans db) in
  logged
    (for_each (fun loan db => (handle_loan_default loan db, Ok tt))
       overdue_loans db).

(** [random_shock] is the Gaussian draw of the return computation. *)
Definition update_investment_value (investment : Holding.t)
    (utcnow : datetime) (random_shock : Q) (db : database)
  : database * result unit :=
  let '(server, db) := get_server (Holding.guild_id investment) utcnow db in
  let days_held := timedelta_days (utcnow - Holding.last_update investment) in
  if (days_held =? 0)%Z then (db, Ok tt)
  else
    try! phase := getitem PHASE_MODIFIERS (Server.cycle_phase server) at db in
    let market_conditions : gmap string Q :=
      {[ "gdp_growth" := Phase.gdp_growth phase ]} in
    try! return_rate :=
      calculate_investment_return (Holding.type investment) market_conditions
        days_held random_shock at db in
    let new_value := Holding.current_value investment * (1 + return_rate) in
    (set_investments
       (update_one (fun h => (Holding._id h =? Holding._id investment)%Z)
          (apply_set
             [ HoldingSet.current_value new_value;
               HoldingSet.last_update utcnow ])
          (investments db))
       db,
     Ok tt).

(** [shock i] is the Gaussian draw made for the investment of identifier
    [i]. *)
Definition investment_update_loop (utcnow : datetime) (shock : Z -> Q)
    (db : database) : database * option exn :=
  logged
    (for_each
       (fun investment db =>
          update_investment_value investment utcnow
            (shock (Holding._id investment)) db)
       (investments db) db).

(** ** The slash commands

    A command answers with a message.  A rejection is an ephemeral text
    message (the leading emoji of the source is dropped); a success is an
    embed, of which the title and the amounts shown are kept.

    The numbers of the documents are finite.  A command that takes its
    amount as a text can be handed a text that [float()] reads as NaN or
    as an infinity; when such a value passes the checks of the command,
    the command answers with its success embed and writes that value to
    the documents.  The records below cannot hold it: such a run is
    reported with the reply [EmbedNonFinite], and the database returned
    with it is the one before the writes of the command. *)

Inductive reply : Type :=
| Ephemeral (message : string)
| Embed (title : string) (amounts : list Q)
| EmbedNonFinite (title : string).

(** A Python float: a finite number, an infinity or NaN. *)
Inductive pyfloat : Type :=
| Finite (value : Q)
| Infinity (negative : bool)
| NaN.

(** [x <= y] and [x < y] on floats: both are false as soon as one side
    is NaN. *)
Definition float_le (x y : pyfloat) : bool :=
  match x, y with
  | NaN, _ | _, NaN => false
  | Finite a, Finite b => Qle_bool a b
  | Infinity true, _ => true
  | _, Infinity false => true
  | _, _ => false
  end.

Definition float_lt (x y : pyfloat) : bool :=
  match x, y with
  | NaN, _ | _, NaN => false
  | Finite a, Finite b => negb (Qle_bool b a)
  | Infinity true, Infinity true => false
  | Infinity true, _ => true
  | Infinity false, _ => false
  | Finite _, Infinity negative => negb negative
  end.

(** The text a user types for an amount: the word [all] in any case, or
    a text handed to [float()], which reads it as a finite number, as an
    infinity ([inf], [-inf], [1e999]) or as NaN ([nan]), and raises
    [ValueError] on any other text. *)
Inductive amount_text : Type :=
| All
| Number (value : Q)
| Infinite (negative : bool)
| NotANumber
| Garbage.

(** [float(amount)] on a text other than [all]. *)
Definition float (amount : amount_text) : result pyfloat :=
  match amount with
  | Number value => Ok (Finite value)
  | Infinite negative => Ok (Infinity negative)
  | NotANumber => Ok NaN
  | All | Garbage => Raise ValueError
  end.

(** [(utcnow - last).total_seconds() < cooldown] for a timestamp that is
    set. *)
Definition on_cooldown (last : option datetime) (utcnow : datetime)
    (cooldown : Z) : bool :=
  match last with
  | Some t => (utcnow - t <? timedelta_of_seconds cooldown)%Z
  | None => false
  end.

(** [user["jail_until"] and datetime.utcnow() < user["jail_until"]] *)
Definition in_jail (user : User.t) (utcnow : datetime) : bool :=
  match User.jail_until user with
  | Some until => (utcnow <? until)%Z
  | None => false
  end.

(** [random.uniform(a, b)], where [u] is the underlying [random()]. *)
Definition uniform (a b u : Q) : Q := a + (b - a) * u.

(** [text.lower().replace(" ", "_")] on ASCII text. *)
Definition lower_char (c : ascii) : ascii :=
  let n := nat_of_ascii c in
  if (65 <=? n)%nat && (n <=? 90)%nat then ascii_of_nat (n + 32) else c.

Fixpoint normalize_key (text : string) : string :=
  match text with
  | EmptyString => EmptyString
  | String c rest =>
      String (if Ascii.eqb c " " then "_"%char else lower_char c)
             (normalize_key rest)
  end.

(** *** bot.py: work

    [log10_experience] is the value of the logarithm in the productivity
    formula, [rnd] and [randint] the values of [random.random()] and
    [random.randint(1, 3)] of the skill gain. *)
Definition work (user_id guild_id : Z) (utcnow : datetime)
    (log10_experience rnd : Q) (randint : Z) (db : database)
  : database * result reply :=
  let '(user, db) := get_user user_id guild_id db in
  let '(server, db) := get_server guild_id utcnow db in
  if String.eqb (User.job user) "unemployed"
  then (db, Ok (Ephemeral "You need to get a job first!"))
  else if on_cooldown (User.last_work user) utcnow COOLDOWN_work
  then (db, Ok (Ephemeral "You're tired!"))
  else if in_jail user utcnow
  then (db, Ok (Ephemeral "You can't work while in jail!"))
  else
    try! salary :=
      calculate_salary (User.job user) server (User.skill_level user)
        (Server.cycle_phase server) at db in
    try! productivity :=
      calculate_productivity (User.skill_level user) log10_experience
        (Server.cycle_phase server) at db in
    let earnings := salary * productivity in
    let total_wealth := User.balance user + User.bank user in
    let economic_class := calculate_economic_class total_wealth in
    let tax :=
      calculate_tax earnings economic_class
        (Settings.tax_rate (Server.settings server)) in
    let net_earnings := earnings - tax in
    let skill_gain := if negb (Qle_bool 0.3 rnd) then randint else 0%Z in
    let new_skill := Z.min (User.skill_level user + skill_gain) 10 in
    let stats := User.statistics user in
    let db :=
      update_user user_id guild_id
        [ UserSet.balance (User.balance user + net_earnings);
          UserSet.skill_level new_skill;
          UserSet.experience (User.experience user + 1)%Z;
          UserSet.last_work (Some utcnow);
          UserSet.statistics
            (StatsSet.jobs_worked (Stats.jobs_worked stats + 1)%Z);
          UserSet.statistics
            (StatsSet.total_earned (Stats.total_earned stats + net_earnings));
          UserSet.statistics
            (StatsSet.taxes_paid (Stats.taxes_paid stats + tax)) ] db in
    let db :=
      record_transaction guild_id 0 user_id net_earnings "work_income" utcnow
        db in
    let db :=
      update_server guild_id
        [ ServerSet.tax_revenue (Server.tax_revenue server + tax);
          ServerSet.government_budget (Server.government_budget server + tax) ]
        db in
    (db, Ok (Embed "Shift Complete" [earnings; tax; net_earnings])).

(** *** bot_commands.py: banking *)

Definition deposit (user_id guild_id : Z) (utcnow : datetime)
    (amount : amount_text) (db : database) : database * result reply :=
  let '(user, db) := get_user user_id guild_id db in
  let '(server, db) := get_server guild_id utcnow db in
  match match amount with
        | All => Ok (Finite (User.balance user))
        | _ => float amount
        end with
  | Raise _ => (db, Ok (Ephemeral "Invalid amount!"))
  | Ok deposit_amount =>
      if float_le deposit_amount (Finite 0)
      then (db, Ok (Ephemeral "Amount must be positive!"))
      else if float_lt (Finite (User.balance user)) deposit_amount
      then (db, Ok (Ephemeral "Insufficient funds!"))
      else
        match deposit_amount with
        | Finite deposit_amount =>
            let new_balance := User.balance user - deposit_amount in
            let new_bank := User.bank user + deposit_amount in
            let db :=
              update_user user_id guild_id
                [UserSet.balance new_balance; UserSet.bank new_bank] db in
            (db, Ok (Embed "Deposit Successful"
                           [deposit_amount; new_balance; new_bank]))
        | _ => (db, Ok (EmbedNonFinite "Deposit Successful"))
        end
  end.

Definition withdraw (user_id guild_id : Z) (utcnow : datetime)
    (amount : amount_text) (db : database) : database * result reply :=
  let '(user, db) := get_user user_id guild_id db in
  let '(server, db) := get_server guild_id utcnow db in
  match match amount with
        | All => Ok (Finite (User.bank user))
        | _ => float amount
        end with
  | Raise _ => (db, Ok (Ephemeral "Invalid amount!"))
  | Ok withdraw_amount =>
      if float_le withdraw_amount (Finite 0)
      then (db, Ok (Ephemeral "Amount must be positive!"))
      else if float_lt (Finite (User.bank user)) withdraw_amount
      then (db, Ok (Ephemeral "Insufficient funds in bank!"))
      else
        match withdraw_amount with
        | Finite withdraw_amount =>
            let new_bank := User.bank user - withdraw_amount in
            let new_balance := User.balance user + withdraw_amount in
            let db :=
              update_user user_id guild_id
                [UserSet.balance new_balance; UserSet.bank new_bank] db in
            (db, Ok (Embed "Withdrawal Successful"
                           [withdraw_amount; new_bank; new_balance]))
        | _ => (db, Ok (EmbedNonFinite "Withdrawal Successful"))
        end
  end.

Definition transfer (user_id guild_id : Z) (utcnow : datetime)
    (target_id : Z) (amount : Q) (db : database) : database * result reply :=
  let '(sender, db) := get_user user_id guild_id db in
  let '(receiver, db) := get_user target_id guild_id db in
  let '(server, db) := get_server guild_id utcnow db in
  if Qle_bool amount 0
  then (db, Ok (Ephemeral "Amount must be positive!"))
  else if negb (Qle_bool amount (User.balance sender))
  then (db, Ok (Ephemeral "Insufficient funds!"))
  else if (target_id =? user_id)%Z
  then (db, Ok (Ephemeral "You can't transfer to yourself!"))
  else
    let fee := amount * 0.005 in
    let net_amount := amount - fee in
    let db :=
      update_user user_id guild_id
        [ UserSet.balance (User.balance sender - amount);
          UserSet.statistics
            (StatsSet.total_spent
               (Stats.total_spent (User.statistics sender) + amount)) ] db in
    let db :=
      update_user target_id guild_id
        [ UserSet.balance (User.balance receiver + net_amount);
          UserSet.statistics
            (StatsSet.total_earned
               (Stats.total_earned (User.statistics receiver) + net_amount)) ]
        db in
    let db :=
      record_transaction guild_id user_id target_id net_amount "transfer"
        utcnow db in
    (db, Ok (Embed "Transfer Complete" [amount; fee; net_amount])).

(** *** bot_commands.py: loans *)

(** [sorted(loans, key=lambda x: x["due_date"])]: a stable sort, in which
    loans with the same due date keep the order of the cursor. *)
Fixpoint insert_by_due_date (loan : Loan.t) (ordered : list Loan.t)
  : list Loan.t :=
  match ordered with
  | [] => [loan]
  | next :: rest =>
      if (Loan.due_date loan <=? Loan.due_date next)%Z
      then loan :: ordered
      else next :: insert_by_due_date loan rest
  end.

Definition sorted_by_due_date (loans : list Loan.t) : list Loan.t :=
  foldr insert_by_due_date [] loans.

(** The payment loop of [repay] over the loans in due-date order. *)
Fixpoint repay_loop (remaining_payment : Q) (ordered : list Loan.t)
    (db : database) : database :=
  match ordered with
  | [] => db
  | loan :: rest =>
      if Qle_bool remaining_payment 0 then db
      else
        let payment := Qmin remaining_payment (Loan.remaining loan) in
        let new_remaining := Loan.remaining loan - payment in
        let db :=
          set_loans
            (update_one (fun l => (Loan._id l =? Loan._id loan)%Z)
               (apply_set [LoanSet.remaining new_remaining]) (loans db))
            db in
        repay_loop (remaining_payment - payment) rest db
  end.

(** A repayment that is NaN passes the only check, is paid into every
    active loan and taken from the cash balance; a repayment of [-inf]
    passes it too, leaves the loop at once and is taken from the cash
    balance. *)
Definition repay (user_id guild_id : Z) (utcnow : datetime)
    (amount : amount_text) (db : database) : database * result reply :=
  let '(user, db) := get_user user_id guild_id db in
  let '(server, db) := get_server guild_id utcnow db in
  let loans := get_active_loans user_id guild_id db in
  match loans with
  | [] => (db, Ok (Ephemeral "You have no active loans!"))
  | _ =>
      let total_debt := py_sum (map Loan.remaining loans) in
      match match amount with
            | All => Ok (Finite (Qmin (User.balance user) total_debt))
            | _ => float amount
            end with
      | Raise _ => (db, Ok (Ephemeral "Invalid amount!"))
      | Ok repay_amount =>
          if float_lt (Finite (User.balance user)) repay_amount
          then (db, Ok (Ephemeral "Insufficient funds!"))
          else
            match repay_amount with
            | Finite repay_amount =>
                let db :=
                  repay_loop repay_amount (sorted_by_due_date loans) db in
                let db :=
                  update_user user_id guild_id
                    [UserSet.balance (User.balance user - repay_amount)] db in
                (db, Ok (Embed "Loan Repayment"
                               [repay_amount; total_debt - repay_amount]))
            | _ => (db, Ok (EmbedNonFinite "Loan Repayment"))
            end
      end
  end.

(** *** bot_commands.py: investments *)

Definition invest (user_id guild_id : Z) (utcnow : datetime)
    (investment_type : string) (amount : Q) (db : database)
  : database * result reply :=
  let '(user, db) := get_user user_id guild_id db in
  let '(server, db) := get_server guild_id utcnow db in
  let investment_type := normalize_key investment_type in
  match INVESTMENT_TYPES !! investment_type with
  | None => (db, Ok (Ephemeral "Invalid investment type!"))
  | Some inv_data =>
      if negb (Qle_bool (Investment.min_amount inv_data) amount)
      then (db, Ok (Ephemeral "Minimum investment not met"))
      else if negb (Qle_bool amount (User.balance user))
      then (db, Ok (Ephemeral "Insufficient funds!"))
      else
        let '(investment, db) :=
          create_investment user_id guild_id investment_type amount utcnow db in
        let db :=
          update_user user_id guild_id
            [ UserSet.balance (User.balance user - amount);
              UserSet.statistics
                (StatsSet.investments_made
                   (Stats.investments_made (User.statistics user) + 1)%Z) ]
            db in
        (db, Ok (Embed "Investment Made!" [amount]))
  end.

(** *** bot_commands2.py: crime

    [rnd] is the [random.random()] of the success draw and [u] the one
    behind the [random.uniform] of the branch taken. *)
Definition crime (user_id guild_id : Z) (utcnow : datetime)
    (crime_type : string) (rnd u : Q) (db : database)
  : database * result reply :=
  let '(user, db) := get_user user_id guild_id db in
  let '(server, db) := get_server guild_id utcnow db in
  if in_jail user utcnow
  then (db, Ok (Ephemeral "You're in jail!"))
  else if on_cooldown (User.last_crime user) utcnow COOLDOWN_crime
  then (db, Ok (Ephemeral "Wait before committing another crime"))
  else
    let crime_type := normalize_key crime_type in
    match CRIME_TYPES !! crime_type with
    | None => (db, Ok (Ephemeral "Invalid crime type!"))
    | Some crime_data =>
        if (User.skill_level user <? Crime.skill_required crime_data)%Z
        then (db, Ok (Ephemeral "You need more skill to attempt this!"))
        else
          try! success_rate :=
            calculate_crime_success_rate crime_type (User.skill_level user)
              (Server.gini_coefficient server) 0.5
              (Server.unemployment_rate server) at db in
          let success := negb (Qle_bool success_rate rnd) in
          let stats := User.statistics user in
          if success then
            let stolen_amount :=
              uniform (Crime.min_steal crime_data) (Crime.max_steal crime_data)
                      u in
            let db :=
              update_user user_id guild_id
                [ UserSet.balance (User.balance user + stolen_amount);
                  UserSet.reputation (User.reputation user - 5)%Z;
                  UserSet.last_crime (Some utcnow);
                  UserSet.statistics
                    (StatsSet.crimes_committed
                       (Stats.crimes_committed stats + 1)%Z);
                  UserSet.statistics
                    (StatsSet.crimes_success (Stats.crimes_success stats + 1)%Z)
                ] db in
            let db :=
              record_crime user_id guild_id crime_type true stolen_amount
                utcnow db in
            (db, Ok (Embed "Crime Successful!" [stolen_amount]))
          else
            let fine :=
              uniform (Crime.min_steal crime_data) (Crime.max_steal crime_data)
                      u * 0.5 in
            let fine := Qmin fine (User.balance user) in
            let jail_time :=
              timedelta_of_hours (Crime.jail_time_hours crime_data) in
            let jail_until := (utcnow + jail_time)%Z in
            let db :=
              update_user user_id guild_id
                [ UserSet.balance (User.balance user - fine);
                  UserSet.jail_until (Some jail_until);
                  UserSet.reputation (User.reputation user - 10)%Z;
                  UserSet.last_crime (Some utcnow);
                  UserSet.statistics
                    (StatsSet.crimes_committed
                       (Stats.crimes_committed stats + 1)%Z) ] db in
            let db :=
              record_crime user_id guild_id crime_type false fine utcnow db in
            (db, Ok (Embed "Crime Failed!" [fine]))
    end.

(** ** config.py: class benefits, events and thresholds *)

Module Benefits.
Record t : Type := mk {
  welfare_eligible : bool;
  loan_interest : Q;
  max_loan : Q;
  political_power : Z }.
End Benefits.

Definition CLASS_BENEFITS (c : EconomicClass) : Benefits.t :=
  match c with
  | LOWER => Benefits.mk true 0.12 5000 1
  | MIDDLE => Benefits.mk false 0.08 25000 3
  | UPPER => Benefits.mk false 0.05 100000 7
  | ELITE => Benefits.mk false 0.03 500000 15
  | OLIGARCH => Benefits.mk false 0.02 2000000 30
  end.

Module Event.
Record t : Type := mk {
  probability : Q;
  gdp_impact : Q;
  unemployment_impact : Q;
  duration_days : Z }.
End Event.

Definition ECONOMIC_EVENTS_items : list (string * Event.t) :=
  [ ("stock_market_crash", Event.mk 0.02 (-0.15) 0.25 7);
    ("tech_boom", Event.mk 0.03 0.20 (-0.10) 14);
    ("natural_disaster", Event.mk 0.01 (-0.10) 0.15 5);
    ("trade_war", Event.mk 0.02 (-0.08) 0.12 21);
    ("innovation_breakthrough", Event.mk 0.02 0.15 (-0.05) 30);
    ("pandemic", Event.mk 0.005 (-0.25) 0.40 60);
    ("oil_crisis", Event.mk 0.015 (-0.12) 0.08 14);
    ("housing_bubble", Event.mk 0.01 (-0.20) 0.30 10) ].

Definition STRIKE_PROBABILITY_BASE : Q := 0.05.
Definition WELFARE_THRESHOLD : Q := 5000.

(** ** economic_engine.py: labour statistics, credit, events, portfolios *)

(** The summand of the automation effect for one job of the catalog. *)
Definition automation_term (server_data : Server.t) (entry : string * Job.t)
  : result Q :=
  let! job_market := getitem (Server.job_market server_data) (fst entry) in
  Ok (Job.automation_risk (snd entry) * inject_Z (JobMarket.employed job_market)).

Definition calculate_unemployment_rate (server_data : Server.t)
    (total_users : Z) : result Q :=
  let phase := Server.cycle_phase server_data in
  let base_unemployment := 0.05 in
  let! modifiers := getitem PHASE_MODIFIERS phase in
  let phase_modifier := Phase.unemployment modifiers in
  let calculated_rate := base_unemployment * phase_modifier in
  let! terms := rmap (automation_term server_data) JOBS_items in
  let automation_effect := py_sum terms / inject_Z (Z.max total_users 1) in
  let calculated_rate := calculated_rate + automation_effect * 0.1 in
  Ok (Qmin calculated_rate 0.50).

Definition calculate_strike_probability (job : string)
    (server_data : Server.t) (union_strength : Q) : result Q :=
  let! job_market := getitem (Server.job_market server_data) job in
  let! wage :=
    calculate_salary job server_data 5 (Server.cycle_phase server_data) in
  let min_wage := Server.min_wage server_data in
  let! ratio := pydiv (min_wage * 1.5 - wage) (min_wage * 1.5) in
  let wage_dissatisfaction := Qmax 0 ratio in
  let unemployment := Server.unemployment_rate server_data in
  let unemployment_deterrent := unemployment * 0.5 in
  let base_probability := STRIKE_PROBABILITY_BASE in
  let strike_prob :=
    (base_probability + wage_dissatisfaction * 0.3 - unemployment_deterrent)
    * union_strength in
  Ok (Qmax 0 (Qmin strike_prob 0.80)).

Definition calculate_loan_interest (economic_class : EconomicClass)
    (credit_score server_interest_rate : Q) : Q :=
  let class_rate := Benefits.loan_interest (CLASS_BENEFITS economic_class) in
  let credit_modifier := 1.0 + (0.5 - credit_score) in
  let rate_modifier := 1.0 + (server_interest_rate - 0.05) * 2 in
  let final_rate := class_rate * credit_modifier * rate_modifier in
  Qmax 0.01 (Qmin final_rate 0.50).

Module ActiveEvent.
Record t : Type := mk {
  name : string;
  data : Event.t;
  start_time : datetime;
  end_time : datetime }.
End ActiveEvent.

(** The loop of [trigger_economic_event] from the [i]-th call of
    [random.random()] on; [draw i] is the value of that call. *)
Fixpoint first_triggered (events : list (string * Event.t)) (i : nat)
    (draw : nat -> Q) : option (string * Event.t) :=
  match events with
  | [] => None
  | (event_name, event_data) :: rest =>
      if negb (Qle_bool (Event.probability event_data) (draw i))
      then Some (event_name, event_data)
      else first_triggered rest (S i) draw
  end.

Definition trigger_economic_event (server_data : Server.t)
    (utcnow : datetime) (draw : nat -> Q) : option ActiveEvent.t :=
  match first_triggered ECONOMIC_EVENTS_items 0 draw with
  | Some (event_name, event_data) =>
      Some (ActiveEvent.mk event_name event_data utcnow
              (utcnow + timedelta_of_days (Event.duration_days event_data))%Z)
  | None => None
  end.

Inductive event_effects : Type :=
| RemoveEvent
| Modifiers (gdp_modifier unemployment_modifier : Q).

Definition apply_event_effects (server_data : Server.t)
    (event : ActiveEvent.t) (utcnow : datetime) : event_effects :=
  let event_data := ActiveEvent.data event in
  if (ActiveEvent.end_time event <? utcnow)%Z then RemoveEvent
  else
    let gdp_modifier := 1.0 + Event.gdp_impact event_data in
    let unemployment_modifier := 1.0 + Event.unemployment_impact event_data in
    Modifiers gdp_modifier unemployment_modifier.

Definition calculate_monopoly_power (corporation_market_share : Q) : Q :=
  let hhi := (corporation_market_share * 100) * (corporation_market_share * 100) in
  hhi / 10000.

Definition calculate_welfare_payment (server_data : Server.t)
    (economic_class : EconomicClass) (unemployment_status : bool) : Q :=
  if negb (Benefits.welfare_eligible (CLASS_BENEFITS economic_class)) then 0
  else
    let base_payment :=
      Settings.welfare_amount (Server.settings server_data) in
    if unemployment_status then base_payment * 2 else base_payment.

Definition calculate_gdp_growth (current_gdp previous_gdp : Q) : Q :=
  if Qle_bool previous_gdp 0 then 0
  else ((current_gdp - previous_gdp) / previous_gdp) * 100.

(** [shock] is the value drawn by [random.gauss(0, base_volatility)]. *)
Definition simulate_market_volatility (base_volatility shock : Q) : Q :=
  let persistence := 0.85 in
  let volatility :=
    persistence * base_volatility + (1 - persistence) * Qabs shock in
  Qmax 0.01 (Qmin volatility 0.50).

(** The sort key of [optimize_portfolio]: return per unit of risk. *)
Definition sharpe_ratio (entry : string * Investment.t) : Q :=
  Investment.annual_return (snd entry)
  / Qmax (Investment.risk (snd entry)) 0.01.

Definition sharpe_above (a b : string * Investment.t) : Prop :=
  sharpe_ratio b <= sharpe_ratio a.

Global Instance sharpe_above_dec : RelDecision sharpe_above :=
  fun a b => decide (sharpe_ratio b <= sharpe_ratio a).

(** [sorted(INVESTMENT_TYPES.items(), key=..., reverse=True)] *)
Definition investments_sorted : list (string * Investment.t) :=
  merge_sort sharpe_above INVESTMENT_TYPES_items.

(** The allocation loop; the allocations come out in the order in which
    the dict receives them. *)
Fixpoint allocate (candidates : list (string * Investment.t))
    (remaining_funds risk_tolerance : Q) : list (string * Q) :=
  match candidates with
  | [] => []
  | (inv_type, inv_data) :: rest =>
      if negb (Qle_bool (Investment.min_amount inv_data) remaining_funds)
      then allocate rest remaining_funds risk_tolerance
      else if Qle_bool (Investment.risk inv_data) risk_tolerance then
        let allocation := Qmin (remaining_funds * 0.3) remaining_funds in
        let remaining_funds := remaining_funds - allocation in
        (inv_type, allocation) ::
          (if negb (Qle_bool 100 remaining_funds) then []
           else allocate rest remaining_funds risk_tolerance)
      else if negb (Qle_bool 100 remaining_funds) then []
      else allocate rest remaining_funds risk_tolerance
  end.

Definition optimize_portfolio (available_funds risk_tolerance : Q)
  : list (string * Q) :=
  allocate investments_sorted available_funds risk_tolerance.

Module Redistribution.
Record t : Type := mk {
  new_gini : Q;
  stability : Q;
  redistributed_amount : Q }.
End Redistribution.

Definition calculate_redistribution_effect
    (total_wealth gini_coefficient tax_rate : Q) : Redistribution.t :=
  let tax_revenue := total_wealth * tax_rate in
  let gini_reduction := tax_rate * 0.5 in
  let new_gini := Qmax 0 (gini_coefficient - gini_reduction) in
  let stability := 1.0 - new_gini in
  Redistribution.mk new_gini stability tax_revenue.

(** ** database.py: crime rate *)

Definition get_crime_rate (guild_id : Z) (hours : Z) (utcnow : datetime)
    (db : database) : Q :=
  let cutoff := (utcnow - timedelta_of_hours hours)%Z in
  let total_crimes :=
    Z.of_nat
      (length
         (List.filter
            (fun c => (CrimeRecord.guild_id c =? guild_id)%Z &&
                      (cutoff <=? CrimeRecord.timestamp c)%Z)
            (crimes db))) in
  let total_users :=
    Z.of_nat (length (List.filter (in_guild guild_id) (users db))) in
  inject_Z total_crimes / inject_Z (Z.max total_users 1).

(** [collection.delete_one(filter)]: the first document that matches is
    removed. *)
Fixpoint delete_one {A} (matches : A -> bool) (docs : list A) : list A :=
  match docs with
  | [] => []
  | doc :: rest =>
      if matches doc then rest else doc :: delete_one matches rest
  end.

(** ** The other commands of the ledger *)

Definition set_loans_taken (v : Z) (s : Stats.t) : Stats.t :=
  Stats.mk (Stats.total_earned s) (Stats.total_spent s)
           (Stats.crimes_committed s) (Stats.crimes_success s)
           (Stats.jobs_worked s) (Stats.taxes_paid s) v
           (Stats.investments_made s).

(** *** bot_commands.py: loan

    The divisor [max_loan * 2] comes from the class table and is never
    zero. *)
Definition loan (user_id guild_id : Z) (utcnow : datetime) (amount : Q)
    (db : database) : database * result reply :=
  let '(user, db) := get_user user_id guild_id db in
  let '(server, db) := get_server guild_id utcnow db in
  let total_wealth := User.balance user + User.bank user in
  let economic_class := calculate_economic_class total_wealth in
  let max_loan := Benefits.max_loan (CLASS_BENEFITS economic_class) in
  if negb (Qle_bool amount max_loan)
  then (db, Ok (Ephemeral "Your class can only borrow up to its limit"))
  else
    let active_loans := get_active_loans user_id guild_id db in
    let total_debt := py_sum (map Loan.remaining active_loans) in
    if negb (Qle_bool (total_debt + amount) (max_loan * 2))
    then (db, Ok (Ephemeral "You have too much debt!"))
    else
      let credit_score :=
        Qmax 0 (Qmin 1 (1 - (total_debt / (max_loan * 2)))) in
      let interest_rate :=
        calculate_loan_interest economic_class credit_score
          (Server.interest_rate server) in
      let duration_days := 30%Z in
      let '(loan_doc, db) :=
        create_loan user_id guild_id amount interest_rate duration_days
          utcnow db in
      let db :=
        update_user user_id guild_id
          [ UserSet.balance (User.balance user + amount);
            UserSet.statistics
              (set_loans_taken
                 (Stats.loans_taken (User.statistics user) + 1)%Z) ] db in
      let db :=
        record_transaction guild_id 0 user_id amount "loan_disbursement"
          utcnow db in
      (db, Ok (Embed "Loan Approved!"
                     [amount; interest_rate; Loan.remaining loan_doc])).

(** *** bot_commands.py: sellinvestment *)
Definition is_holding (user_id guild_id : Z) (investment_type : string)
    (h : Holding.t) : bool :=
  (Holding.user_id h =? user_id)%Z && (Holding.guild_id h =? guild_id)%Z &&
  String.eqb (Holding.type h) investment_type.

Definition sellinvestment (user_id guild_id : Z) (utcnow : datetime)
    (investment_type : string) (db : database) : database * result reply :=
  let '(user, db) := get_user user_id guild_id db in
  let '(server, db) := get_server guild_id utcnow db in
  let investment_type := normalize_key investment_type in
  match find_one (is_holding user_id guild_id investment_type)
                 (investments db) with
  | None => (db, Ok (Ephemeral "You don't have this investment!"))
  | Some investment =>
      try! inv_data := getitem INVESTMENT_TYPES investment_type at db in
      let liquidity := Investment.liquidity inv_data in
      let proceeds := Holding.current_value investment * liquidity in
      let db :=
        update_user user_id guild_id
          [UserSet.balance (User.balance user + proceeds)] db in
      let db :=
        set_investments
          (delete_one (fun h => (Holding._id h =? Holding._id investment)%Z)
                      (investments db))
          db in
      let profit := proceeds - Holding.principal investment in
      (db, Ok (Embed "Investment Sold!"
                     [Holding.principal investment; proceeds; profit]))
  end.

(** *** bot_commands2.py: welfare *)
Definition welfare (user_id guild_id : Z) (utcnow : datetime) (db : database)
  : database * result reply :=
  let '(user, db) := get_user user_id guild_id db in
  let '(server, db) := get_server guild_id utcnow db in
  let total_wealth := User.balance user + User.bank user in
  let economic_class := calculate_economic_class total_wealth in
  if negb (Benefits.welfare_eligible (CLASS_BENEFITS economic_class))
  then (db, Ok (Ephemeral "You're not eligible for welfare benefits!"))
  else if negb (Qle_bool total_wealth WELFARE_THRESHOLD)
  then (db, Ok (Ephemeral "You have too much wealth for welfare!"))
  else
    let is_unemployed := String.eqb (User.job user) "unemployed" in
    let welfare_amount :=
      calculate_welfare_payment server economic_class is_unemployed in
    let db :=
      update_user user_id guild_id
        [UserSet.balance (User.balance user + welfare_amount)] db in
    let db :=
      record_transaction guild_id 0 user_id welfare_amount "welfare_payment"
        utcnow db in
    let db :=
      update_server guild_id
        [ ServerSet.government_budget
            (Server.government_budget server - welfare_amount) ] db in
    (db, Ok (Embed "Welfare Benefits" [welfare_amount])).

(** ** Notions used to state the properties, and sample states *)

(** The number of elements of a list, as a rational. *)
Definition qlen {A} (xs : list A) : Q := inject_Z (Z.of_nat (length xs)).

(** The wealth of the members of a guild, as the Gini computation reads
    it. *)
Definition guild_wealth (guild_id : Z) (db : database) : list Q :=
  map (fun u => User.balance u + User.bank u)
      (List.filter (in_guild guild_id) (users db)).

(** A member who has spent everything, the empty database, and a guild
    of two such members. *)
Definition broke_user (user_id guild_id : Z) : User.t :=
  UserSet.balance 0 (default_user user_id guild_id).

Definition empty_db : database := mkdb [] [] [] [] [] [] [] 0.

Definition broke_guild_db : database :=
  set_users [broke_user 1 7; broke_user 2 7] empty_db.

(** The tick of one tenant, as the loop runs it. *)
Definition tenant_tick (utcnow : datetime) (rnd : Z -> Q) (server : Server.t)
    (db : database) : database * result unit :=
  update_server_economy (Server.guild_id server) utcnow
    (rnd (Server.guild_id server)) db.

(** Three tenants: in guild 7 two members have spent everything, so its
    Gini computation raises; guilds 8 and 9 have one ordinary member
    each. *)
Definition three_guild_db : database :=
  set_servers [default_server 8 0; default_server 7 0; default_server 9 0]
    (set_users
       [broke_user 1 7; broke_user 2 7; default_user 3 8; default_user 4 9]
       empty_db).

Definition last_update_of (guild_id : Z) (db : database) : option Z :=
  Server.last_update <$> find_one (is_server guild_id) (servers db).

(** The transition rule in the words of the specification: the phase at
    position [floor(daysElapsed / phaseDuration) mod 5] of the ring, where
    [phaseDuration = totalCycleDays / 5]. *)
Definition time_phase_spec (days_elapsed : Z) : option string :=
  let phase_duration := inject_Z CYCLE_DURATION_DAYS / 5 in
  CYCLE_PHASES !! Z.to_nat (Qfloor (inject_Z days_elapsed / phase_duration) mod 5).

(** The success probability in the words of the specification. *)
Definition crime_success_rate_spec (base_success : Q)
    (actor_skill required_skill : Z)
    (gini police_strength unemployment_rate : Q) : Q :=
  let unclamped :=
    base_success
    + (inject_Z actor_skill - inject_Z required_skill) * 0.05
    + Qmax 0 ((gini - 0.45) * 0.5)
    + unemployment_rate * 0.3
    - police_strength * 0.2 in
  Qmax 0.05 (Qmin unclamped 0.95).

(** The bounds of the return, per instrument. *)
Definition return_floor (investment_type : string) : Q :=
  if String.eqb investment_type "cryptocurrency" then -0.90
  else if String.eqb investment_type "venture_capital" then -0.80
  else -0.50.

Definition return_ceiling (investment_type : string) : Q :=
  if String.eqb investment_type "cryptocurrency" then 5.0
  else if String.eqb investment_type "venture_capital" then 3.0
  else 1.0.

(** Every holding of the collection has a strictly positive value. *)
Definition all_positive (db : database) : Prop :=
  Forall (fun h => 0 < Holding.current_value h) (investments db).

(** The operations that create or revalue holdings. *)
Inductive investment_step : database -> database -> Prop :=
| step_invest user_id guild_id utcnow investment_type amount db :
    investment_step db
      (invest user_id guild_id utcnow investment_type amount db).1
| step_revalue investment utcnow random_shock db :
    investment ∈ investments db ->
    investment_step db
      (update_investment_value investment utcnow random_shock db).1
| step_revalue_all utcnow shock db :
    investment_step db (investment_update_loop utcnow shock db).1.

(** A member of guild 7 puts 500 into stocks, and the holdings are
    revalued eight days later. *)
Definition after_invest_db : database :=
  (invest 1 7 0 "stocks" 500 empty_db).1.

Definition after_revaluation_db : database :=
  (investment_update_loop (timedelta_of_days 8) (fun _ => -2) after_invest_db).1.

(** The state invariant of the data model: the two wealth components and
    the skill level of every actor are non-negative, and every tenant has
    a non-negative minimum wage and a tax modifier between 0 and 1. *)
Definition user_ok (u : User.t) : Prop :=
  0 <= User.balance u /\ 0 <= User.bank u /\ (0 <= User.skill_level u)%Z.

Definition server_ok (s : Server.t) : Prop :=
  0 <= Server.min_wage s /\
  0 <= Settings.tax_rate (Server.settings s) <= 1.

Definition sound (db : database) : Prop :=
  Forall user_ok (users db) /\ Forall server_ok (servers db).

(** The database after the lookups of a command: the records of the
    caller and of the tenant exist, nothing else has changed. *)
Definition lookups (user_id guild_id : Z) (utcnow : datetime) (db : database)
  : database :=
  (get_server guild_id utcnow (get_user user_id guild_id db).2).2.

(** The cash balance of a user, 0 when there is no such user. *)
Definition balance_of (user_id guild_id : Z) (db : database) : Q :=
  default 0 (User.balance <$> find_one (is_user user_id guild_id) (users db)).

Definition bank_of (user_id guild_id : Z) (db : database) : Q :=
  default 0 (User.bank <$> find_one (is_user user_id guild_id) (users db)).

(** A tenant with one member who holds 100 in cash. *)
Definition poor_thief_db : database :=
  set_servers [default_server 7 0]
    (set_users [UserSet.balance 100 (default_user 1 7)] empty_db).

(** How a loan document may evolve: same identity, a remaining balance
    that does not grow and does not become negative, a defaulted flag that
    is never cleared. *)
Definition loan_evolves (before after : Loan.t) : Prop :=
  Loan._id after = Loan._id before /\
  Loan.remaining after <= Loan.remaining before /\
  (0 <= Loan.remaining before -> 0 <= Loan.remaining after) /\
  (Loan.defaulted before = true -> Loan.defaulted after = true).

Definition has_id (i : Z) (l : Loan.t) : bool := (Loan._id l =? i)%Z.

(** The snapshot a loop works from: loans of the collection, with
    distinct identifiers. *)
Definition snapshot_of (ordered : list Loan.t) (db : database) : Prop :=
  NoDup (map Loan._id ordered) /\ forall x, x ∈ ordered -> x ∈ loans db.

(** A member of guild 7 who borrows 100 and is then granted a loan of
    -1500. *)
Definition overdrawn_borrower_db : database :=
  (loan 1 7 0 (-1500) (loan 1 7 0 100 empty_db).1).1.

(** A member of guild 7 with 1000 in cash and two loans, of which
    560 and 330 remain to be paid. *)
Definition indebted_db : database :=
  set_loans
    [ Loan.mk 0 1 7 500 0.12 560 1000 0 false;
      Loan.mk 1 1 7 300 0.10 330 500 0 false ]
    (set_servers [default_server 7 0]
       (set_users [default_user 1 7] empty_db)).

(** * Properties *)

(** ** Rational arithmetic helpers *)

Lemma Qle_bool_spec (x y : Q) : BoolSpec (x <= y) (y < x) (Qle_bool x y).
Proof.
  destruct (Qle_bool x y) eqn:E; constructor.
  - by apply Qle_bool_iff.
  - apply Qnot_le_lt. intros H. apply Qle_bool_iff in H. congruence.
Qed.

Lemma Qle_bool_true (x y : Q) : x <= y -> Qle_bool x y = true.
Proof. apply Qle_bool_iff. Qed.

Lemma Qle_bool_false (x y : Q) : y < x -> Qle_bool x y = false.
Proof. intros H. destruct (Qle_bool_spec x y); [lra | done]. Qed.

(** Case analysis on every comparison of the goal, closing the branches
    that linear arithmetic refutes. *)
Ltac qcases :=
  repeat match goal with
    | |- context [Qle_bool ?a ?b] =>
        destruct (Qle_bool_spec a b); simpl; try lra
    end.

(** ** Classification *)

Lemma in_band_iff (wealth lo : Q) (hi : option Q) :
  in_band wealth (lo, hi) = true <->
  lo <= wealth /\ match hi with Some h => wealth <= h | None => True end.
Proof.
  unfold in_band; simpl. rewrite andb_true_iff, Qle_bool_iff.
  destruct hi; [rewrite Qle_bool_iff|]; intuition.
Qed.

(** The classification is a total function: whatever the wealth, it
    answers with a tier, and with the only band that holds the wealth when
    there is one. *)
Lemma calculate_economic_class_of_band (wealth : Q) (c : EconomicClass) :
  bands_of wealth = [c] -> calculate_economic_class wealth = c.
Proof.
  cbv beta iota delta
    [bands_of calculate_economic_class first_band CLASS_THRESHOLDS in_band
     List.filter map fst snd].
  qcases; intros [=]; subst; done.
Qed.

(** No two bands overlap. *)
Lemma bands_no_overlap (wealth : Q) : (length (bands_of wealth) <= 1)%nat.
Proof.
  cbv beta iota delta
    [bands_of CLASS_THRESHOLDS in_band List.filter map fst snd].
  qcases; simpl; lia.
Qed.

(** A whole, non-negative wealth lies in exactly one band. *)
Lemma integer_wealth_in_one_band (z : Z) :
  (0 <= z)%Z ->
  bands_of (inject_Z z) = [calculate_economic_class (inject_Z z)].
Proof.
  intros Hz.
  cbv beta iota delta
    [bands_of calculate_economic_class first_band CLASS_THRESHOLDS in_band
     List.filter map fst snd Qle_bool inject_Z Qnum Qden].
  rewrite !Z.mul_1_r.
  repeat match goal with
    | |- context [(?a <=? ?b)%Z] => destruct (Z.leb_spec a b); simpl; try lia
    end; reflexivity.
Qed.

(** C1 (defect of the code).  The configured bands leave the open
    intervals between two whole boundaries uncovered: the wealth 50000.5,
    strictly between the upper end of MIDDLE (50000) and the lower end of
    UPPER (50001), lies in no band at all, and the classification falls
    through to its final [return] and answers LOWER.  The same happens
    between every other pair of adjacent bands. *)
Theorem classification_gap_between_bands :
  bands_of 50000.5 = [] /\
  calculate_economic_class 50000.5 = LOWER /\
  calculate_economic_class 50000 = MIDDLE /\
  calculate_economic_class 50001 = UPPER /\
  bands_of 10000.5 = [] /\ bands_of 200000.5 = [] /\ bands_of 1000000.5 = [].
Proof. repeat split; vm_compute; reflexivity. Qed.

(** ** Wages *)

Lemma phase_modifiers_defined (phase : string) :
  phase ∈ CYCLE_PHASES -> is_Some (PHASE_MODIFIERS !! phase).
Proof.
  unfold CYCLE_PHASES. rewrite !elem_of_cons, elem_of_nil.
  intros [->|[->|[->|[->|[->|[]]]]]]; vm_compute; eauto.
Qed.

(** C2 (as amended).  For a job of the catalog and a phase of the cycle,
    the wage is computed without error; it is exactly 0 for the job
    "unemployed", and at least the tenant's minimum wage for every other
    job, whatever the snapshot and the skill level. *)
Theorem calculate_salary_floor (job : string) (server_data : Server.t)
    (user_skill : Z) (economic_phase : string) :
  is_Some (JOBS !! job) ->
  economic_phase ∈ CYCLE_PHASES ->
  if String.eqb job "unemployed"
  then calculate_salary job server_data user_skill economic_phase = Ok 0
  else exists wage,
      calculate_salary job server_data user_skill economic_phase = Ok wage /\
      Server.min_wage server_data <= wage.
Proof.
  intros [job_data Hjob] Hphase.
  destruct (phase_modifiers_defined _ Hphase) as [phase Hmod].
  unfold calculate_salary, getitem.
  destruct (String.eqb job "unemployed"); [reflexivity|].
  rewrite Hjob, Hmod; simpl.
  eexists; split; [reflexivity|]. apply Q.le_max_r.
Qed.

Lemma calculate_salary_floor_witness :
  exists wage,
    calculate_salary "teacher" (default_server 1 0) 5 "recession" = Ok wage /\
    Server.min_wage (default_server 1 0) <= wage.
Proof.
  apply (calculate_salary_floor "teacher" (default_server 1 0) 5 "recession").
  - vm_compute. eauto.
  - unfold CYCLE_PHASES. rewrite !elem_of_cons. auto.
Defined.

(** C2 as first stated fails: "unemployed" is a job of the catalog, its
    wage is 0, and the minimum wage of a fresh tenant is 1500. *)
Lemma calculate_salary_unemployed_below_min_wage :
  ~ (forall job server_data user_skill economic_phase,
        is_Some (JOBS !! job) ->
        economic_phase ∈ CYCLE_PHASES ->
        exists wage,
          calculate_salary job server_data user_skill economic_phase = Ok wage /\
          Server.min_wage server_data <= wage).
Proof.
  intros H.
  destruct (H "unemployed" (default_server 1 0) 0%Z "expansion")
    as (wage & Hwage & Hle).
  - vm_compute. eauto.
  - unfold CYCLE_PHASES. rewrite !elem_of_cons. auto.
  - cbn in Hwage. injection Hwage as <-. cbn in Hle. lra.
Qed.

(** ** The Gini coefficient *)

Lemma foldl_Qplus_acc (xs : list Q) (a : Q) :
  foldl Qplus a xs == a + foldl Qplus 0 xs.
Proof.
  revert a. induction xs as [|x xs IH]; intros a; simpl.
  - lra.
  - rewrite (IH (a + x)), (IH (0 + x)). lra.
Qed.

Lemma py_sum_cons (x : Q) (xs : list Q) : py_sum (x :: xs) == x + py_sum xs.
Proof. unfold py_sum; simpl. rewrite foldl_Qplus_acc. lra. Qed.

Lemma qlen_cons {A} (x : A) (xs : list A) : qlen (x :: xs) == qlen xs + 1.
Proof.
  unfold qlen. cbn [length]. rewrite Nat2Z.inj_succ, <- Z.add_1_r.
  rewrite inject_Z_plus. reflexivity.
Qed.

Lemma qlen_nonneg {A} (xs : list A) : 0 <= qlen xs.
Proof.
  unfold qlen. change 0 with (inject_Z 0). rewrite <- Zle_Qle. lia.
Qed.

Lemma py_sum_constant (x : Q) (xs : list Q) :
  Forall (fun w => w == x) xs -> py_sum xs == qlen xs * x.
Proof.
  induction 1 as [|w ws Hw _ IH].
  - reflexivity.
  - rewrite py_sum_cons, qlen_cons, IH, Hw. ring.
Qed.

Lemma rank_weighted_sum_constant_from (k : nat) (x : Q) (xs : list Q) :
  Forall (fun w => w == x) xs ->
  py_sum (imap (fun i w => inject_Z (Z.of_nat (k + i) + 1) * w) xs) ==
  x * (qlen xs * inject_Z (Z.of_nat k) + qlen xs * (qlen xs + 1) / 2).
Proof.
  intros H. revert k. induction H as [|w ws Hw _ IH]; intros k.
  - cbn. unfold qlen; cbn. field.
  - rewrite imap_cons, py_sum_cons, qlen_cons.
    rewrite (imap_ext _ (fun i w => inject_Z (Z.of_nat (S k + i) + 1) * w));
      [|intros i y _; cbn beta; unfold compose;
         by replace (k + S i)%nat with (S k + i)%nat by lia].
    rewrite IH, Hw, Nat.add_0_r.
    rewrite Nat2Z.inj_succ, <- Z.add_1_r, !inject_Z_plus.
    change (inject_Z 1) with 1. field.
Qed.

Lemma rank_weighted_sum_constant (x : Q) (xs : list Q) :
  Forall (fun w => w == x) xs ->
  rank_weighted_sum xs == x * (qlen xs * (qlen xs + 1) / 2).
Proof.
  intros H. unfold rank_weighted_sum.
  rewrite (rank_weighted_sum_constant_from 0 x xs H).
  change (inject_Z (Z.of_nat 0)) with 0. field.
Qed.

Lemma sorted_Forall (P : Q -> Prop) (xs : list Q) :
  Forall P xs -> Forall P (sorted xs).
Proof.
  intros H. unfold sorted. by rewrite merge_sort_Permutation.
Qed.

Lemma sorted_length (xs : list Q) : length (sorted xs) = length xs.
Proof. unfold sorted. by rewrite merge_sort_Permutation. Qed.

Lemma pydiv_nonzero (a b : Q) : ~ b == 0 -> pydiv a b = Ok (a / b).
Proof.
  intros H. unfold pydiv. destruct (Qeq_bool b 0) eqn:E; [|done].
  apply Qeq_bool_iff in E. contradiction.
Qed.

Lemma pydiv_zero (a b : Q) : b == 0 -> pydiv a b = Raise ZeroDivisionError.
Proof. intros H. unfold pydiv. by rewrite (Qeq_eq_bool _ _ H). Qed.

(** Fewer than two members: the coefficient is 0. *)
Lemma gini_small_population (guild_id : Z) (db : database) :
  (length (guild_wealth guild_id db) < 2)%nat ->
  calculate_gini_coefficient guild_id db = Ok 0.0.
Proof.
  unfold guild_wealth, calculate_gini_coefficient. rewrite length_map.
  intros H. apply Nat.ltb_lt in H. by rewrite H.
Qed.

(** At least two members who all hold the same positive wealth: the
    coefficient is 0. *)
Lemma gini_equal_positive_wealth (guild_id : Z) (db : database) (x : Q) :
  (2 <= length (guild_wealth guild_id db))%nat ->
  Forall (fun w => w == x) (guild_wealth guild_id db) ->
  0 < x ->
  exists g, calculate_gini_coefficient guild_id db = Ok g /\ g == 0.
Proof.
  unfold guild_wealth, calculate_gini_coefficient.
  set (members := List.filter (in_guild guild_id) (users db)).
  set (wealth := map _ members).
  intros Hlen Hall Hx.
  unfold wealth in Hlen. rewrite length_map in Hlen.
  assert ((length members <? 2)%nat = false) as -> by (apply Nat.ltb_ge; lia).
  pose proof (sorted_Forall _ _ Hall) as Hsorted.
  assert (qlen (sorted wealth) == qlen members) as Hq.
  { unfold qlen, wealth. by rewrite sorted_length, length_map. }
  assert (2 <= qlen members) as Hn.
  { unfold qlen. change 2 with (inject_Z 2). rewrite <- Zle_Qle. lia. }
  fold (qlen (sorted wealth)).
  assert (py_sum (sorted wealth) == qlen members * x) as Hsum.
  { by rewrite (py_sum_constant x), Hq. }
  assert (rank_weighted_sum (sorted wealth) ==
          x * (qlen members * (qlen members + 1) / 2)) as Hrank.
  { rewrite (rank_weighted_sum_constant x) by done. by rewrite Hq. }
  rewrite pydiv_nonzero.
  2:{ rewrite Hq, Hsum. intros E.
      assert (0 < qlen members * x) by (apply Qmult_lt_0_compat; lra).
      assert (0 < qlen members * (qlen members * x))
        by (apply Qmult_lt_0_compat; lra).
      lra. }
  rewrite pydiv_nonzero by (rewrite Hq; lra).
  cbn [rbind]. eexists; split; [reflexivity|].
  rewrite Hrank, Hsum, Hq. field. split; lra.
Qed.

(** At least two members who all hold no wealth at all: the division by
    [n * sum(wealth)] raises. *)
Lemma gini_zero_wealth_raises (guild_id : Z) (db : database) :
  (2 <= length (guild_wealth guild_id db))%nat ->
  Forall (fun w => w == 0) (guild_wealth guild_id db) ->
  calculate_gini_coefficient guild_id db = Raise ZeroDivisionError.
Proof.
  unfold guild_wealth, calculate_gini_coefficient.
  set (members := List.filter (in_guild guild_id) (users db)).
  set (wealth := map _ members).
  intros Hlen Hall.
  unfold wealth in Hlen. rewrite length_map in Hlen.
  assert ((length members <? 2)%nat = false) as -> by (apply Nat.ltb_ge; lia).
  pose proof (sorted_Forall _ _ Hall) as Hsorted.
  rewrite pydiv_zero; [done|].
  rewrite (py_sum_constant 0) by done. ring.
Qed.

(** C3 (defect of the code).  For a population of two actors who both
    hold the wealth 0, the computation does not return 0: it divides by
    [n * sum(wealth) = 0] and raises [ZeroDivisionError]. *)
Theorem gini_of_two_broke_users_raises :
  guild_wealth 7 broke_guild_db = [0 + 0; 0 + 0] /\
  calculate_gini_coefficient 7 broke_guild_db = Raise ZeroDivisionError.
Proof. split; vm_compute; reflexivity. Qed.

(** ** The periodic batch update *)

Lemma for_each_stops {A} (body : A -> database -> database * result unit)
    (before after : list A) (failing : A) (db db1 db2 : database) (e : exn) :
  for_each body before db = (db1, Ok tt) ->
  body failing db1 = (db2, Raise e) ->
  for_each body (before ++ failing :: after)%list db = (db2, Raise e).
Proof.
  revert db. induction before as [|doc before IH]; intros db; simpl.
  - intros [= ->] Hfail. by rewrite Hfail.
  - destruct (body doc db) as [db' [[]|e']]; [|discriminate].
    intros Hbefore Hfail. by apply IH.
Qed.

Lemma pair_of_snd {A B} (p : A * B) (b : B) : p.2 = b -> p = (p.1, b).
Proof. destruct p; simpl. by intros ->. Qed.

Lemma for_each_singleton {A}
    (body : A -> database -> database * result unit) (doc : A)
    (db : database) :
  (body doc db).2 = Ok tt -> for_each body [doc] db = ((body doc db).1, Ok tt).
Proof. simpl. destruct (body doc db) as [db' r]; simpl. by intros ->. Qed.

(** A tenant's update that raises has written nothing: the database is
    the one its initial lookup of the server left. *)
Lemma update_server_economy_raise (guild_id : Z) (utcnow : datetime) (rnd : Q)
    (db db' : database) (e : exn) :
  update_server_economy guild_id utcnow rnd db = (db', Raise e) ->
  db' = (get_server guild_id utcnow db).2.
Proof.
  unfold update_server_economy.
  destruct (get_server guild_id utcnow db) as [server db0]; simpl.
  destruct (update_economic_cycle _ _ _); [|by intros [= -> _]].
  destruct (rmap _ _); [|by intros [= -> _]].
  destruct (calculate_gini_coefficient _ _); [|by intros [= -> _]].
  discriminate.
Qed.

(** C5 (as amended).  The handler wraps the whole loop, not one tenant:
    when the update of a tenant raises, the exception is caught and
    logged, the tenants before it in cursor order have been updated, and
    the loop ends there; the failing tenant has written nothing and no
    later tenant is visited in that run. *)
Theorem economic_update_loop_stops_at_failure
    (utcnow : datetime) (rnd : Z -> Q) (db db1 : database)
    (before after : list Server.t) (failing : Server.t) (e : exn) :
  servers db = (before ++ failing :: after)%list ->
  for_each (tenant_tick utcnow rnd) before db = (db1, Ok tt) ->
  (tenant_tick utcnow rnd failing db1).2 = Raise e ->
  economic_update_loop utcnow rnd db
  = ((get_server (Server.guild_id failing) utcnow db1).2, Some e).
Proof.
  intros Hservers Hbefore Hfail.
  apply pair_of_snd in Hfail.
  pose proof (update_server_economy_raise _ _ _ _ _ _ Hfail) as Hdb.
  rewrite Hdb in Hfail.
  unfold economic_update_loop. rewrite Hservers.
  change (fun server db0 => _) with (tenant_tick utcnow rnd).
  by rewrite (for_each_stops _ _ _ _ _ _ _ _ Hbefore Hfail).
Qed.

Lemma economic_update_loop_stops_at_failure_witness :
  let tick := tenant_tick 5000 (fun _ => 0.5) in
  let db1 := (tick (default_server 8 0) three_guild_db).1 in
  economic_update_loop 5000 (fun _ => 0.5) three_guild_db
  = ((get_server 7 5000 db1).2, Some ZeroDivisionError).
Proof.
  intros tick db1.
  apply (economic_update_loop_stops_at_failure 5000 (fun _ => 0.5)
           three_guild_db db1
           [default_server 8 0] [default_server 9 0] (default_server 7 0)
           ZeroDivisionError).
  - reflexivity.
  - apply for_each_singleton. vm_compute. reflexivity.
  - vm_compute. reflexivity.
Defined.

(** C5 as first stated fails: the tick of guild 9 succeeds when it is run
    on its own, but in the batch it comes after guild 7, whose tick
    raises, and it is never run: guild 8 is updated at time 5000, guilds 7
    and 9 keep their old update time. *)
Lemma economic_update_loop_does_not_isolate_tenants :
  let run := economic_update_loop 5000 (fun _ => 0.5) three_guild_db in
  (update_server_economy 9 5000 0.5 three_guild_db).2 = Ok tt /\
  last_update_of 9 (update_server_economy 9 5000 0.5 three_guild_db).1
  = Some 5000%Z /\
  run.2 = Some ZeroDivisionError /\
  last_update_of 8 run.1 = Some 5000%Z /\
  last_update_of 7 run.1 = Some 0%Z /\
  last_update_of 9 run.1 = Some 0%Z.
Proof. repeat split; vm_compute; reflexivity. Qed.

(** ** The business cycle *)

Lemma py_int_floor (x : Q) : 0 <= x -> py_int x = Qfloor x.
Proof.
  destruct x as [n d]. unfold py_int, Qfloor, Qle; simpl.
  intros H. apply Z.quot_div_nonneg; lia.
Qed.

Lemma elapsed_quotient_nonneg (days_elapsed : Z) :
  (0 <= days_elapsed)%Z ->
  0 <= inject_Z days_elapsed /
       (inject_Z CYCLE_DURATION_DAYS / inject_Z (Z.of_nat (length CYCLE_PHASES))).
Proof.
  intros H.
  assert (0 <= inject_Z days_elapsed) as Hd
    by (change 0 with (inject_Z 0); by rewrite <- Zle_Qle).
  apply Qle_shift_div_l; [reflexivity | lra].
Qed.

Lemma current_phase_index_floor (days_elapsed : Z) :
  (0 <= days_elapsed)%Z ->
  current_phase_index days_elapsed
  = (Qfloor (inject_Z days_elapsed / (inject_Z CYCLE_DURATION_DAYS / 5)) mod 5)%Z.
Proof.
  intros H. unfold current_phase_index.
  by rewrite (py_int_floor _ (elapsed_quotient_nonneg _ H)).
Qed.

Lemma current_phase_index_range (days_elapsed : Z) :
  (0 <= current_phase_index days_elapsed < 5)%Z.
Proof. unfold current_phase_index. apply Z.mod_pos_bound. reflexivity. Qed.

Lemma timedelta_days_nonneg (delta : Z) :
  (0 <= delta)%Z -> (0 <= timedelta_days delta)%Z.
Proof. intros H. unfold timedelta_days. apply Z.div_pos; [done | reflexivity]. Qed.

(** The time-derived phase is always one of the five. *)
Lemma time_phase_defined (days_elapsed : Z) :
  exists phase,
    CYCLE_PHASES !! Z.to_nat (current_phase_index days_elapsed) = Some phase /\
    phase ∈ CYCLE_PHASES.
Proof.
  pose proof (current_phase_index_range days_elapsed) as Hr.
  destruct (lookup_lt_is_Some_2 CYCLE_PHASES
              (Z.to_nat (current_phase_index days_elapsed))) as [phase Hp].
  { cbn [length CYCLE_PHASES]. lia. }
  exists phase; split; [done|]. by eapply list_elem_of_lookup_2.
Qed.

Lemma update_one_map {A B} (f : A -> B) (matches : A -> bool) (set : A -> A)
    (docs : list A) :
  (forall doc, f (set doc) = f doc) ->
  map f (update_one matches set docs) = map f docs.
Proof.
  intros Hset. induction docs as [|doc docs IH]; simpl; [done|].
  destruct (matches doc); simpl; by rewrite ?Hset, ?IH.
Qed.

(** A tenant's update never writes the cycle-start anchor of any tenant:
    beyond the record its first lookup may create, the anchors after the
    update are the anchors before it. *)
Lemma update_server_economy_keeps_cycle_start (guild_id : Z)
    (utcnow : datetime) (rnd : Q) (db : database) :
  map Server.cycle_start (servers (update_server_economy guild_id utcnow rnd db).1)
  = map Server.cycle_start (servers (get_server guild_id utcnow db).2).
Proof.
  unfold update_server_economy.
  destruct (get_server guild_id utcnow db) as [server db0]; simpl.
  destruct (update_economic_cycle _ _ _); [|done].
  destruct (rmap _ _); [|done].
  destruct (calculate_gini_coefficient _ _); [|done].
  simpl. by apply update_one_map.
Qed.

(** C6 (as amended).  Whatever the clock reads, the cycle update answers
    with the phase [CYCLE_PHASES[int(days / (28/5)) mod 5]], where [int]
    rounds towards zero, and with the modifiers of that phase, except
    that a time-derived "expansion" becomes "recession" exactly when the
    random draw is below 0.05; for every other time-derived phase the
    draw plays no part.  When the clock is not before the cycle start,
    the time-derived phase is the phase
    [CYCLE_PHASES[floor(days / (28/5)) mod 5]] of the specification.  The
    phase is "expansion" at 0 elapsed days and again after the 28 days of
    five phase durations, and a tenant's update leaves every cycle-start
    anchor as it was. *)
Theorem update_economic_cycle_transition (server_data : Server.t)
    (utcnow : datetime) (rnd : Q) :
  (exists time_phase new_phase modifiers,
      CYCLE_PHASES
        !! Z.to_nat (current_phase_index
                       (timedelta_days
                          (utcnow - Server.cycle_start server_data)))
      = Some time_phase /\
      ((Server.cycle_start server_data <= utcnow)%Z ->
       time_phase_spec
         (timedelta_days (utcnow - Server.cycle_start server_data))
       = Some time_phase) /\
      update_economic_cycle server_data utcnow rnd
      = Ok (CycleUpdate.mk new_phase modifiers) /\
      PHASE_MODIFIERS !! new_phase = Some modifiers /\
      (time_phase = "expansion" -> rnd < 0.05 -> new_phase = "recession") /\
      (time_phase = "expansion" -> 0.05 <= rnd -> new_phase = "expansion") /\
      (time_phase <> "expansion" -> new_phase = time_phase)) /\
  time_phase_spec 0 = Some "expansion" /\
  time_phase_spec (5 * 28 / 5) = Some "expansion" /\
  (forall guild_id db,
      map Server.cycle_start
          (servers (update_server_economy guild_id utcnow rnd db).1)
      = map Server.cycle_start (servers (get_server guild_id utcnow db).2)).
Proof.
  split; [|split; [reflexivity|split; [reflexivity|]]].
  2:{ intros. apply update_server_economy_keeps_cycle_start. }
  set (days := timedelta_days (utcnow - Server.cycle_start server_data)).
  destruct (time_phase_defined days) as (time_phase & Hlookup & Hin).
  assert ((Server.cycle_start server_data <= utcnow)%Z ->
          time_phase_spec days = Some time_phase) as Hspec.
  { intros Hstart.
    assert (0 <= days)%Z as Hdays by (apply timedelta_days_nonneg; lia).
    unfold time_phase_spec.
    by rewrite <- (current_phase_index_floor _ Hdays). }
  unfold update_economic_cycle. fold days. rewrite Hlookup.
  exists time_phase.
  destruct (Qle_bool_spec 0.05 rnd) as [Hrnd|Hrnd]; simpl.
  - destruct (phase_modifiers_defined _ Hin) as [modifiers Hmod].
    exists time_phase, modifiers. unfold getitem. rewrite Hmod.
    repeat split; try done. intros _ ?. lra.
  - destruct (String.eqb_spec time_phase "expansion") as [->|Hne].
    + eexists "recession", _. repeat split; try done. intros _ ?. lra.
    + destruct (phase_modifiers_defined _ Hin) as [modifiers Hmod].
      exists time_phase, modifiers. unfold getitem. rewrite Hmod.
      repeat split; done.
Qed.

Lemma update_economic_cycle_transition_witness :
  exists time_phase new_phase modifiers,
    CYCLE_PHASES
      !! Z.to_nat (current_phase_index
                     (timedelta_days
                        (timedelta_of_days 6
                         - Server.cycle_start (default_server 1 0))))
    = Some time_phase /\
    ((Server.cycle_start (default_server 1 0) <= timedelta_of_days 6)%Z ->
     time_phase_spec
       (timedelta_days
          (timedelta_of_days 6 - Server.cycle_start (default_server 1 0)))
     = Some time_phase) /\
    update_economic_cycle (default_server 1 0) (timedelta_of_days 6) 0.01
    = Ok (CycleUpdate.mk new_phase modifiers) /\
    PHASE_MODIFIERS !! new_phase = Some modifiers /\
    (time_phase = "expansion" -> 0.01 < 0.05 -> new_phase = "recession") /\
    (time_phase = "expansion" -> 0.05 <= 0.01 -> new_phase = "expansion") /\
    (time_phase <> "expansion" -> new_phase = time_phase).
Proof.
  exact (proj1 (update_economic_cycle_transition
                  (default_server 1 0) (timedelta_of_days 6) 0.01)).
Defined.

(** C6 as first stated fails for a clock that reads a time before the
    cycle start.  One microsecond before it, a whole -1 day has elapsed:
    the rule of the claim, with its floor, gives the phase of index
    [floor(-1 / 5.6) mod 5 = 4], "recovery", where the code, whose [int()]
    rounds towards zero, answers with the phase of index 0, "expansion"
    (the draw 0.5 causes no shock). *)
Lemma update_economic_cycle_truncates_before_start :
  timedelta_days (0 - Server.cycle_start (default_server 1 1)) = (-1)%Z /\
  time_phase_spec (-1) = Some "recovery" /\
  current_phase_index (-1) = 0%Z /\
  exists modifiers,
    update_economic_cycle (default_server 1 1) 0 0.5
    = Ok (CycleUpdate.mk "expansion" modifiers).
Proof.
  split; [|split; [|split]]; try (vm_compute; reflexivity).
  eexists. vm_compute. reflexivity.
Qed.

(** ** Crime *)

Lemma crime_catalog_entry (crime_type : string) (crime_data : Crime.t) :
  CRIME_TYPES !! crime_type = Some crime_data ->
  (crime_type, crime_data) ∈ CRIME_TYPES_items.
Proof. apply elem_of_list_to_map_2. Qed.

Lemma Qmax_compat_r (a x y : Q) : x == y -> Qmax a x == Qmax a y.
Proof. by intros ->. Qed.

Lemma Qmin_compat_l (a x y : Q) : x == y -> Qmin x a == Qmin y a.
Proof. by intros ->. Qed.

(** C7.  For every crime type of the catalog and all inputs, the success
    probability is the base rate plus the skill, inequality and
    unemployment terms minus the police term, clamped to [0.05, 0.95];
    when the crime requires no skill, an actor of skill 10 under a Gini
    coefficient of 0.60, an unemployment rate of 0.20 and no police gets
    [min(base + 0.5 + 0.075 + 0.06, 0.95)]. *)
Theorem calculate_crime_success_rate_formula (crime_type : string)
    (crime_data : Crime.t) (user_skill : Z)
    (inequality police_strength unemployment_rate : Q) :
  CRIME_TYPES !! crime_type = Some crime_data ->
  (exists rate,
      calculate_crime_success_rate crime_type user_skill inequality
        police_strength unemployment_rate = Ok rate /\
      rate == crime_success_rate_spec (Crime.base_success crime_data)
                user_skill (Crime.skill_required crime_data)
                inequality police_strength unemployment_rate /\
      0.05 <= rate <= 0.95) /\
  (Crime.skill_required crime_data = 0%Z ->
   exists rate,
     calculate_crime_success_rate crime_type 10 0.60 0 0.20 = Ok rate /\
     rate == Qmin (Crime.base_success crime_data + 0.5 + 0.075 + 0.06) 0.95).
Proof.
  intros Hcrime. unfold calculate_crime_success_rate, getitem.
  rewrite Hcrime; simpl. split.
  - eexists; split; [reflexivity|]. split.
    + unfold crime_success_rate_spec.
      apply Qmax_compat_r, Qmin_compat_l.
      unfold Z.sub. rewrite inject_Z_plus, inject_Z_opp. ring.
    + split; [apply Q.le_max_l|].
      apply Q.max_lub; [lra | apply Q.le_min_r].
  - intros Hskill. eexists; split; [reflexivity|].
    apply crime_catalog_entry in Hcrime.
    unfold CRIME_TYPES_items in Hcrime.
    rewrite !elem_of_cons, elem_of_nil in Hcrime.
    destruct Hcrime as [E|[E|[E|[E|[E|[]]]]]];
      injection E as -> ->; try discriminate Hskill;
      vm_compute; reflexivity.
Qed.

Lemma calculate_crime_success_rate_formula_witness :
  exists rate,
    calculate_crime_success_rate "robbery" 5 0.5 0.5 0.1 = Ok rate /\
    rate == crime_success_rate_spec 0.25 5 3 0.5 0.5 0.1 /\
    0.05 <= rate <= 0.95.
Proof.
  refine (proj1 (calculate_crime_success_rate_formula "robbery"
                   (Crime.mk 0.25 500 3000 6 3) 5 0.5 0.5 0.1 _)).
  vm_compute. reflexivity.
Defined.

(** ** Which collections an operation touches *)

Lemma get_user_frame (user_id guild_id : Z) (db : database) :
  let db' := (get_user user_id guild_id db).2 in
  servers db' = servers db /\ loans db' = loans db /\
  investments db' = investments db /\ transactions db' = transactions db.
Proof. unfold get_user. by destruct (find_one _ _). Qed.

Lemma get_server_frame (guild_id : Z) (utcnow : datetime) (db : database) :
  let db' := (get_server guild_id utcnow db).2 in
  users db' = users db /\ loans db' = loans db /\
  investments db' = investments db /\ transactions db' = transactions db.
Proof. unfold get_server. by destruct (find_one _ _). Qed.

Lemma get_user_investments (user_id guild_id : Z) (db : database) :
  investments (get_user user_id guild_id db).2 = investments db.
Proof. apply get_user_frame. Qed.

Lemma get_server_investments (guild_id : Z) (utcnow : datetime)
    (db : database) :
  investments (get_server guild_id utcnow db).2 = investments db.
Proof. apply get_server_frame. Qed.

Lemma get_user_loans (user_id guild_id : Z) (db : database) :
  loans (get_user user_id guild_id db).2 = loans db.
Proof. apply get_user_frame. Qed.

Lemma get_server_loans (guild_id : Z) (utcnow : datetime) (db : database) :
  loans (get_server guild_id utcnow db).2 = loans db.
Proof. apply get_server_frame. Qed.

Lemma get_server_users (guild_id : Z) (utcnow : datetime) (db : database) :
  users (get_server guild_id utcnow db).2 = users db.
Proof. apply get_server_frame. Qed.

(** ** Investments *)

Lemma investment_catalog_entry (investment_type : string)
    (investment_data : Investment.t) :
  INVESTMENT_TYPES !! investment_type = Some investment_data ->
  (investment_type, investment_data) ∈ INVESTMENT_TYPES_items.
Proof. apply elem_of_list_to_map_2. Qed.

(** Every instrument has a positive minimum amount. *)
Lemma min_amount_positive (investment_type : string)
    (investment_data : Investment.t) :
  INVESTMENT_TYPES !! investment_type = Some investment_data ->
  0 < Investment.min_amount investment_data.
Proof.
  intros H. apply investment_catalog_entry in H.
  unfold INVESTMENT_TYPES_items in H.
  rewrite !elem_of_cons, elem_of_nil in H.
  destruct H as [E|[E|[E|[E|[E|[E|[]]]]]]]; injection E as -> ->; reflexivity.
Qed.

Lemma Qclamp_bounds (lo hi x : Q) : lo <= hi -> lo <= Qmax lo (Qmin x hi) <= hi.
Proof.
  intros H. split; [apply Q.le_max_l|].
  apply Q.max_lub; [done | apply Q.le_min_r].
Qed.

Lemma calculate_investment_return_bounds (investment_type : string)
    (market_conditions : gmap string Q) (holding_period_days : Z)
    (random_shock r : Q) :
  calculate_investment_return investment_type market_conditions
    holding_period_days random_shock = Ok r ->
  return_floor investment_type <= r <= return_ceiling investment_type.
Proof.
  unfold calculate_investment_return, return_floor, return_ceiling, getitem.
  destruct (INVESTMENT_TYPES !! investment_type); [simpl|discriminate].
  destruct (negb _); [discriminate|].
  destruct (String.eqb investment_type "cryptocurrency");
    [|destruct (String.eqb investment_type "venture_capital")];
    intros [= <-]; apply Qclamp_bounds; lra.
Qed.

Lemma return_floor_ge (investment_type : string) :
  -0.90 <= return_floor investment_type.
Proof.
  unfold return_floor.
  destruct (String.eqb _ _); [lra|]. destruct (String.eqb _ _); lra.
Qed.

(** What one revaluation does to the collection: nothing (no whole day
    has passed, or the computation raised), or the value of the document
    is replaced by the value read times [1 + r], for a return [r] within
    the bounds of the instrument. *)
Lemma update_investment_value_effect (investment : Holding.t)
    (utcnow : datetime) (random_shock : Q) (db : database) :
  let db' := (update_investment_value investment utcnow random_shock db).1 in
  investments db' = investments db \/
  exists r,
    return_floor (Holding.type investment) <= r
      <= return_ceiling (Holding.type investment) /\
    investments db'
    = update_one (fun h => (Holding._id h =? Holding._id investment)%Z)
        (apply_set
           [ HoldingSet.current_value
               (Holding.current_value investment * (1 + r));
             HoldingSet.last_update utcnow ])
        (investments db).
Proof.
  unfold update_investment_value.
  pose proof (get_server_investments (Holding.guild_id investment) utcnow db)
    as Hframe.
  destruct (get_server _ _ _) as [server db0]; simpl in *.
  destruct (_ =? 0)%Z; [by left|].
  destruct (getitem _ _); [|by left]; simpl.
  destruct (calculate_investment_return _ _ _ _) as [r|] eqn:Hr; [|by left].
  right. exists r. split.
  - by eapply calculate_investment_return_bounds.
  - simpl. by rewrite Hframe.
Qed.

Lemma update_one_Forall {A} (P : A -> Prop) (matches : A -> bool)
    (set : A -> A) (docs : list A) :
  (forall doc, matches doc = true -> P doc -> P (set doc)) ->
  Forall P docs -> Forall P (update_one matches set docs).
Proof.
  intros Hset. induction 1 as [|doc docs Hdoc Hdocs IH]; simpl; [done|].
  destruct (matches doc) eqn:E; constructor; auto.
Qed.

Lemma update_investment_value_positive (investment : Holding.t)
    (utcnow : datetime) (random_shock : Q) (db : database) :
  0 < Holding.current_value investment ->
  all_positive db ->
  all_positive (update_investment_value investment utcnow random_shock db).1.
Proof.
  intros Hinv Hdb. unfold all_positive.
  destruct (update_investment_value_effect investment utcnow random_shock db)
    as [->|(r & [Hlo _] & ->)]; [done|].
  apply update_one_Forall; [|done].
  intros doc _ _. simpl.
  pose proof (return_floor_ge (Holding.type investment)).
  apply Qmult_lt_0_compat; lra.
Qed.

Lemma for_each_revaluation_positive (utcnow : datetime) (shock : Z -> Q)
    (cursor : list Holding.t) (db : database) :
  Forall (fun h => 0 < Holding.current_value h) cursor ->
  all_positive db ->
  all_positive
    (for_each
       (fun investment db =>
          update_investment_value investment utcnow
            (shock (Holding._id investment)) db)
       cursor db).1.
Proof.
  intros Hcursor. revert db.
  induction Hcursor as [|inv cursor Hinv _ IH]; intros db Hdb; simpl; [done|].
  pose proof (update_investment_value_positive inv utcnow
                (shock (Holding._id inv)) db Hinv Hdb) as Hstep.
  destruct (update_investment_value _ _ _ _) as [db' [[]|e]]; simpl in *;
    [by apply IH | done].
Qed.

Lemma investment_update_loop_positive (utcnow : datetime) (shock : Z -> Q)
    (db : database) :
  all_positive db -> all_positive (investment_update_loop utcnow shock db).1.
Proof.
  intros Hdb. unfold investment_update_loop.
  pose proof (for_each_revaluation_positive utcnow shock (investments db) db
                Hdb Hdb) as H.
  by destruct (for_each _ _ _) as [db' [[]|e]].
Qed.

(** An accepted [invest] stores a holding whose value is its principal,
    at least the instrument's minimum. *)
Lemma invest_positive (user_id guild_id : Z) (utcnow : datetime)
    (investment_type : string) (amount : Q) (db : database) :
  all_positive db ->
  all_positive (invest user_id guild_id utcnow investment_type amount db).1.
Proof.
  unfold all_positive, invest. intros Hdb.
  pose proof (get_user_investments user_id guild_id db) as Hu.
  destruct (get_user user_id guild_id db) as [user db1]; simpl in Hu.
  pose proof (get_server_investments guild_id utcnow db1) as Hs.
  destruct (get_server guild_id utcnow db1) as [server db2]; simpl in Hs.
  assert (Forall (fun h => 0 < Holding.current_value h) (investments db2))
    as Hdb2 by (by rewrite Hs, Hu).
  destruct (INVESTMENT_TYPES !! normalize_key investment_type)
    as [inv_data|] eqn:Hcat; [|done].
  destruct (Qle_bool_spec (Investment.min_amount inv_data) amount) as [Hmin|];
    [|done]; simpl.
  destruct (negb _); [done|]. simpl.
  apply Forall_app; split; [done|].
  constructor; [|done]. simpl.
  pose proof (min_amount_positive _ _ Hcat). lra.
Qed.

Lemma investment_step_positive (db db' : database) :
  investment_step db db' -> all_positive db -> all_positive db'.
Proof.
  destruct 1 as [| inv now shock db Hin |]; intros Hdb.
  - by apply invest_positive.
  - apply update_investment_value_positive; [|done].
    unfold all_positive in Hdb. rewrite Forall_forall in Hdb. by apply Hdb.
  - by apply investment_update_loop_positive.
Qed.

(** C10.  A return is clamped to the bounds of its instrument, at least
    -0.90 in every case; a revaluation either leaves the collection alone
    or stores the value it read times [1 + r]; and along any sequence of
    investments and revaluations that starts from a collection of
    positive values (the empty one, for instance) every value stays
    strictly positive. *)
Theorem investment_value_stays_positive (db db' : database) :
  all_positive db ->
  rtc investment_step db db' ->
  all_positive db' /\
  (forall investment_type market_conditions days random_shock r,
      calculate_investment_return investment_type market_conditions days
        random_shock = Ok r ->
      return_floor investment_type <= r <= return_ceiling investment_type /\
      -0.90 <= r) /\
  (forall investment utcnow random_shock,
      investment ∈ investments db' ->
      let after :=
        (update_investment_value investment utcnow random_shock db').1 in
      investments after = investments db' \/
      exists r,
        return_floor (Holding.type investment) <= r
          <= return_ceiling (Holding.type investment) /\
        0 < 0.1 * Holding.current_value investment
          <= Holding.current_value investment * (1 + r) /\
        investments after
        = update_one (fun h => (Holding._id h =? Holding._id investment)%Z)
            (apply_set
               [ HoldingSet.current_value
                   (Holding.current_value investment * (1 + r));
                 HoldingSet.last_update utcnow ])
            (investments db')).
Proof.
  intros Hdb Hsteps.
  assert (all_positive db') as Hdb'.
  { induction Hsteps as [|db0 db1 db2 Hstep _ IH]; [done|].
    apply IH. by eapply investment_step_positive. }
  split; [done|split].
  - intros ty mc days shock r Hr.
    pose proof (calculate_investment_return_bounds _ _ _ _ _ Hr).
    pose proof (return_floor_ge ty). split; [done | lra].
  - intros inv now shock Hin after.
    destruct (update_investment_value_effect inv now shock db')
      as [H|(r & Hr & H)]; [by left|].
    right. exists r. split; [done|]. split; [|done].
    pose proof (return_floor_ge (Holding.type inv)).
    unfold all_positive in Hdb'. rewrite Forall_forall in Hdb'.
    pose proof (Hdb' _ Hin) as Hpos. simpl in Hpos.
    split; [lra|]. nra.
Qed.

Lemma investment_value_stays_positive_witness :
  all_positive after_revaluation_db.
Proof.
  refine (proj1 (investment_value_stays_positive empty_db after_revaluation_db
                   _ _)).
  - constructor.
  - eapply rtc_l; [apply step_invest|].
    eapply rtc_l; [apply step_revalue_all|]. apply rtc_refl.
Defined.

(** ** Non-negative balances *)

Lemma find_one_Some {A} (matches : A -> bool) (docs : list A) (doc : A) :
  find_one matches docs = Some doc -> doc ∈ docs /\ matches doc = true.
Proof.
  unfold find_one. intros H.
  assert (In doc (List.filter matches docs)) as Hin.
  { destruct (List.filter matches docs); [discriminate|].
    injection H as ->. by left. }
  apply filter_In in Hin as [Hin Hm]. split; [|done].
  by apply list_elem_of_In.
Qed.

Lemma find_one_None {A} (matches : A -> bool) (docs : list A) :
  find_one matches docs = None -> List.filter matches docs = [].
Proof. unfold find_one. by destruct (List.filter matches docs). Qed.

Lemma default_user_ok (user_id guild_id : Z) :
  user_ok (default_user user_id guild_id).
Proof. repeat split; simpl; (lra || lia). Qed.

Lemma default_server_ok (guild_id : Z) (utcnow : datetime) :
  server_ok (default_server guild_id utcnow).
Proof. repeat split; simpl; lra. Qed.

Lemma get_user_sound (user_id guild_id : Z) (db : database) :
  sound db ->
  user_ok (get_user user_id guild_id db).1 /\
  sound (get_user user_id guild_id db).2.
Proof.
  intros [Hu Hs]. unfold get_user.
  destruct (find_one _ _) as [user|] eqn:E; simpl.
  - apply find_one_Some in E as [Hin _].
    rewrite Forall_forall in Hu. split; [by apply Hu | split; [|done]].
    by apply Forall_forall.
  - split; [apply default_user_ok|]. split; [|done]. simpl.
    apply Forall_app. split; [done|].
    constructor; [apply default_user_ok | done].
Qed.

Lemma get_server_sound (guild_id : Z) (utcnow : datetime) (db : database) :
  sound db ->
  server_ok (get_server guild_id utcnow db).1 /\
  sound (get_server guild_id utcnow db).2.
Proof.
  intros [Hu Hs]. unfold get_server.
  destruct (find_one _ _) as [server|] eqn:E; simpl.
  - apply find_one_Some in E as [Hin _].
    rewrite Forall_forall in Hs. split; [by apply Hs | split; [done|]].
    by apply Forall_forall.
  - split; [apply default_server_ok|]. split; [done|]. simpl.
    apply Forall_app. split; [done|].
    constructor; [apply default_server_ok | done].
Qed.

Lemma update_user_sound (user_id guild_id : Z)
    (update_data : list (User.t -> User.t)) (db : database) :
  (forall u, user_ok u -> user_ok (apply_set update_data u)) ->
  sound db -> sound (update_user user_id guild_id update_data db).
Proof.
  intros Hset [Hu Hs]. split; [|done]. simpl.
  apply update_one_Forall; [|done]. intros doc _. apply Hset.
Qed.

Lemma update_server_sound (guild_id : Z)
    (update_data : list (Server.t -> Server.t)) (db : database) :
  (forall s, server_ok s -> server_ok (apply_set update_data s)) ->
  sound db -> sound (update_server guild_id update_data db).
Proof.
  intros Hset [Hu Hs]. split; [done|]. simpl.
  apply update_one_Forall; [|done]. intros doc _. apply Hset.
Qed.

Lemma phase_catalog_entry (phase : string) (modifiers : Phase.t) :
  PHASE_MODIFIERS !! phase = Some modifiers ->
  (phase, modifiers) ∈ PHASE_MODIFIERS_items.
Proof. apply elem_of_list_to_map_2. Qed.



Lemma inject_Z_nonneg (z : Z) : (0 <= z)%Z -> 0 <= inject_Z z.
Proof. intros H. change 0 with (inject_Z 0). by rewrite <- Zle_Qle. Qed.



(** Opening a command: its lookups, with what they guarantee. *)
Ltac lookup_user Hdb user db' Huser Hdb' :=
  match goal with
  | |- context [get_user ?u ?g ?db] =>
      pose proof (get_user_sound u g db Hdb) as [Huser Hdb'];
      destruct (get_user u g db) as [user db']; simpl in Huser, Hdb'
  end.

Ltac lookup_server Hdb server db' Hserver Hdb' :=
  match goal with
  | |- context [get_server ?g ?t ?db] =>
      pose proof (get_server_sound g t db Hdb) as [Hserver Hdb'];
      destruct (get_server g t db) as [server db']; simpl in Hserver, Hdb'
  end.

Ltac user_ok_after :=
  let u := fresh "u" in
  intros u (? & ? & ?); unfold apply_set, user_ok; simpl;
  repeat split; (lra || lia || idtac).







Lemma handle_loan_default_sound (loan : Loan.t) (db : database) :
  sound db -> sound (handle_loan_default loan db).
Proof.
  intros Hdb. unfold handle_loan_default.
  lookup_user Hdb user db1 Huser Hdb1.
  destruct Huser as (Hbal & Hbank & Hskill).
  set (total_assets := User.balance user + User.bank user).
  pose proof (Q.le_min_l total_assets (Loan.remaining loan)).
  assert (sound
            (update_user (Loan.user_id loan) (Loan.guild_id loan)
               [ UserSet.balance
                   (total_assets - Qmin total_assets (Loan.remaining loan));
                 UserSet.bank 0;
                 UserSet.reputation (User.reputation user - 50)%Z ] db1))
    as [Hu Hs] by (apply update_user_sound; [user_ok_after | done]).
  by split.
Qed.





Lemma find_one_update_one {A} (matches : A -> bool) (set : A -> A)
    (docs : list A) :
  (forall doc, matches doc = true -> matches (set doc) = true) ->
  find_one matches (update_one matches set docs)
  = set <$> find_one matches docs.
Proof.
  intros Hset. unfold find_one.
  induction docs as [|doc docs IH]; simpl; [done|].
  destruct (matches doc) eqn:E; simpl.
  - by rewrite (Hset _ E).
  - by rewrite E.
Qed.

Lemma is_user_default (user_id guild_id : Z) :
  is_user user_id guild_id (default_user user_id guild_id) = true.
Proof. unfold is_user; simpl. by rewrite !Z.eqb_refl. Qed.

Lemma get_user_find (user_id guild_id : Z) (db : database) :
  find_one (is_user user_id guild_id) (users (get_user user_id guild_id db).2)
  = Some (get_user user_id guild_id db).1.
Proof.
  unfold get_user.
  destruct (find_one _ (users db)) as [user|] eqn:E; simpl; [done|].
  apply find_one_None in E. unfold find_one.
  rewrite List.filter_app, E; simpl. by rewrite is_user_default.
Qed.

Lemma is_user_apply_set (user_id guild_id : Z)
    (update_data : list (User.t -> User.t)) :
  Forall (fun assign => forall u, User.user_id (assign u) = User.user_id u /\
                                  User.guild_id (assign u) = User.guild_id u)
         update_data ->
  forall u, is_user user_id guild_id u = true ->
            is_user user_id guild_id (apply_set update_data u) = true.
Proof.
  unfold apply_set. induction 1 as [|assign rest Hassign _ IH]; intros u Hu;
    simpl; [done|].
  apply IH. unfold is_user in *. by destruct (Hassign u) as [-> ->].
Qed.

(** The user that [update_user] finds is the one that it updates. *)
Lemma update_user_find (user_id guild_id : Z)
    (update_data : list (User.t -> User.t)) (db : database) :
  Forall (fun assign => forall u, User.user_id (assign u) = User.user_id u /\
                                  User.guild_id (assign u) = User.guild_id u)
         update_data ->
  find_one (is_user user_id guild_id)
           (users (update_user user_id guild_id update_data db))
  = apply_set update_data <$> find_one (is_user user_id guild_id) (users db).
Proof.
  intros H. simpl. apply find_one_update_one.
  by apply is_user_apply_set.
Qed.

(** The setters used by the commands keep the identity of the user. *)
Ltac keeps_identity := repeat constructor; intros []; done.











(** ** Loans *)

Lemma loan_evolves_refl (l : Loan.t) : loan_evolves l l.
Proof. repeat split; (lra || done). Qed.

Lemma loan_evolves_trans (a b c : Loan.t) :
  loan_evolves a b -> loan_evolves b c -> loan_evolves a c.
Proof.
  intros (Hi & Hr & Hn & Hd) (Hi' & Hr' & Hn' & Hd').
  repeat split; [congruence | lra | auto | auto].
Qed.

Lemma loans_evolve_refl (ls : list Loan.t) : Forall2 loan_evolves ls ls.
Proof. induction ls; constructor; auto using loan_evolves_refl. Qed.

Lemma loans_evolve_trans (xs ys zs : list Loan.t) :
  Forall2 loan_evolves xs ys -> Forall2 loan_evolves ys zs ->
  Forall2 loan_evolves xs zs.
Proof.
  intros H. revert zs. induction H; inversion 1; subst; constructor;
    eauto using loan_evolves_trans.
Qed.

(** With unique identifiers, updating the first match is updating every
    match. *)
Lemma update_one_as_map (i : Z) (set : Loan.t -> Loan.t) (docs : list Loan.t) :
  NoDup (map Loan._id docs) ->
  update_one (has_id i) set docs
  = map (fun l => if has_id i l then set l else l) docs.
Proof.
  induction docs as [|doc docs IH]; simpl; [done|].
  intros Hnd. apply NoDup_cons in Hnd as [Hnotin Hnd].
  destruct (has_id i doc) eqn:E.
  - f_equal. symmetry. rewrite <- (map_id docs) at 2.
    apply map_ext_in. intros l Hl.
    destruct (has_id i l) eqn:E'; [|done].
    unfold has_id in *. apply Z.eqb_eq in E, E'.
    exfalso. apply Hnotin. rewrite E, <- E'.
    apply list_elem_of_In, in_map. done.
  - by rewrite IH.
Qed.

Lemma update_one_ids (i : Z) (update_data : list (Loan.t -> Loan.t))
    (docs : list Loan.t) :
  Forall (fun assign => forall l, Loan._id (assign l) = Loan._id l)
         update_data ->
  map Loan._id (update_one (has_id i) (apply_set update_data) docs)
  = map Loan._id docs.
Proof.
  intros H. apply update_one_map. intros doc. unfold apply_set.
  revert doc. induction H as [|assign rest Ha _ IH]; intros doc; simpl;
    [done|]. by rewrite IH, Ha.
Qed.

Lemma same_id_same_loan (docs : list Loan.t) (x y : Loan.t) :
  NoDup (map Loan._id docs) -> x ∈ docs -> y ∈ docs ->
  Loan._id x = Loan._id y -> x = y.
Proof.
  induction docs as [|doc docs IH]; simpl; intros Hnd Hx Hy Hid.
  - by apply elem_of_nil in Hx.
  - apply NoDup_cons in Hnd as [Hnotin Hnd].
    apply elem_of_cons in Hx as [->|Hx]; apply elem_of_cons in Hy as [->|Hy];
      try done.
    + exfalso. apply Hnotin. rewrite Hid. by apply list_elem_of_fmap_2.
    + exfalso. apply Hnotin. rewrite <- Hid. by apply list_elem_of_fmap_2.
    + by apply IH.
Qed.

Lemma snapshot_tail (a : Loan.t) (rest : list Loan.t)
    (update_data : list (Loan.t -> Loan.t)) (db : database) :
  NoDup (map Loan._id (loans db)) ->
  snapshot_of (a :: rest) db ->
  snapshot_of rest
    (set_loans
       (update_one (has_id (Loan._id a)) (apply_set update_data) (loans db))
       db).
Proof.
  intros Hnd [Hids Hin]. simpl in Hids.
  apply NoDup_cons in Hids as [Hnotin Hids].
  split; [done|]. intros x Hx. simpl.
  rewrite update_one_as_map by done.
  apply list_elem_of_fmap. exists x. split; [|apply Hin; by right].
  destruct (has_id (Loan._id a) x) eqn:E; [|done].
  exfalso. apply Hnotin. unfold has_id in E. apply Z.eqb_eq in E.
  rewrite <- E. by apply list_elem_of_fmap_2.
Qed.

Lemma update_loan_evolves (a : Loan.t)
    (update_data : list (Loan.t -> Loan.t)) (db : database) :
  NoDup (map Loan._id (loans db)) ->
  a ∈ loans db ->
  loan_evolves a (apply_set update_data a) ->
  Forall2 loan_evolves (loans db)
    (update_one (has_id (Loan._id a)) (apply_set update_data) (loans db)).
Proof.
  intros Hnd Ha Hev. rewrite update_one_as_map by done.
  apply Forall2_fmap_r, Forall_Forall2_diag, Forall_forall.
  intros l Hl. unfold compose. cbn beta.
  destruct (has_id (Loan._id a) l) eqn:E.
  - unfold has_id in E. apply Z.eqb_eq in E.
    by rewrite (same_id_same_loan _ _ _ Hnd Hl Ha E).
  - apply loan_evolves_refl.
Qed.

(** The payment loop never raises a remaining balance, never makes one
    negative and never touches a defaulted flag. *)
Lemma repay_loop_evolves (remaining_payment : Q) (ordered : list Loan.t)
    (db : database) :
  NoDup (map Loan._id (loans db)) ->
  snapshot_of ordered db ->
  Forall (fun x => 0 <= Loan.remaining x) ordered ->
  Forall2 loan_evolves (loans db)
          (loans (repay_loop remaining_payment ordered db)) /\
  map Loan._id (loans (repay_loop remaining_payment ordered db))
  = map Loan._id (loans db).
Proof.
  revert remaining_payment db.
  induction ordered as [|a rest IH]; intros rp db Hnd Hsnap Hpos; simpl.
  { split; [apply loans_evolve_refl | done]. }
  destruct (Qle_bool_spec rp 0) as [Hrp|Hrp].
  { split; [apply loans_evolve_refl | done]. }
  apply Forall_cons in Hpos as [Ha Hrest].
  set (update_data := [LoanSet.remaining (Loan.remaining a
                                          - Qmin rp (Loan.remaining a))]).
  set (db1 := set_loans _ db).
  assert (map Loan._id (loans db1) = map Loan._id (loans db)) as Hids.
  { apply (update_one_ids (Loan._id a) update_data).
    repeat constructor. }
  destruct (IH (rp - Qmin rp (Loan.remaining a)) db1) as [Hev Hids'].
  - by rewrite Hids.
  - by apply snapshot_tail.
  - done.
  - split; [|by rewrite Hids', Hids].
    eapply loans_evolve_trans; [|apply Hev].
    apply update_loan_evolves; [done | apply Hsnap; by left |].
    unfold update_data, apply_set, loan_evolves; simpl.
    pose proof (Q.le_min_r rp (Loan.remaining a)).
    assert (0 <= Qmin rp (Loan.remaining a)) by (apply Q.min_glb; lra).
    repeat split; (lra || done).
Qed.

Lemma NoDup_map_filter {A B} (f : A -> B) (p : A -> bool) (l : list A) :
  NoDup (map f l) -> NoDup (map f (List.filter p l)).
Proof.
  induction l as [|x l IH]; simpl; [done|].
  intros Hnd. apply NoDup_cons in Hnd as [Hx Hnd].
  destruct (p x); simpl; [|by apply IH].
  apply NoDup_cons. split; [|by apply IH].
  intros Hin. apply Hx.
  apply list_elem_of_fmap in Hin as (y & -> & Hy).
  apply list_elem_of_fmap_2, list_elem_of_In.
  apply list_elem_of_In, filter_In in Hy. tauto.
Qed.

Lemma elem_of_filter_bool {A} (p : A -> bool) (l : list A) (x : A) :
  x ∈ List.filter p l <-> x ∈ l /\ p x = true.
Proof. by rewrite !list_elem_of_In, filter_In. Qed.

Lemma is_active_loan_positive (user_id guild_id : Z) (l : Loan.t) :
  is_active_loan user_id guild_id l = true ->
  0 < Loan.remaining l /\ Loan.defaulted l = false.
Proof.
  unfold is_active_loan. rewrite !andb_true_iff, !negb_true_iff.
  intros [[_ Hr] Hd]. split; [|done].
  destruct (Qle_bool_spec (Loan.remaining l) 0); [discriminate | done].
Qed.

Lemma insert_by_due_date_Permutation (loan : Loan.t) (ordered : list Loan.t) :
  insert_by_due_date loan ordered ≡ₚ loan :: ordered.
Proof.
  induction ordered as [|next rest IH]; simpl; [done|].
  destruct (_ <=? _)%Z; [done|]. by rewrite IH, Permutation_swap.
Qed.

Lemma sorted_by_due_date_Permutation (loans : list Loan.t) :
  sorted_by_due_date loans ≡ₚ loans.
Proof.
  induction loans as [|loan loans IH]; simpl; [done|].
  by rewrite insert_by_due_date_Permutation, IH.
Qed.

(** The loans that [repay] walks through: the active loans of the user in
    due-date order. *)
Lemma active_loans_snapshot (user_id guild_id : Z) (db : database) :
  NoDup (map Loan._id (loans db)) ->
  let ordered := sorted_by_due_date (get_active_loans user_id guild_id db) in
  snapshot_of ordered db /\
  Forall (fun x => 0 < Loan.remaining x) ordered.
Proof.
  intros Hnd ordered.
  assert (ordered ≡ₚ get_active_loans user_id guild_id db) as Hperm
    by apply sorted_by_due_date_Permutation.
  split; [split|].
  - rewrite Hperm. by apply NoDup_map_filter.
  - intros x Hx. rewrite Hperm in Hx.
    by apply elem_of_filter_bool in Hx as [Hx _].
  - rewrite Hperm. apply Forall_forall. intros x Hx.
    apply elem_of_filter_bool in Hx as [_ Hx].
    by apply is_active_loan_positive in Hx as [Hx _].
Qed.

(** A repayment of a finite amount never raises a remaining balance,
    never makes one negative and never touches a defaulted flag. *)
Lemma repay_evolves (user_id guild_id : Z) (utcnow : datetime)
    (amount : amount_text) (db : database) :
  amount <> NotANumber -> amount <> Infinite true ->
  NoDup (map Loan._id (loans db)) ->
  let db' := (repay user_id guild_id utcnow amount db).1 in
  Forall2 loan_evolves (loans db) (loans db') /\
  map Loan._id (loans db') = map Loan._id (loans db).
Proof.
  intros Hnan Hinf Hnd. unfold repay.
  pose proof (get_user_loans user_id guild_id db) as Hu.
  destruct (get_user user_id guild_id db) as [user db1]; simpl in Hu.
  pose proof (get_server_loans guild_id utcnow db1) as Hs.
  destruct (get_server guild_id utcnow db1) as [server db2]; simpl in Hs.
  assert (loans db2 = loans db) as Hl by congruence.
  rewrite <- Hl in Hnd |- *.
  assert (Forall2 loan_evolves (loans db2) (loans db2) /\
          map Loan._id (loans db2) = map Loan._id (loans db2)) as Hsame
    by (split; [apply loans_evolve_refl | done]).
  destruct (active_loans_snapshot user_id guild_id db2 Hnd) as [Hsnap Hpos].
  destruct (get_active_loans user_id guild_id db2) as [|loan active] eqn:Ha;
    [done|].
  destruct amount as [|value|[]| |]; cbn [fst float float_lt]; try done.
  - destruct (negb _); [done|]. cbn [fst loans update_user set_users].
    apply repay_loop_evolves; [done | done |].
    eapply Forall_impl; [apply Hpos | intros; simpl in *; lra].
  - destruct (negb _); [done|]. cbn [fst loans update_user set_users].
    apply repay_loop_evolves; [done | done |].
    eapply Forall_impl; [apply Hpos | intros; simpl in *; lra].
Qed.

Lemma snapshot_tail_loans (a : Loan.t) (rest : list Loan.t)
    (update_data : list (Loan.t -> Loan.t)) (db db1 : database) :
  NoDup (map Loan._id (loans db)) ->
  snapshot_of (a :: rest) db ->
  loans db1
  = update_one (has_id (Loan._id a)) (apply_set update_data) (loans db) ->
  snapshot_of rest db1.
Proof.
  intros Hnd Hsnap Hl.
  destruct (snapshot_tail a rest update_data db Hnd Hsnap) as [H1 H2].
  split; [done|]. intros x Hx. rewrite Hl. by apply H2.
Qed.

(** What a default writes to the loan collection. *)
Lemma handle_loan_default_loans (loan : Loan.t) (db : database) :
  let user := (get_user (Loan.user_id loan) (Loan.guild_id loan) db).1 in
  let seized :=
    Qmin (User.balance user + User.bank user) (Loan.remaining loan) in
  loans (handle_loan_default loan db)
  = update_one (has_id (Loan._id loan))
      (apply_set
         [ LoanSet.defaulted true;
           LoanSet.remaining (Qmax 0 (Loan.remaining loan - seized)) ])
      (loans db).
Proof.
  unfold handle_loan_default.
  pose proof (get_user_loans (Loan.user_id loan) (Loan.guild_id loan) db) as Hu.
  destruct (get_user _ _ db) as [user db1]; simpl in Hu. simpl.
  by rewrite Hu.
Qed.

(** A default on a loan of the collection lowers its remaining balance by
    the seized amount, floored at 0, and sets its flag. *)
Lemma handle_loan_default_evolves (loan : Loan.t) (db : database) :
  sound db ->
  NoDup (map Loan._id (loans db)) ->
  loan ∈ loans db ->
  0 <= Loan.remaining loan ->
  Forall2 loan_evolves (loans db) (loans (handle_loan_default loan db)) /\
  map Loan._id (loans (handle_loan_default loan db))
  = map Loan._id (loans db).
Proof.
  intros Hdb Hnd Hin Hrem.
  rewrite handle_loan_default_loans.
  destruct (get_user_sound (Loan.user_id loan) (Loan.guild_id loan) db Hdb)
    as [(Hbal & Hbank & _) _].
  set (user := (get_user _ _ db).1) in *.
  set (seized := Qmin _ _).
  assert (0 <= seized) as Hseized by (apply Q.min_glb; lra).
  split.
  - apply update_loan_evolves; [done | done |].
    unfold apply_set, loan_evolves; simpl.
    repeat split; try done.
    + apply Q.max_lub; lra.
    + intros _. apply Q.le_max_l.
  - apply update_one_ids. repeat constructor.
Qed.

Lemma is_overdue_positive (utcnow : datetime) (l : Loan.t) :
  is_overdue utcnow l = true -> 0 < Loan.remaining l.
Proof.
  unfold is_overdue. rewrite !andb_true_iff, !negb_true_iff.
  intros [[_ Hr] _].
  destruct (Qle_bool_spec (Loan.remaining l) 0); [discriminate | done].
Qed.

(** The sweep over a snapshot of loans. *)
Lemma default_sweep_evolves (snapshot : list Loan.t) (db : database) :
  sound db ->
  NoDup (map Loan._id (loans db)) ->
  snapshot_of snapshot db ->
  Forall (fun x => 0 <= Loan.remaining x) snapshot ->
  let db' :=
    (for_each (fun loan db => (handle_loan_default loan db, Ok tt))
       snapshot db).1 in
  Forall2 loan_evolves (loans db) (loans db') /\
  map Loan._id (loans db') = map Loan._id (loans db) /\
  sound db'.
Proof.
  revert db. induction snapshot as [|a rest IH]; intros db Hdb Hnd Hsnap Hpos.
  { simpl. split; [apply loans_evolve_refl | done]. }
  apply Forall_cons in Hpos as [Ha Hrest]. cbn [for_each].
  destruct (handle_loan_default_evolves a db Hdb Hnd) as [Hev Hids];
    [apply Hsnap; by left | done |].
  pose proof (handle_loan_default_sound a db Hdb) as Hdb1.
  destruct (IH (handle_loan_default a db)) as (Hev' & Hids' & Hdb'); try done.
  - by rewrite Hids.
  - eapply snapshot_tail_loans; [apply Hnd | apply Hsnap |].
    apply handle_loan_default_loans.
  - split; [|split; [by rewrite Hids', Hids | done]].
    by eapply loans_evolve_trans.
Qed.

Lemma loan_check_loop_evolves (utcnow : datetime) (db : database) :
  sound db ->
  NoDup (map Loan._id (loans db)) ->
  let db' := (loan_check_loop utcnow db).1 in
  Forall2 loan_evolves (loans db) (loans db') /\
  map Loan._id (loans db') = map Loan._id (loans db) /\
  sound db'.
Proof.
  intros Hdb Hnd. unfold loan_check_loop.
  pose proof (default_sweep_evolves
                (List.filter (is_overdue utcnow) (loans db)) db Hdb Hnd) as H.
  destruct (for_each _ _ _) as [db' [[]|e]]; simpl in *; apply H.
  all: try (split; [by apply NoDup_map_filter|];
            intros x Hx; by apply elem_of_filter_bool in Hx as [Hx _]).
  all: apply Forall_forall; intros x Hx;
    apply elem_of_filter_bool in Hx as [_ Hx];
    apply is_overdue_positive in Hx; lra.
Qed.

Lemma repay_loop_nothing_to_pay (remaining_payment : Q)
    (ordered : list Loan.t) (db : database) :
  remaining_payment <= 0 -> repay_loop remaining_payment ordered db = db.
Proof.
  intros H. destruct ordered; simpl; [done|]. by rewrite Qle_bool_true.
Qed.

(** Repaying 0 writes no loan. *)
Lemma repay_zero_loans (user_id guild_id : Z) (utcnow : datetime)
    (db : database) :
  loans (repay user_id guild_id utcnow (Number 0) db).1 = loans db.
Proof.
  unfold repay.
  pose proof (get_user_loans user_id guild_id db) as Hu.
  destruct (get_user user_id guild_id db) as [user db1]; simpl in Hu.
  pose proof (get_server_loans guild_id utcnow db1) as Hs.
  destruct (get_server guild_id utcnow db1) as [server db2]; simpl in Hs.
  assert (loans db2 = loans db) as Hl by congruence.
  destruct (get_active_loans user_id guild_id db2); [done|].
  cbn [fst float float_lt]. destruct (negb (Qle_bool _ _)); [done|].
  cbn [fst loans update_user set_users].
  by rewrite repay_loop_nothing_to_pay by lra.
Qed.

Lemma repay_zero_repeated (user_id guild_id : Z) (times : list Z)
    (db : database) :
  loans (foldl (fun db utcnow =>
                  (repay user_id guild_id utcnow (Number 0) db).1) db times)
  = loans db.
Proof.
  revert db. induction times as [|utcnow times IH]; intros db; simpl; [done|].
  by rewrite IH, repay_zero_loans.
Qed.

Lemma py_sum_Permutation (xs ys : list Q) : xs ≡ₚ ys -> py_sum xs == py_sum ys.
Proof.
  induction 1 as [|x xs ys _ IH|x y xs|xs ys zs _ IH1 _ IH2].
  - reflexivity.
  - by rewrite !py_sum_cons, IH.
  - rewrite !py_sum_cons. ring.
  - by rewrite IH1.
Qed.

Lemma py_sum_nonneg (xs : list Q) :
  Forall (fun x => 0 <= x) xs -> 0 <= py_sum xs.
Proof.
  induction 1 as [|x xs Hx _ IH]; [by compute|].
  rewrite py_sum_cons. lra.
Qed.

Lemma filter_none {A} (p : A -> bool) (l : list A) :
  (forall x, x ∈ l -> p x = false) -> List.filter p l = [].
Proof.
  induction l as [|x l IH]; intros H; simpl; [done|].
  rewrite (H x) by (by left). apply IH. intros y Hy. apply H. by right.
Qed.

(** C8 (defect of the code).  The remaining balance of a loan can
    increase.  A member of guild 7 borrows 100, which leaves a loan with
    106 to repay, and is then granted a loan of -1500, which takes the
    cash balance to -400.  When the first loan is overdue, the default
    seizes [min(-400, 106) = -400] and stores the remaining balance
    [max(0, 106 - (-400)) = 506]. *)
Theorem default_of_overdrawn_borrower_raises_remaining :
  exists shown before after,
    (loan 1 7 0 (-1500) (loan 1 7 0 100 empty_db).1).2
    = Ok (Embed "Loan Approved!" shown) /\
    balance_of 1 7 overdrawn_borrower_db == -400 /\
    bank_of 1 7 overdrawn_borrower_db == 0 /\
    find_one (has_id 0) (loans overdrawn_borrower_db) = Some before /\
    is_overdue (timedelta_of_days 31) before = true /\
    find_one (has_id 0)
      (loans (loan_check_loop (timedelta_of_days 31) overdrawn_borrower_db).1)
    = Some after /\
    Loan.remaining before == 106 /\
    Loan.remaining after == 506 /\
    Loan.defaulted after = true /\
    ~ Loan.remaining after <= Loan.remaining before.
Proof.
  eexists _, _, _.
  do 9 (split; [vm_compute; reflexivity|]).
  intros H. apply Qle_bool_iff in H. vm_compute in H. discriminate.
Qed.

(** ** Validation at the boundary *)

(** For a caller and a tenant that already have their records, the
    lookups of a command change nothing. *)
Lemma lookups_existing (user_id guild_id : Z) (utcnow : datetime)
    (db : database) :
  is_Some (find_one (is_user user_id guild_id) (users db)) ->
  is_Some (find_one (is_server guild_id) (servers db)) ->
  lookups user_id guild_id utcnow db = db.
Proof.
  intros [user Hu] [server Hs]. unfold lookups, get_user, get_server.
  rewrite Hu; simpl. by rewrite Hs.
Qed.

Lemma deposit_rejects_nonpositive (user_id guild_id : Z) (utcnow : datetime)
    (value : Q) (db : database) :
  value <= 0 ->
  deposit user_id guild_id utcnow (Number value) db
  = (lookups user_id guild_id utcnow db,
     Ok (Ephemeral "Amount must be positive!")).
Proof.
  unfold deposit, lookups.
  destruct (get_user user_id guild_id db) as [user db1]; simpl.
  destruct (get_server guild_id utcnow db1) as [server db2]; simpl.
  intros H. by rewrite Qle_bool_true.
Qed.

Lemma withdraw_rejects_nonpositive (user_id guild_id : Z) (utcnow : datetime)
    (value : Q) (db : database) :
  value <= 0 ->
  withdraw user_id guild_id utcnow (Number value) db
  = (lookups user_id guild_id utcnow db,
     Ok (Ephemeral "Amount must be positive!")).
Proof.
  unfold withdraw, lookups.
  destruct (get_user user_id guild_id db) as [user db1]; simpl.
  destruct (get_server guild_id utcnow db1) as [server db2]; simpl.
  intros H. by rewrite Qle_bool_true.
Qed.

Lemma transfer_rejects_nonpositive (user_id guild_id : Z) (utcnow : datetime)
    (target_id : Z) (amount : Q) (db : database) :
  amount <= 0 ->
  transfer user_id guild_id utcnow target_id amount db
  = (lookups target_id guild_id utcnow (get_user user_id guild_id db).2,
     Ok (Ephemeral "Amount must be positive!")).
Proof.
  unfold transfer, lookups.
  destruct (get_user user_id guild_id db) as [sender db1]; simpl.
  destruct (get_user target_id guild_id db1) as [receiver db2]; simpl.
  destruct (get_server guild_id utcnow db2) as [server db3]; simpl.
  intros H. by rewrite Qle_bool_true.
Qed.

Lemma invest_rejects_invalid (user_id guild_id : Z) (utcnow : datetime)
    (investment_type : string) (amount : Q) (db : database) :
  INVESTMENT_TYPES !! normalize_key investment_type = None \/ amount <= 0 ->
  exists message,
    invest user_id guild_id utcnow investment_type amount db
    = (lookups user_id guild_id utcnow db, Ok (Ephemeral message)).
Proof.
  unfold invest, lookups.
  destruct (get_user user_id guild_id db) as [user db1]; simpl.
  destruct (get_server guild_id utcnow db1) as [server db2]; simpl.
  destruct (INVESTMENT_TYPES !! normalize_key investment_type)
    as [inv_data|] eqn:Hcat; [|eauto].
  intros [|Hamount]; [discriminate|].
  pose proof (min_amount_positive _ _ Hcat).
  rewrite Qle_bool_false by lra. simpl. eauto.
Qed.

Lemma crime_rejects_unknown (user_id guild_id : Z) (utcnow : datetime)
    (crime_type : string) (rnd u : Q) (db : database) :
  CRIME_TYPES !! normalize_key crime_type = None ->
  exists message,
    crime user_id guild_id utcnow crime_type rnd u db
    = (lookups user_id guild_id utcnow db, Ok (Ephemeral message)).
Proof.
  unfold crime, lookups.
  destruct (get_user user_id guild_id db) as [user db1]; simpl.
  destruct (get_server guild_id utcnow db1) as [server db2]; simpl.
  intros ->. destruct (in_jail _ _); [eauto|].
  destruct (on_cooldown _ _ _); eauto.
Qed.

(** The price of an item that the catalog does not know. *)
Lemma calculate_item_price_unknown (item : string)
    (base_price inflation_rate demand_factor : Q) :
  BASE_ITEMS !! item = None ->
  calculate_item_price item base_price inflation_rate demand_factor
  = Qmax (base_price * (1 + inflation_rate)
          * (1.0 + (demand_factor - 1.0) * 0.5))
         (base_price * 0.5 * 0.5).
Proof.
  intros H. unfold calculate_item_price, item_data_or_default. by rewrite H.
Qed.

(** C9 (as amended).  Deposit, withdraw and transfer reject a non-positive
    amount, invest rejects an unknown instrument or a non-positive amount,
    and crime rejects an unknown crime type: each answers with an error
    message and writes nothing (the database is the one that the lookups
    of the caller and of the tenant leave, which is the database itself
    when both records exist).  Item pricing does not reject an unknown
    item key: it prices the item with the default elasticity 0.5 and the
    default necessity 0.5. *)
Theorem boundary_validation (db : database) :
  (forall user_id guild_id utcnow value,
      value <= 0 ->
      deposit user_id guild_id utcnow (Number value) db
      = (lookups user_id guild_id utcnow db,
         Ok (Ephemeral "Amount must be positive!"))) /\
  (forall user_id guild_id utcnow value,
      value <= 0 ->
      withdraw user_id guild_id utcnow (Number value) db
      = (lookups user_id guild_id utcnow db,
         Ok (Ephemeral "Amount must be positive!"))) /\
  (forall user_id guild_id utcnow target_id amount,
      amount <= 0 ->
      transfer user_id guild_id utcnow target_id amount db
      = (lookups target_id guild_id utcnow (get_user user_id guild_id db).2,
         Ok (Ephemeral "Amount must be positive!"))) /\
  (forall user_id guild_id utcnow investment_type amount,
      INVESTMENT_TYPES !! normalize_key investment_type = None \/ amount <= 0 ->
      exists message,
        invest user_id guild_id utcnow investment_type amount db
        = (lookups user_id guild_id utcnow db, Ok (Ephemeral message))) /\
  (forall user_id guild_id utcnow crime_type rnd u,
      CRIME_TYPES !! normalize_key crime_type = None ->
      exists message,
        crime user_id guild_id utcnow crime_type rnd u db
        = (lookups user_id guild_id utcnow db, Ok (Ephemeral message))) /\
  (forall user_id guild_id utcnow,
      is_Some (find_one (is_user user_id guild_id) (users db)) ->
      is_Some (find_one (is_server guild_id) (servers db)) ->
      lookups user_id guild_id utcnow db = db) /\
  (forall item base_price inflation_rate demand_factor,
      BASE_ITEMS !! item = None ->
      calculate_item_price item base_price inflation_rate demand_factor
      = Qmax (base_price * (1 + inflation_rate)
              * (1.0 + (demand_factor - 1.0) * 0.5))
             (base_price * 0.5 * 0.5)).
Proof.
  split; [intros; by apply deposit_rejects_nonpositive|].
  split; [intros; by apply withdraw_rejects_nonpositive|].
  split; [intros; by apply transfer_rejects_nonpositive|].
  split; [intros; by apply invest_rejects_invalid|].
  split; [intros; by apply crime_rejects_unknown|].
  split; [intros; by apply lookups_existing|].
  intros. by apply calculate_item_price_unknown.
Qed.

Lemma boundary_validation_witness :
  deposit 1 7 100 (Number (-50)) indebted_db
  = (lookups 1 7 100 indebted_db, Ok (Ephemeral "Amount must be positive!")).
Proof.
  destruct (boundary_validation indebted_db) as [Hdeposit _].
  apply Hdeposit. lra.
Defined.

(** C9 as first stated fails.  Item pricing accepts a key that the
    catalog does not know and answers with a price; and the repayment
    command does not reject a negative amount: it answers "Loan
    Repayment" and credits the amount to the cash balance. *)
Lemma unknown_item_and_negative_repayment_accepted :
  BASE_ITEMS !! "unicorn" = None /\
  calculate_item_price "unicorn" 100 0.02 1.0 == 102 /\
  (repay 1 7 100 (Number (-100)) indebted_db).2
  = Ok (Embed "Loan Repayment" [-100; py_sum [560; 330] - -100]) /\
  balance_of 1 7 indebted_db == 1000 /\
  balance_of 1 7 (repay 1 7 100 (Number (-100)) indebted_db).1 == 1100.
Proof. repeat split; vm_compute; reflexivity. Qed.

(** ** Worked examples *)

Example classify_samples :
  map calculate_economic_class [0; 10000; 10001; 50000; 200001; 1000001]
  = [LOWER; LOWER; MIDDLE; MIDDLE; ELITE; OLIGARCH].
Proof. vm_compute. reflexivity. Qed.

Example salary_unemployed (server_data : Server.t) :
  calculate_salary "unemployed" server_data 3 "peak" = Ok 0.
Proof. reflexivity. Qed.

(** A teacher of skill 5 in a fresh tenant during a recession:
    3800 * 0.85 * 1.3 * 1.5 * 1 = 6298.5. *)
Example salary_teacher :
  exists wage,
    calculate_salary "teacher" (default_server 1 0) 5 "recession" = Ok wage /\
    wage == 6298.5.
Proof. eexists. split; [reflexivity|]. vm_compute. reflexivity. Qed.

Example salary_unknown_job :
  calculate_salary "astronaut" (default_server 1 0) 5 "peak"
  = Raise (KeyError "astronaut").
Proof. vm_compute. reflexivity. Qed.

(** Three actors holding 0, 100 and 10000: the coefficient is
    [2 * 30200 / (3 * 10100) - 4 / 3 = 200 / 303]. *)
Example gini_three_actors :
  exists g,
    calculate_gini_coefficient 7
      (set_users
         [ UserSet.balance 10000 (default_user 1 7);
           UserSet.balance 0 (default_user 2 7);
           UserSet.balance 100 (default_user 3 7) ] empty_db) = Ok g /\
    g == 200 # 303.
Proof. eexists. split; [vm_compute; reflexivity|]. vm_compute. reflexivity. Qed.

Example sorted_sample : sorted [3; 1; 2.5] = [1; 2.5; 3].
Proof. vm_compute. reflexivity. Qed.

Example phase_indexes :
  map current_phase_index [0; 5; 6; 11; 12; 17; 23; 27; 28; 34]%Z
  = [0; 0; 1; 1; 2; 3; 4; 4; 0; 1]%Z.
Proof. vm_compute. reflexivity. Qed.

(** Should the clock read a time before the cycle start, [int()] rounds
    the negative quotient towards zero, where a floor would round it
    down. *)
Example phase_index_before_start :
  current_phase_index (-1) = 0%Z /\
  (Qfloor (inject_Z (-1) / (inject_Z CYCLE_DURATION_DAYS / 5)) mod 5 = 4)%Z.
Proof. split; vm_compute; reflexivity. Qed.

Example cycle_shock :
  CycleUpdate.cycle_phase <$>
    match update_economic_cycle (default_server 1 0) (timedelta_of_days 1) 0.01
    with Ok update => Some update | Raise _ => None end
  = Some "recession".
Proof. vm_compute. reflexivity. Qed.

Example inflation_defaults :
  calculate_inflation 5000 0 1.5 = 0.02 /\
  calculate_inflation 1000000 1 1.5 == 0.20 /\
  calculate_inflation 0 1000 1.5 == -0.05.
Proof. repeat split; vm_compute; reflexivity. Qed.

Example normalize_key_sample :
  normalize_key "Venture Capital" = "venture_capital".
Proof. reflexivity. Qed.

(** The stocks bought for 500 are worth 250 after a revaluation whose
    return is clamped at -0.50. *)
Example revaluation_sample :
  map Holding.current_value (investments after_invest_db) = [500] /\
  Forall2 Qeq (map Holding.current_value (investments after_revaluation_db))
          [250].
Proof.
  split; [vm_compute; reflexivity|].
  vm_compute. repeat constructor.
Qed.

(** Repaying 400 against loans of 330 (due first) and 560: the first is
    settled and the second is left with 490. *)
Example repay_sample :
  Forall2 Qeq
    (map Loan.remaining (loans (repay 1 7 100 (Number 400) indebted_db).1))
    [490; 0].
Proof. vm_compute. repeat constructor. Qed.

(** The texts that [float()] reads as non-finite.  A deposit of [inf] is
    refused for lack of funds and a deposit of [-inf] as not positive; a
    deposit of [nan] passes both comparisons.  A repayment of [inf] is
    refused for lack of funds; repayments of [nan] and of [-inf] pass the
    only comparison. *)
Example non_finite_amounts :
  (deposit 1 7 100 (Infinite false) indebted_db).2
  = Ok (Ephemeral "Insufficient funds!") /\
  (deposit 1 7 100 (Infinite true) indebted_db).2
  = Ok (Ephemeral "Amount must be positive!") /\
  (deposit 1 7 100 NotANumber indebted_db).2
  = Ok (EmbedNonFinite "Deposit Successful") /\
  (repay 1 7 100 (Infinite false) indebted_db).2
  = Ok (Ephemeral "Insufficient funds!") /\
  (repay 1 7 100 NotANumber indebted_db).2
  = Ok (EmbedNonFinite "Loan Repayment") /\
  (repay 1 7 100 (Infinite true) indebted_db).2
  = Ok (EmbedNonFinite "Loan Repayment").
Proof. repeat split; vm_compute; reflexivity. Qed.

(** Loans with the same due date are repaid in the order of the cursor:
    150 against loans of 100, 200 and 300 that are all due at the same
    time settles the first and leaves 150 of the second. *)
Example repay_ties_in_cursor_order :
  Forall2 Qeq
    (map Loan.remaining
       (loans (repay 1 7 100 (Number 150)
                 (set_loans
                    [ Loan.mk 0 1 7 100 0.1 100 500 0 false;
                      Loan.mk 1 1 7 200 0.1 200 500 0 false;
                      Loan.mk 2 1 7 300 0.1 300 500 0 false ]
                    indebted_db)).1))
    [0; 150; 300].
Proof. vm_compute. repeat constructor. Qed.

(** An overdue loan of 5000 against assets of 1000: the seizure is 1000,
    the loan is left with 4000 and the actor with nothing. *)
Example default_sample :
  let db :=
    set_loans [Loan.mk 0 1 7 4500 0.12 5000 10 0 false]
      (set_users [default_user 1 7] empty_db) in
  let db' := handle_loan_default (Loan.mk 0 1 7 4500 0.12 5000 10 0 false) db in
  balance_of 1 7 db' == 0 /\
  Forall2 Qeq (map Loan.remaining (loans db')) [4000] /\
  map Loan.defaulted (loans db') = [true].
Proof. repeat split; vm_compute; reflexivity. Qed.

(** * Further properties of the code *)

(** ** Inflation and prices *)

(** Inflation always lies between -5% and 20%, whatever the money supply,
    the GDP and the velocity are. *)
Theorem calculate_inflation_bounds (money_supply gdp velocity : Q) :
  -0.05 <= calculate_inflation money_supply gdp velocity <= 0.20.
Proof.
  unfold calculate_inflation.
  destruct (Qle_bool gdp 0); [lra|]. apply Qclamp_bounds. lra.
Qed.

Lemma item_catalog_entry (item : string) (item_data : Item.t) :
  BASE_ITEMS !! item = Some item_data -> (item, item_data) ∈ BASE_ITEMS_items.
Proof. apply elem_of_list_to_map_2. Qed.

(** A price never falls below the necessity floor of its item. *)
Lemma calculate_item_price_floor (item : string)
    (base_price inflation_rate demand_factor : Q) :
  base_price * snd (item_data_or_default item) * 0.5
  <= calculate_item_price item base_price inflation_rate demand_factor.
Proof. unfold calculate_item_price. apply Q.le_max_r. Qed.

(** The prices of a tick: for an item of the catalog, priced from its
    base price at the inflation that [calculate_inflation] produces and
    at neutral demand, the necessity floor never binds, and the price is
    the base price scaled by [1 + inflation]. *)
Theorem tick_price_is_inflated_base (item : string) (item_data : Item.t)
    (money_supply gdp velocity : Q) :
  BASE_ITEMS !! item = Some item_data ->
  let inflation := calculate_inflation money_supply gdp velocity in
  calculate_item_price item (Item.base_price item_data) inflation 1.0
  == Item.base_price item_data * (1 + inflation) /\
  0 < calculate_item_price item (Item.base_price item_data) inflation 1.0.
Proof.
  intros Hitem inflation.
  assert (-0.05 <= inflation <= 0.20) as Hb.
  { unfold inflation, calculate_inflation.
    destruct (Qle_bool gdp 0); [lra|]. apply Qclamp_bounds. lra. }
  unfold calculate_item_price, item_data_or_default. rewrite Hitem.
  cbn [fst snd]. generalize dependent inflation. intros inflation Hb.
  apply item_catalog_entry in Hitem. unfold BASE_ITEMS_items in Hitem.
  rewrite !elem_of_cons, elem_of_nil in Hitem.
  assert (forall a b, b <= a -> 0 < a -> Qmax a b == a /\ 0 < Qmax a b)
    as Hmax by (intros a b H1 H2; rewrite Q.max_l by done; by split).
  destruct Hitem as [E|[E|[E|[E|[E|[E|[E|[E|[E|[]]]]]]]]]];
    injection E as -> ->; cbn [Item.base_price Item.elasticity Item.necessity];
    match goal with
    | |- Qmax ?a ?b == ?c /\ _ =>
        destruct (Hmax a b) as [H1 H2]; [lra | lra |];
        split; [rewrite H1; ring | done]
    end.
Qed.

Lemma tick_price_is_inflated_base_witness :
  let inflation := calculate_inflation 5000 1000 1.5 in
  calculate_item_price "bread" 5 inflation 1.0 == 5 * (1 + inflation) /\
  0 < calculate_item_price "bread" 5 inflation 1.0.
Proof.
  apply (tick_price_is_inflated_base "bread" (Item.mk 5 0.3 0.9) 5000 1000 1.5).
  vm_compute. reflexivity.
Defined.

(** ** The business cycle never fails *)

(** Whatever the clock reads, before the cycle start included, and
    whatever the draw, the cycle update raises nothing and answers with
    one of the five phases together with the modifiers of that phase. *)
Theorem update_economic_cycle_never_raises (server_data : Server.t)
    (utcnow : datetime) (rnd : Q) :
  exists update,
    update_economic_cycle server_data utcnow rnd = Ok update /\
    CycleUpdate.cycle_phase update ∈ CYCLE_PHASES /\
    PHASE_MODIFIERS !! CycleUpdate.cycle_phase update
    = Some (CycleUpdate.phase_modifiers update).
Proof.
  unfold update_economic_cycle.
  destruct (time_phase_defined
              (timedelta_days (utcnow - Server.cycle_start server_data)))
    as (phase & -> & Hin).
  match goal with
  | |- context [if ?shock then "recession" else phase] =>
      set (new_phase := if shock then "recession" else phase)
  end.
  assert (new_phase ∈ CYCLE_PHASES) as Hnew.
  { unfold new_phase. destruct (_ && _); [|done].
    unfold CYCLE_PHASES. rewrite !elem_of_cons. auto. }
  destruct (phase_modifiers_defined _ Hnew) as [modifiers Hmod].
  unfold getitem. rewrite Hmod. simpl. eauto.
Qed.

(** ** Credit *)

Lemma class_loan_interest_positive (c : EconomicClass) :
  0 < Benefits.loan_interest (CLASS_BENEFITS c).
Proof. destruct c; reflexivity. Qed.

Lemma Qclamp_monotone (lo hi x y : Q) :
  x <= y -> Qmax lo (Qmin x hi) <= Qmax lo (Qmin y hi).
Proof. intros H. by apply Q.max_le_compat_l, Q.min_le_compat_r. Qed.

(** The interest rate of a loan lies between 1% and 50%; and as long as
    the tenant's base rate is not below -45%, a better credit score never
    gives a higher rate. *)
Theorem calculate_loan_interest_monotone (economic_class : EconomicClass)
    (credit_score better_score server_interest_rate : Q) :
  -0.45 <= server_interest_rate ->
  credit_score <= better_score ->
  0.01 <= calculate_loan_interest economic_class better_score
            server_interest_rate
       <= calculate_loan_interest economic_class credit_score
            server_interest_rate /\
  calculate_loan_interest economic_class credit_score server_interest_rate
  <= 0.50.
Proof.
  intros Hrate Hscore. unfold calculate_loan_interest.
  pose proof (class_loan_interest_positive economic_class) as Hclass.
  set (class_rate := Benefits.loan_interest _) in *.
  split; [split|].
  - apply Q.le_max_l.
  - apply Qclamp_monotone.
    assert (0 <= 1.0 + (server_interest_rate - 0.05) * 2) as Hmod by lra.
    apply Qmult_le_compat_r; [|done].
    apply Qmult_le_l; [done | lra].
  - apply Q.max_lub; [lra | apply Q.le_min_r].
Qed.

Lemma calculate_loan_interest_monotone_witness :
  0.01 <= calculate_loan_interest MIDDLE 0.9 0.05
       <= calculate_loan_interest MIDDLE 0.2 0.05 /\
  calculate_loan_interest MIDDLE 0.2 0.05 <= 0.50.
Proof.
  apply (calculate_loan_interest_monotone MIDDLE 0.2 0.9 0.05); lra.
Defined.

(** ** Strikes and unemployment *)

(** When the strike probability is computed, it lies between 0 and 0.80;
    and for a job other than "unemployed", a positive minimum wage, a
    non-negative unemployment rate and a non-negative union strength it
    is at most [0.15 * union_strength], because the wage is never below
    the minimum wage. *)
Theorem calculate_strike_probability_bounds (job : string)
    (server_data : Server.t) (union_strength p : Q) :
  calculate_strike_probability job server_data union_strength = Ok p ->
  0 <= p <= 0.80 /\
  (job <> "unemployed" -> 0 < Server.min_wage server_data ->
   0 <= Server.unemployment_rate server_data -> 0 <= union_strength ->
   p <= 0.15 * union_strength).
Proof.
  unfold calculate_strike_probability.
  destruct (getitem (Server.job_market server_data) job); [|discriminate].
  cbn [rbind].
  destruct (calculate_salary job server_data 5 (Server.cycle_phase server_data))
    as [wage|] eqn:Hwage; [|discriminate]. cbn [rbind].
  destruct (pydiv _ _) as [ratio|] eqn:Hratio; [|discriminate]. cbn [rbind].
  intros [= <-]. split.
  { split; [apply Q.le_max_l|]. apply Q.max_lub; [lra | apply Q.le_min_r]. }
  intros Hjob Hmin Hunemp Hunion.
  assert (Server.min_wage server_data <= wage) as Hfloor.
  { revert Hwage. unfold calculate_salary, getitem.
    apply String.eqb_neq in Hjob. rewrite Hjob.
    destruct (JOBS !! job); [simpl|discriminate].
    destruct (PHASE_MODIFIERS !! _); [simpl|discriminate].
    intros [= <-]. apply Q.le_max_r. }
  rewrite pydiv_nonzero in Hratio by lra. injection Hratio as <-.
  set (min_wage := Server.min_wage server_data) in *.
  assert ((min_wage * 1.5 - wage) / (min_wage * 1.5) <= 1 # 3) as Hthird.
  { apply Qle_shift_div_r; lra. }
  assert (Qmax 0 ((min_wage * 1.5 - wage) / (min_wage * 1.5)) <= 1 # 3)
    as Hdis by (apply Q.max_lub; lra).
  set (wd := Qmax 0 _) in *.
  set (u := Server.unemployment_rate server_data) in *.
  unfold STRIKE_PROBABILITY_BASE.
  assert ((0.05 + wd * 0.3 - u * 0.5) * union_strength
          <= 0.15 * union_strength) as Hprob
    by (apply Qmult_le_compat_r; lra).
  apply Q.max_lub.
  - apply Qmult_le_0_compat; lra.
  - eapply Qle_trans; [apply Q.le_min_l | done].
Qed.

Lemma calculate_strike_probability_bounds_witness :
  exists p,
    calculate_strike_probability "teacher" (default_server 1 0) 1 = Ok p /\
    0 <= p <= 0.80.
Proof.
  eexists. split; [vm_compute; reflexivity|].
  refine (proj1 (calculate_strike_probability_bounds "teacher"
                   (default_server 1 0) 1 _ _)).
  vm_compute. reflexivity.
Defined.

(** For a job of the catalog and a phase of the cycle the wage is
    computed without error. *)
Lemma calculate_salary_defined (job : string) (server_data : Server.t)
    (user_skill : Z) (economic_phase : string) :
  is_Some (JOBS !! job) ->
  economic_phase ∈ CYCLE_PHASES ->
  exists wage,
    calculate_salary job server_data user_skill economic_phase = Ok wage.
Proof.
  intros [job_data Hjob] Hphase.
  destruct (phase_modifiers_defined _ Hphase) as [phase Hmod].
  unfold calculate_salary, getitem.
  destruct (String.eqb job "unemployed"); [eauto|].
  rewrite Hjob, Hmod; simpl. eauto.
Qed.

(** With a minimum wage of 0 the strike computation divides by zero. *)
Theorem calculate_strike_probability_zero_min_wage (job : string)
    (server_data : Server.t) (union_strength : Q) :
  is_Some (Server.job_market server_data !! job) ->
  is_Some (JOBS !! job) ->
  Server.cycle_phase server_data ∈ CYCLE_PHASES ->
  Server.min_wage server_data == 0 ->
  calculate_strike_probability job server_data union_strength
  = Raise ZeroDivisionError.
Proof.
  intros [entry Hentry] Hjob Hphase Hmin.
  unfold calculate_strike_probability, getitem. rewrite Hentry. cbn [rbind].
  destruct (calculate_salary_defined job server_data 5 _ Hjob Hphase)
    as [wage ->].
  cbn [rbind]. rewrite pydiv_zero; [done|]. rewrite Hmin. ring.
Qed.

Lemma calculate_strike_probability_zero_min_wage_witness :
  calculate_strike_probability "teacher"
    (apply_set [fun s =>
       Server.mk (Server.guild_id s) (Server.settings s) (Server.gdp s)
         (Server.total_money_supply s) (Server.inflation_rate s)
         (Server.unemployment_rate s) (Server.gini_coefficient s)
         (Server.cycle_phase s) (Server.cycle_start s)
         (Server.interest_rate s) 0 (Server.tax_revenue s)
         (Server.government_budget s) (Server.market_prices s)
         (Server.job_market s) (Server.last_update s) (Server.created_at s)]
       (default_server 1 0)) 1
  = Raise ZeroDivisionError.
Proof.
  apply calculate_strike_probability_zero_min_wage.
  - vm_compute. eauto.
  - vm_compute. eauto.
  - unfold CYCLE_PHASES. cbn. rewrite !elem_of_cons. auto.
  - reflexivity.
Defined.

Lemma rmap_Ok_iff {A B} (f : A -> result B) (xs : list A) :
  (exists ys, rmap f xs = Ok ys) <-> Forall (fun x => exists y, f x = Ok y) xs.
Proof.
  induction xs as [|x xs IH]; simpl.
  - split; [constructor | eauto].
  - split.
    + intros [ys H]. destruct (f x) as [y|] eqn:E; [|discriminate].
      cbn [rbind] in H. destruct (rmap f xs) as [ys'|]; [|discriminate].
      constructor; [eauto | apply IH; eauto].
    + intros H. apply Forall_cons in H as [[y ->] H]. cbn [rbind].
      apply IH in H as [ys ->]. cbn [rbind]. eauto.
Qed.

(** The unemployment rate of the engine is computed exactly when the
    phase of the tenant is one that has modifiers and the tenant's job
    market has an entry for every job of the catalog; otherwise a lookup
    raises.  A computed rate is at most 0.50. *)
Theorem calculate_unemployment_rate_defined (server_data : Server.t)
    (total_users : Z) :
  ((exists rate, calculate_unemployment_rate server_data total_users = Ok rate)
   <-> is_Some (PHASE_MODIFIERS !! Server.cycle_phase server_data) /\
       Forall (fun entry =>
                 is_Some (Server.job_market server_data !! fst entry))
              JOBS_items) /\
  (forall rate,
      calculate_unemployment_rate server_data total_users = Ok rate ->
      rate <= 0.50).
Proof.
  unfold calculate_unemployment_rate, getitem. split.
  - destruct (PHASE_MODIFIERS !! Server.cycle_phase server_data)
      as [modifiers|]; cbn [rbind].
    2:{ split; [intros [? [=]] | intros [[? [=]] _]]. }
    assert (Forall (fun entry =>
                      is_Some (Server.job_market server_data !! fst entry))
                   JOBS_items
            <-> exists ys, rmap (automation_term server_data) JOBS_items
                           = Ok ys) as ->.
    { rewrite rmap_Ok_iff. apply Forall_iff. intros [job job_data].
      unfold automation_term, getitem; simpl.
      destruct (Server.job_market server_data !! job); cbn [rbind].
      - split; eauto.
      - split; [intros [? [=]] | intros [? [=]]]. }
    destruct (rmap _ _) as [terms|]; cbn [rbind].
    + split; eauto.
    + split; [intros [? [=]] | intros [_ [? [=]]]].
  - intros rate.
    destruct (PHASE_MODIFIERS !! _); cbn [rbind]; [|discriminate].
    destruct (rmap _ _); cbn [rbind]; [|discriminate].
    intros [= <-]. apply Q.le_min_r.
Qed.

(** ** Macro events *)

Lemma first_triggered_spec (events : list (string * Event.t)) (i : nat)
    (draw : nat -> Q) (event : string * Event.t) :
  first_triggered events i draw = Some event ->
  exists k,
    events !! k = Some event /\
    draw (i + k)%nat < Event.probability (snd event) /\
    forall j earlier,
      (j < k)%nat -> events !! j = Some earlier ->
      Event.probability (snd earlier) <= draw (i + j)%nat.
Proof.
  revert i. induction events as [|[name data] rest IH]; intros i; simpl;
    [discriminate|].
  destruct (Qle_bool_spec (Event.probability data) (draw i)) as [Hno|Hyes];
    simpl.
  - intros H. destruct (IH _ H) as (k & Hk & Hdraw & Hearlier).
    exists (S k). split; [done|].
    split; [by replace (i + S k)%nat with (S i + k)%nat by lia|].
    intros [|j] earlier Hj; simpl.
    + intros [= <-]. by rewrite Nat.add_0_r.
    + intros Hl. replace (i + S j)%nat with (S i + j)%nat by lia.
      apply Hearlier; [lia | done].
  - intros [= <-]. exists 0%nat. rewrite Nat.add_0_r.
    split; [done|]. split; [done|]. intros j earlier Hj. lia.
Qed.

Lemma event_catalog_impacts (k : nat) (event : string * Event.t) :
  ECONOMIC_EVENTS_items !! k = Some event ->
  -0.25 <= Event.gdp_impact (snd event) <= 0.20 /\
  -0.10 <= Event.unemployment_impact (snd event) <= 0.40 /\
  (5 <= Event.duration_days (snd event) <= 60)%Z.
Proof.
  unfold ECONOMIC_EVENTS_items.
  do 8 (destruct k as [|k];
        [intros [= <-]; cbn; repeat split; (lra || lia)|]).
  discriminate.
Qed.

(** An event that is triggered is the first of the catalog, in its fixed
    order, whose draw fell below its probability.  It starts now and ends
    after its own duration; until then it multiplies GDP by a factor
    between 0.75 and 1.20 and unemployment by a factor between 0.90 and
    1.40, and after its end it is reported for removal. *)
Theorem trigger_economic_event_first (server_data : Server.t)
    (utcnow : datetime) (draw : nat -> Q) (event : ActiveEvent.t) :
  trigger_economic_event server_data utcnow draw = Some event ->
  (exists k,
      ECONOMIC_EVENTS_items !! k
      = Some (ActiveEvent.name event, ActiveEvent.data event) /\
      draw k < Event.probability (ActiveEvent.data event) /\
      forall j earlier,
        (j < k)%nat -> ECONOMIC_EVENTS_items !! j = Some earlier ->
        Event.probability (snd earlier) <= draw j) /\
  ActiveEvent.start_time event = utcnow /\
  (forall later : Z,
      (utcnow + timedelta_of_days
                  (Event.duration_days (ActiveEvent.data event)) < later)%Z ->
      apply_event_effects server_data event later = RemoveEvent) /\
  (forall later : Z,
      (later <= utcnow + timedelta_of_days
                           (Event.duration_days (ActiveEvent.data event)))%Z ->
      exists gdp_modifier unemployment_modifier,
        apply_event_effects server_data event later
        = Modifiers gdp_modifier unemployment_modifier /\
        0.75 <= gdp_modifier <= 1.20 /\
        0.90 <= unemployment_modifier <= 1.40).
Proof.
  unfold trigger_economic_event.
  destruct (first_triggered ECONOMIC_EVENTS_items 0 draw) as [[name data]|]
    eqn:Hfirst; [|discriminate].
  intros [= <-].
  destruct (first_triggered_spec _ _ _ _ Hfirst) as (k & Hk & Hdraw & Hearlier).
  cbn [ActiveEvent.name ActiveEvent.data ActiveEvent.start_time snd] in *.
  split; [exists k; eauto|]. split; [done|].
  unfold apply_event_effects.
  cbn [ActiveEvent.end_time ActiveEvent.data]. split.
  - intros later Hlater.
    by destruct (Z.ltb_spec
                   (utcnow + timedelta_of_days (Event.duration_days data))
                   later); [|lia].
  - intros later Hlater.
    destruct (Z.ltb_spec
                (utcnow + timedelta_of_days (Event.duration_days data))
                later); [lia|].
    destruct (event_catalog_impacts _ _ Hk) as (Hg & Hu & _).
    cbn [snd] in Hg, Hu.
    eexists _, _. split; [reflexivity|]. split; lra.
Qed.

Lemma trigger_economic_event_first_witness :
  exists event,
    trigger_economic_event (default_server 1 0) 1000
      (fun i => if (i =? 2)%nat then 0.005 else 0.5) = Some event /\
    ActiveEvent.name event = "natural_disaster" /\
    ActiveEvent.start_time event = 1000%Z.
Proof.
  eexists. split; [vm_compute; reflexivity|]. split; [reflexivity|].
  refine (proj1 (proj2 (trigger_economic_event_first (default_server 1 0) 1000
                          (fun i => if (i =? 2)%nat then 0.005 else 0.5)
                          _ _))).
  vm_compute. reflexivity.
Defined.

(** When no draw falls below 0.03, the largest probability of the
    catalog, no event is triggered. *)
Theorem trigger_economic_event_none (server_data : Server.t)
    (utcnow : datetime) (draw : nat -> Q) :
  (forall i, 0.03 <= draw i) ->
  trigger_economic_event server_data utcnow draw = None.
Proof.
  intros Hdraw. unfold trigger_economic_event, ECONOMIC_EVENTS_items.
  cbn [first_triggered Event.probability].
  repeat match goal with
    | |- context [Qle_bool ?p (draw ?i)] =>
        rewrite (Qle_bool_true p (draw i)) by (pose proof (Hdraw i); lra);
        cbn [negb]
    end.
  done.
Qed.

Lemma trigger_economic_event_none_witness :
  trigger_economic_event (default_server 1 0) 1000 (fun _ => 0.5) = None.
Proof.
  apply trigger_economic_event_none. intros _. lra.
Defined.

(** ** Wages and taxes *)

Lemma job_catalog_entry (job : string) (job_data : Job.t) :
  JOBS !! job = Some job_data -> (job, job_data) ∈ JOBS_items.
Proof. apply elem_of_list_to_map_2. Qed.

Lemma job_catalog_nonneg :
  Forall (fun entry => 0 <= Job.base_salary (snd entry) /\
                       0 <= Job.demand_elasticity (snd entry) /\
                       (0 <= Job.skill_required (snd entry))%Z)
         JOBS_items.
Proof. unfold JOBS_items. repeat constructor; cbn; (lra || lia). Qed.

Lemma phase_growth_bounds (phase : string) (modifiers : Phase.t) :
  PHASE_MODIFIERS !! phase = Some modifiers ->
  0 < Phase.gdp_growth modifiers <= 1.15.
Proof.
  intros H. apply phase_catalog_entry in H.
  unfold PHASE_MODIFIERS_items in H.
  rewrite !elem_of_cons, elem_of_nil in H.
  destruct H as [E|[E|[E|[E|[E|[]]]]]]; injection E as -> ->; cbn; lra.
Qed.

Lemma Qinv_int_unit (z : Z) : 0 <= 1 / inject_Z (Z.max z 1) <= 1.
Proof.
  assert (1 <= inject_Z (Z.max z 1)) as H
    by (change 1 with (inject_Z 1); rewrite <- Zle_Qle; lia).
  split.
  - apply Qle_shift_div_l; lra.
  - apply Qle_shift_div_r; lra.
Qed.

Lemma Qmult_le_nonneg_l (z x y : Q) : x <= y -> 0 <= z -> z * x <= z * y.
Proof.
  intros Hxy Hz. rewrite (Qmult_comm z x), (Qmult_comm z y).
  by apply Qmult_le_compat_r.
Qed.

(** Wages are capped: for a job of the catalog, a non-negative skill and
    a non-negative GDP, the wage is at most the larger of the minimum
    wage and 6.9 times the base salary (the product of the caps 1.15, 2,
    1.5 and 2 of the four modifiers). *)
Theorem calculate_salary_cap (job : string) (job_data : Job.t)
    (server_data : Server.t) (user_skill : Z) (economic_phase : string)
    (wage : Q) :
  JOBS !! job = Some job_data ->
  (0 <= user_skill)%Z ->
  0 <= Server.gdp server_data ->
  calculate_salary job server_data user_skill economic_phase = Ok wage ->
  wage <= Qmax (6.9 * Job.base_salary job_data) (Server.min_wage server_data).
Proof.
  intros Hjob Hskill Hgdp. unfold calculate_salary, getitem.
  pose proof job_catalog_nonneg as Hcat. rewrite Forall_forall in Hcat.
  destruct (Hcat _ (job_catalog_entry _ _ Hjob)) as (Hbase & Hel & Hreq).
  cbn [snd] in *.
  destruct (String.eqb job "unemployed").
  { intros [= <-]. eapply Qle_trans; [|apply Q.le_max_l]. lra. }
  rewrite Hjob. cbn [rbind].
  destruct (PHASE_MODIFIERS !! economic_phase) as [modifiers|] eqn:Hphase;
    [|discriminate].
  cbn [rbind]. intros [= <-].
  pose proof (phase_growth_bounds _ _ Hphase) as [Hg0 Hg1].
  set (employed := JobMarket.employed _).
  pose proof (Qinv_int_unit employed) as [Hi0 Hi1].
  set (supply := Qmin (1.0 + Job.demand_elasticity job_data
                             * (1 / inject_Z (Z.max employed 1))) 2.0).
  set (skill := Qmin (1.0 + inject_Z user_skill
                            / inject_Z (Z.max (Job.skill_required job_data) 1)
                            * 0.5) 1.5).
  set (gdpm := Qmin (1.0 + Server.gdp server_data / 1000000 * 0.1) 2.0).
  assert (0 <= supply <= 2) as [Hs0 Hs1].
  { split; [|eapply Qle_trans; [apply Q.le_min_r | lra]].
    apply Q.min_glb; [|lra].
    assert (0 <= Job.demand_elasticity job_data
                 * (1 / inject_Z (Z.max employed 1)))
      by (by apply Qmult_le_0_compat). lra. }
  assert (0 <= skill <= 1.5) as [Hk0 Hk1].
  { split; [|eapply Qle_trans; [apply Q.le_min_r | lra]].
    apply Q.min_glb; [|lra].
    assert (0 <= inject_Z user_skill
                 / inject_Z (Z.max (Job.skill_required job_data) 1)).
    { pose proof (Qinv_int_unit (Job.skill_required job_data)) as [Hq _].
      pose proof (inject_Z_nonneg _ Hskill).
      unfold Qdiv in *. rewrite Qmult_1_l in Hq.
      by apply Qmult_le_0_compat. }
    lra. }
  assert (0 <= gdpm <= 2) as [Hm0 Hm1].
  { split; [|eapply Qle_trans; [apply Q.le_min_r | lra]].
    apply Q.min_glb; [|lra].
    assert (0 <= Server.gdp server_data / 1000000)
      by (apply Qle_shift_div_l; lra). lra. }
  apply Q.max_le_compat_r.
  set (base := Job.base_salary job_data) in *.
  set (growth := Phase.gdp_growth modifiers) in *.
  assert (base * growth <= base * 1.15) as H1 by (apply Qmult_le_nonneg_l; lra).
  assert (0 <= base * growth) as H1' by (apply Qmult_le_0_compat; lra).
  assert (base * growth * supply <= base * 1.15 * 2) as H2.
  { eapply Qle_trans; [apply (Qmult_le_compat_r _ _ supply H1 Hs0)|].
    apply Qmult_le_nonneg_l; lra. }
  assert (0 <= base * growth * supply) as H2'
    by (by apply Qmult_le_0_compat).
  assert (base * growth * supply * skill <= base * 1.15 * 2 * 1.5) as H3.
  { eapply Qle_trans; [apply (Qmult_le_compat_r _ _ skill H2 Hk0)|].
    apply Qmult_le_nonneg_l; lra. }
  assert (0 <= base * growth * supply * skill) as H3'
    by (by apply Qmult_le_0_compat).
  assert (base * growth * supply * skill * gdpm
          <= base * 1.15 * 2 * 1.5 * 2) as H4.
  { eapply Qle_trans; [apply (Qmult_le_compat_r _ _ gdpm H3 Hm0)|].
    apply Qmult_le_nonneg_l; lra. }
  lra.
Qed.

Lemma calculate_salary_cap_witness :
  exists wage,
    calculate_salary "ceo" (default_server 1 0) 10 "expansion" = Ok wage /\
    wage <= Qmax (6.9 * 15000) 1500.
Proof.
  eexists. split; [vm_compute; reflexivity|].
  apply (calculate_salary_cap "ceo" (Job.mk 15000 10 0.9 0.1)
           (default_server 1 0) 10 "expansion").
  - vm_compute. reflexivity.
  - lia.
  - cbn. lra.
  - vm_compute. reflexivity.
Defined.

(** Taxation is progressive on the bands: of two wealth values, the
    larger one, when it lies inside a band, is never taxed at a lower rate
    than the smaller one, so on the same non-negative income and with a
    non-negative tenant modifier it never pays less tax. *)
Theorem calculate_tax_progressive (wealth richer income modifier : Q) :
  wealth <= richer ->
  bands_of richer <> [] ->
  0 <= income -> 0 <= modifier ->
  calculate_tax income (calculate_economic_class wealth) modifier
  <= calculate_tax income (calculate_economic_class richer) modifier.
Proof.
  intros Hle Hband Hincome Hmodifier.
  assert (CLASS_TAX_RATES (calculate_economic_class wealth)
          <= CLASS_TAX_RATES (calculate_economic_class richer)) as Hrate.
  { revert Hband.
    cbv beta iota delta
      [bands_of calculate_economic_class first_band CLASS_THRESHOLDS in_band
       List.filter map fst snd].
    qcases; intros Hband; try done; cbn; lra. }
  unfold calculate_tax.
  apply Qmult_le_nonneg_l; [|done].
  by apply Qmult_le_compat_r.
Qed.

Lemma calculate_tax_progressive_witness :
  calculate_tax 1000 (calculate_economic_class 20000) 0.2
  <= calculate_tax 1000 (calculate_economic_class 60000) 0.2.
Proof.
  apply (calculate_tax_progressive 20000 60000 1000 0.2); try lra.
  vm_compute. discriminate.
Defined.

(** ** Portfolios *)

Lemma allocate_sound (candidates : list (string * Investment.t))
    (remaining_funds risk_tolerance : Q) :
  0 <= remaining_funds ->
  let allocations := allocate candidates remaining_funds risk_tolerance in
  py_sum (map snd allocations) <= remaining_funds /\
  Forall (fun ka =>
            0 <= snd ka <= 0.3 * remaining_funds /\
            exists inv_data,
              (fst ka, inv_data) ∈ candidates /\
              Investment.risk inv_data <= risk_tolerance)
         allocations.
Proof.
  revert remaining_funds.
  induction candidates as [|[inv_type inv_data] rest IH]; intros r Hr; simpl.
  { split; [by compute|constructor]. }
  assert (forall r', 0 <= r' <= r ->
            py_sum (map snd (allocate rest r' risk_tolerance)) <= r' /\
            Forall (fun ka =>
                      0 <= snd ka <= 0.3 * r /\
                      exists d, (fst ka, d) ∈ (inv_type, inv_data) :: rest /\
                                Investment.risk d <= risk_tolerance)
                   (allocate rest r' risk_tolerance)) as Hrest.
  { intros r' [Hr0 Hr1]. destruct (IH r' Hr0) as [Hsum Hall].
    split; [done|]. eapply Forall_impl; [apply Hall|].
    intros ka [[Ha0 Ha1] (d & Hd & Hrisk)].
    split; [lra|]. exists d. split; [by right | done]. }
  destruct (negb (Qle_bool (Investment.min_amount inv_data) r)).
  { apply Hrest. lra. }
  assert (Qmin (r * 0.3) r == 0.3 * r) as Hmin
    by (rewrite Q.min_l by lra; ring).
  destruct (Qle_bool_spec (Investment.risk inv_data) risk_tolerance)
    as [Hrisk|Hrisk].
  - set (allocation := Qmin (r * 0.3) r) in *.
    assert (forall tail,
               py_sum (map snd tail) <= r - allocation ->
               Forall (fun ka =>
                         0 <= snd ka <= 0.3 * r /\
                         exists d, (fst ka, d) ∈ (inv_type, inv_data) :: rest /\
                                   Investment.risk d <= risk_tolerance) tail ->
               py_sum (map snd ((inv_type, allocation) :: tail)) <= r /\
               Forall (fun ka =>
                         0 <= snd ka <= 0.3 * r /\
                         exists d, (fst ka, d) ∈ (inv_type, inv_data) :: rest /\
                                   Investment.risk d <= risk_tolerance)
                      ((inv_type, allocation) :: tail)) as Hcons.
    { intros tail Hsum Hall. split.
      - cbn [map snd]. rewrite py_sum_cons. lra.
      - constructor; [|done]. cbn [fst snd]. split; [lra|].
        exists inv_data. split; [by left | done]. }
    destruct (negb (Qle_bool 100 (r - allocation))).
    + apply Hcons; [|constructor]. change (py_sum (map snd [])) with 0. lra.
    + destruct (Hrest (r - allocation)) as [Hsum Hall]; [lra|].
      by apply Hcons.
  - destruct (negb (Qle_bool 100 r)).
    + split; [by change (py_sum (map snd [])) with 0 | constructor].
    + apply Hrest. lra.
Qed.

Lemma allocate_below_minimum (candidates : list (string * Investment.t))
    (remaining_funds risk_tolerance : Q) :
  Forall (fun entry => remaining_funds < Investment.min_amount (snd entry))
         candidates ->
  allocate candidates remaining_funds risk_tolerance = [].
Proof.
  induction 1 as [|[inv_type inv_data] rest Hmin _ IH]; simpl; [done|].
  cbn [snd] in Hmin. by rewrite Qle_bool_false.
Qed.

Lemma investment_keys_distinct : NoDup (INVESTMENT_TYPES_items.*1).
Proof.
  unfold INVESTMENT_TYPES_items. cbn [fmap list_fmap fst].
  repeat (apply NoDup_cons; split;
          [rewrite ?elem_of_cons, elem_of_nil; intros H;
           repeat (destruct H as [H|H]; [discriminate H|]); exact H|]).
  apply NoDup_nil_2.
Qed.

(** The portfolio never allocates more than the funds it is given: for
    non-negative funds every allocation is non-negative and at most 30%
    of the funds, goes to an instrument of the catalog whose risk is
    within the tolerance, and the allocations together do not exceed the
    funds; with less than 100 available nothing is allocated. *)
Theorem optimize_portfolio_within_funds (available_funds risk_tolerance : Q) :
  0 <= available_funds ->
  let allocations := optimize_portfolio available_funds risk_tolerance in
  py_sum (map snd allocations) <= available_funds /\
  Forall (fun ka =>
            0 <= snd ka <= 0.3 * available_funds /\
            exists inv_data,
              INVESTMENT_TYPES !! fst ka = Some inv_data /\
              Investment.risk inv_data <= risk_tolerance)
         allocations /\
  (available_funds < 100 -> allocations = []).
Proof.
  intros Hfunds allocations. unfold allocations, optimize_portfolio.
  assert (investments_sorted ≡ₚ INVESTMENT_TYPES_items) as Hperm
    by apply merge_sort_Permutation.
  destruct (allocate_sound investments_sorted available_funds risk_tolerance
              Hfunds) as [Hsum Hall].
  split; [done|]. split.
  - eapply Forall_impl; [apply Hall|].
    intros ka [Hrange (d & Hd & Hrisk)]. split; [done|].
    exists d. split; [|done]. rewrite Hperm in Hd.
    apply elem_of_list_to_map_1; [apply investment_keys_distinct | done].
  - intros Hsmall. apply allocate_below_minimum. rewrite Hperm.
    unfold INVESTMENT_TYPES_items. repeat constructor; cbn; lra.
Qed.

Lemma optimize_portfolio_within_funds_witness :
  py_sum (map snd (optimize_portfolio 10000 0.1)) <= 10000 /\
  Forall (fun ka =>
            0 <= snd ka <= 0.3 * 10000 /\
            exists inv_data,
              INVESTMENT_TYPES !! fst ka = Some inv_data /\
              Investment.risk inv_data <= 0.1)
         (optimize_portfolio 10000 0.1) /\
  (10000 < 100 -> optimize_portfolio 10000 0.1 = []).
Proof. apply (optimize_portfolio_within_funds 10000 0.1). lra. Defined.

(** ** When the Gini computation raises *)

Lemma py_sum_zero_iff (xs : list Q) :
  Forall (fun x => 0 <= x) xs ->
  py_sum xs == 0 <-> Forall (fun x => x == 0) xs.
Proof.
  induction 1 as [|x xs Hx Hxs IH].
  - split; [constructor | reflexivity].
  - rewrite py_sum_cons. pose proof (py_sum_nonneg xs Hxs) as Hsum. split.
    + intros Hzero. constructor; [lra|]. apply IH. lra.
    + intros Hall. apply Forall_cons in Hall as [Hx0 Hall].
      apply IH in Hall. lra.
Qed.

(** In a guild with at least two members, all of non-negative wealth,
    the Gini computation raises [ZeroDivisionError] exactly when every
    member holds no wealth at all; as soon as one member holds something
    it returns a coefficient. *)
Theorem calculate_gini_coefficient_raises_iff (guild_id : Z) (db : database) :
  (2 <= length (guild_wealth guild_id db))%nat ->
  Forall (fun w => 0 <= w) (guild_wealth guild_id db) ->
  (calculate_gini_coefficient guild_id db = Raise ZeroDivisionError <->
   Forall (fun w => w == 0) (guild_wealth guild_id db)) /\
  (~ Forall (fun w => w == 0) (guild_wealth guild_id db) ->
   exists gini, calculate_gini_coefficient guild_id db = Ok gini).
Proof.
  intros Hlen Hall.
  assert (~ Forall (fun w => w == 0) (guild_wealth guild_id db) ->
          exists gini, calculate_gini_coefficient guild_id db = Ok gini)
    as Hdefined.
  { revert Hlen Hall. unfold guild_wealth, calculate_gini_coefficient.
    set (members := List.filter (in_guild guild_id) (users db)).
    set (wealth := map _ members).
    intros Hlen Hall Hsome.
    assert (length wealth = length members) as Hlw
      by (unfold wealth; by rewrite length_map).
    assert ((length members <? 2)%nat = false) as ->
      by (apply Nat.ltb_ge; lia).
    fold (qlen (sorted wealth)).
    assert (qlen (sorted wealth) == qlen wealth) as Hq
      by (unfold qlen; by rewrite sorted_length).
    assert (2 <= qlen wealth) as Hn.
    { unfold qlen. change 2 with (inject_Z 2). rewrite <- Zle_Qle. lia. }
    assert (py_sum (sorted wealth) == py_sum wealth) as Hsum
      by (apply py_sum_Permutation, merge_sort_Permutation).
    assert (0 < py_sum wealth) as Hpos.
    { pose proof (py_sum_nonneg wealth Hall) as Hge.
      destruct (Qlt_le_dec 0 (py_sum wealth)) as [|Hle]; [done|].
      exfalso. apply Hsome, py_sum_zero_iff; [done | lra]. }
    assert (0 < qlen wealth * py_sum wealth) as Hns
      by (apply Qmult_lt_0_compat; lra).
    rewrite pydiv_nonzero by (rewrite Hq, Hsum; lra).
    rewrite pydiv_nonzero by (rewrite Hq; lra).
    cbn [rbind]. eauto. }
  split; [split|done].
  - intros Hraise.
    destruct (Qeq_dec (py_sum (guild_wealth guild_id db)) 0) as [Hz|Hnz].
    + by apply py_sum_zero_iff.
    + destruct Hdefined as [gini Hgini]; [|congruence].
      intros Hzero. by apply Hnz, py_sum_zero_iff.
  - intros Hzero. by apply gini_zero_wealth_raises.
Qed.

Lemma calculate_gini_coefficient_raises_iff_witness :
  (calculate_gini_coefficient 8
     (set_users [default_user 1 8; broke_user 2 8; default_user 3 8] empty_db)
   = Raise ZeroDivisionError <->
   Forall (fun w => w == 0)
     (guild_wealth 8
        (set_users [default_user 1 8; broke_user 2 8; default_user 3 8]
                   empty_db))) /\
  (~ Forall (fun w => w == 0)
       (guild_wealth 8
          (set_users [default_user 1 8; broke_user 2 8; default_user 3 8]
                     empty_db)) ->
   exists gini,
     calculate_gini_coefficient 8
       (set_users [default_user 1 8; broke_user 2 8; default_user 3 8]
                  empty_db)
     = Ok gini).
Proof.
  apply (calculate_gini_coefficient_raises_iff 8
           (set_users [default_user 1 8; broke_user 2 8; default_user 3 8]
                      empty_db)).
  - cbn. lia.
  - repeat constructor; cbn; lra.
Defined.

(** ** The statistics read from the collections *)

Lemma py_sum_snoc (xs : list Q) (x : Q) : py_sum (xs ++ [x]) == py_sum xs + x.
Proof.
  rewrite (py_sum_Permutation (xs ++ [x]) (x :: xs)), py_sum_cons; [ring|].
  by rewrite Permutation_app_comm.
Qed.

Lemma inject_Z_max_one_positive (z : Z) : 1 <= inject_Z (Z.max z 1).
Proof. change 1 with (inject_Z 1). rewrite <- Zle_Qle. lia. Qed.

(** The unemployment rate of a guild is a share: it lies between 0 and 1,
    and it is 0 for a guild without members, where the divisor is raised
    to 1. *)
Theorem get_unemployment_rate_range (guild_id : Z) (db : database) :
  0 <= get_unemployment_rate guild_id db <= 1 /\
  (List.filter (in_guild guild_id) (users db) = [] ->
   get_unemployment_rate guild_id db == 0).
Proof.
  unfold get_unemployment_rate.
  set (guild_users := List.filter (in_guild guild_id) (users db)).
  set (unemployed := List.filter _ guild_users).
  pose proof (List.filter_length_le
                (fun u => String.eqb (User.job u) "unemployed") guild_users)
    as Hle.
  fold unemployed in Hle.
  pose proof (inject_Z_max_one_positive (Z.of_nat (length guild_users)))
    as Hden.
  split; [split|].
  - apply Qle_shift_div_l; [lra|]. rewrite Qmult_0_l.
    apply inject_Z_nonneg. lia.
  - apply Qle_shift_div_r; [lra|]. rewrite Qmult_1_l, <- Zle_Qle. lia.
  - unfold unemployed. intros ->. reflexivity.
Qed.

(** Recording a transaction of a guild adds its amount to the GDP of
    that guild over every window that still contains its timestamp,
    leaves the GDP over a window that starts later unchanged, and never
    changes the GDP of another guild. *)
Theorem record_transaction_get_gdp (guild_id from_user to_user : Z)
    (amount : Q) (transaction_type : string) (timestamp : datetime)
    (days : Z) (utcnow : datetime) (db : database) :
  let db' :=
    record_transaction guild_id from_user to_user amount transaction_type
      timestamp db in
  ((utcnow - timedelta_of_days days <= timestamp)%Z ->
   get_gdp guild_id days utcnow db'
   == get_gdp guild_id days utcnow db + amount) /\
  ((timestamp < utcnow - timedelta_of_days days)%Z ->
   get_gdp guild_id days utcnow db' = get_gdp guild_id days utcnow db) /\
  (forall other_guild,
      other_guild <> guild_id ->
      get_gdp other_guild days utcnow db' = get_gdp other_guild days utcnow db).
Proof.
  assert (forall matched : list Txn.t,
             match matched with
             | [] => 0.0
             | _ => py_sum (map Txn.amount matched)
             end == py_sum (map Txn.amount matched)) as Hsum
    by (intros []; reflexivity).
  unfold get_gdp, record_transaction.
  cbn [transactions set_transactions]. rewrite !List.filter_app.
  cbn [List.filter Txn.guild_id Txn.timestamp].
  split; [|split].
  - intros Hin. rewrite Z.eqb_refl.
    apply Z.leb_le in Hin. rewrite Hin. cbn [andb].
    rewrite !Hsum, map_app. cbn [map Txn.amount].
    by rewrite py_sum_snoc.
  - intros Hout. rewrite Z.eqb_refl.
    apply Z.leb_gt in Hout. rewrite Hout. cbn [andb]. by rewrite app_nil_r.
  - intros other_guild Hother. rewrite !List.filter_app.
    cbn [List.filter Txn.guild_id Txn.timestamp].
    assert ((guild_id =? other_guild)%Z = false) as ->
      by (apply Z.eqb_neq; congruence).
    cbn [andb]. by rewrite app_nil_r.
Qed.

(** Recording a crime of a guild raises the crime rate of that guild,
    over every window that contains its timestamp, by one crime per
    member (per 1 for a guild without members). *)
Theorem record_crime_get_crime_rate (user_id guild_id : Z)
    (crime_type : string) (success : bool) (amount : Q)
    (timestamp : datetime) (hours : Z) (utcnow : datetime) (db : database) :
  (utcnow - timedelta_of_hours hours <= timestamp)%Z ->
  let members :=
    Z.of_nat (length (List.filter (in_guild guild_id) (users db))) in
  get_crime_rate guild_id hours utcnow
    (record_crime user_id guild_id crime_type success amount timestamp db)
  == get_crime_rate guild_id hours utcnow db + 1 / inject_Z (Z.max members 1).
Proof.
  intros Hin members. unfold get_crime_rate, record_crime.
  cbn [crimes users set_crimes]. rewrite List.filter_app.
  cbn [List.filter CrimeRecord.guild_id CrimeRecord.timestamp].
  rewrite Z.eqb_refl. apply Z.leb_le in Hin. rewrite Hin. cbn [andb].
  rewrite length_app. cbn [length]. fold members.
  pose proof (inject_Z_max_one_positive members) as Hden.
  rewrite Nat2Z.inj_add, inject_Z_plus.
  change (inject_Z (Z.of_nat 1)) with 1. field. lra.
Qed.

Lemma record_crime_get_crime_rate_witness :
  get_crime_rate 7 24 (timedelta_of_hours 30)
    (record_crime 1 7 "theft" true 100 (timedelta_of_hours 10) poor_thief_db)
  == get_crime_rate 7 24 (timedelta_of_hours 30) poor_thief_db
     + 1 / inject_Z (Z.max (Z.of_nat (length (List.filter (in_guild 7)
                                                (users poor_thief_db)))) 1).
Proof.
  apply (record_crime_get_crime_rate 1 7 "theft" true 100
           (timedelta_of_hours 10) 24 (timedelta_of_hours 30) poor_thief_db).
  vm_compute. discriminate.
Defined.

Lemma get_server_find (guild_id : Z) (utcnow : datetime) (db : database) :
  find_one (is_server guild_id) (servers (get_server guild_id utcnow db).2)
  = Some (get_server guild_id utcnow db).1.
Proof.
  unfold get_server.
  destruct (find_one _ (servers db)) as [server|] eqn:E; simpl; [done|].
  apply find_one_None in E. unfold find_one.
  rewrite List.filter_app, E; simpl. unfold is_server; simpl.
  by rewrite Z.eqb_refl.
Qed.

(** Get-or-create is idempotent: a second lookup of the same user, or of
    the same tenant (even at a later time), returns the same record and
    leaves the database as the first lookup left it; the first lookup
    keeps every record that was there and adds at most one. *)
Theorem get_or_create_idempotent (user_id guild_id : Z)
    (utcnow later : datetime) (db : database) :
  get_user user_id guild_id (get_user user_id guild_id db).2
  = get_user user_id guild_id db /\
  get_server guild_id later (get_server guild_id utcnow db).2
  = get_server guild_id utcnow db /\
  users db `prefix_of` users (get_user user_id guild_id db).2 /\
  servers db `prefix_of` servers (get_server guild_id utcnow db).2 /\
  (length (users (get_user user_id guild_id db).2) <= S (length (users db)))%nat.
Proof.
  pose proof (get_user_find user_id guild_id db) as Hu.
  pose proof (get_server_find guild_id utcnow db) as Hs.
  split; [|split; [|split; [|split]]].
  - unfold get_user at 1. rewrite Hu. by destruct (get_user _ _ db).
  - unfold get_server at 1. rewrite Hs. by destruct (get_server _ _ db).
  - clear. unfold get_user.
    destruct (find_one (is_user user_id guild_id) (users db)); simpl;
      [reflexivity | apply prefix_app_r; reflexivity].
  - clear. unfold get_server.
    destruct (find_one (is_server guild_id) (servers db)); simpl;
      [reflexivity | apply prefix_app_r; reflexivity].
  - clear. unfold get_user.
    destruct (find_one (is_user user_id guild_id) (users db)); simpl; [lia|].
    rewrite length_app; simpl; lia.
Qed.

(** ** What the banking commands do to the balances *)

Lemma find_one_update_one_other {A} (matches other : A -> bool) (set : A -> A)
    (docs : list A) :
  (forall doc, matches doc = true -> other doc = false) ->
  (forall doc, other (set doc) = other doc) ->
  find_one other (update_one matches set docs) = find_one other docs.
Proof.
  intros Hdisjoint Hset. unfold find_one.
  induction docs as [|doc docs IH]; simpl; [done|].
  destruct (matches doc) eqn:E; simpl.
  - by rewrite Hset, (Hdisjoint _ E).
  - destruct (other doc); simpl; [done | apply IH].
Qed.

Lemma find_one_app_Some {A} (matches : A -> bool) (docs more : list A)
    (doc : A) :
  find_one matches docs = Some doc ->
  find_one matches (docs ++ more) = Some doc.
Proof.
  unfold find_one. rewrite List.filter_app.
  by destruct (List.filter matches docs).
Qed.

Lemma get_user_keeps_found (user_id guild_id : Z) (matches : User.t -> bool)
    (db : database) (user : User.t) :
  find_one matches (users db) = Some user ->
  find_one matches (users (get_user user_id guild_id db).2) = Some user.
Proof.
  intros H. unfold get_user.
  destruct (find_one (is_user user_id guild_id) (users db)); simpl; [done|].
  by apply find_one_app_Some.
Qed.

Lemma get_user_of_find (user_id guild_id : Z) (db : database) (user : User.t) :
  find_one (is_user user_id guild_id) (users db) = Some user ->
  get_user user_id guild_id db = (user, db).
Proof. intros H. unfold get_user. by rewrite H. Qed.

Lemma is_user_other (user_id other_id guild_id : Z) (doc : User.t) :
  other_id <> user_id ->
  is_user other_id guild_id doc = true -> is_user user_id guild_id doc = false.
Proof.
  unfold is_user. intros Hneq H. apply andb_true_iff in H as [H _].
  apply Z.eqb_eq in H. rewrite H.
  apply andb_false_iff. left. by apply Z.eqb_neq.
Qed.

Lemma is_user_apply_set_eq (user_id guild_id : Z)
    (update_data : list (User.t -> User.t)) :
  Forall (fun assign => forall u, User.user_id (assign u) = User.user_id u /\
                                  User.guild_id (assign u) = User.guild_id u)
         update_data ->
  forall u, is_user user_id guild_id (apply_set update_data u)
            = is_user user_id guild_id u.
Proof.
  unfold apply_set. induction 1 as [|assign rest Hassign _ IH]; intros u;
    simpl; [done|].
  rewrite IH. unfold is_user. by destruct (Hassign u) as [-> ->].
Qed.

(** An accepted deposit takes a positive amount within the cash held,
    the whole cash for the text [all], out of the cash balance and adds
    it to the bank balance; an accepted withdrawal does the same from the
    bank balance to the cash balance.  A refused one writes nothing. *)
Theorem deposit_withdraw_move_amount (user_id guild_id : Z)
    (utcnow : datetime) (amount : amount_text) (db : database) :
  (forall shown,
      (deposit user_id guild_id utcnow amount db).2
      = Ok (Embed "Deposit Successful" shown) ->
      exists moved,
        (amount = All /\ moved = User.balance (get_user user_id guild_id db).1
         \/ amount = Number moved) /\
        0 < moved <= User.balance (get_user user_id guild_id db).1 /\
        shown = [ moved;
                  User.balance (get_user user_id guild_id db).1 - moved;
                  User.bank (get_user user_id guild_id db).1 + moved ] /\
        balance_of user_id guild_id
          (deposit user_id guild_id utcnow amount db).1
        = User.balance (get_user user_id guild_id db).1 - moved /\
        bank_of user_id guild_id
          (deposit user_id guild_id utcnow amount db).1
        = User.bank (get_user user_id guild_id db).1 + moved) /\
  (forall shown,
      (withdraw user_id guild_id utcnow amount db).2
      = Ok (Embed "Withdrawal Successful" shown) ->
      exists moved,
        (amount = All /\ moved = User.bank (get_user user_id guild_id db).1
         \/ amount = Number moved) /\
        0 < moved <= User.bank (get_user user_id guild_id db).1 /\
        shown = [ moved;
                  User.bank (get_user user_id guild_id db).1 - moved;
                  User.balance (get_user user_id guild_id db).1 + moved ] /\
        balance_of user_id guild_id
          (withdraw user_id guild_id utcnow amount db).1
        = User.balance (get_user user_id guild_id db).1 + moved /\
        bank_of user_id guild_id
          (withdraw user_id guild_id utcnow amount db).1
        = User.bank (get_user user_id guild_id db).1 - moved) /\
  (forall message,
      (deposit user_id guild_id utcnow amount db).2
      = Ok (Ephemeral message) ->
      (deposit user_id guild_id utcnow amount db).1
      = lookups user_id guild_id utcnow db) /\
  (forall message,
      (withdraw user_id guild_id utcnow amount db).2
      = Ok (Ephemeral message) ->
      (withdraw user_id guild_id utcnow amount db).1
      = lookups user_id guild_id utcnow db).
Proof.
  unfold deposit, withdraw, balance_of, bank_of, lookups.
  pose proof (get_user_find user_id guild_id db) as Hf.
  destruct (get_user user_id guild_id db) as [user db1]; simpl in Hf.
  cbn [fst snd].
  pose proof (get_server_users guild_id utcnow db1) as Hs.
  destruct (get_server guild_id utcnow db1) as [server db2]; simpl in Hs.
  cbn [fst snd].
  split; [|split; [|split]].
  - intros shown.
    destruct amount as [|value|[]| |]; cbn [float float_le float_lt];
      try discriminate.
    + destruct (Qle_bool_spec (User.balance user) 0); [discriminate|].
      destruct (Qle_bool_spec (User.balance user) (User.balance user));
        [|discriminate].
      cbn [negb fst snd]. intros [= <-]. exists (User.balance user).
      rewrite update_user_find by keeps_identity. rewrite Hs, Hf.
      repeat split; (tauto || lra || done).
    + destruct (Qle_bool_spec value 0); [discriminate|].
      destruct (Qle_bool_spec value (User.balance user)); [|discriminate].
      cbn [negb fst snd]. intros [= <-]. exists value.
      rewrite update_user_find by keeps_identity. rewrite Hs, Hf.
      repeat split; (tauto || lra || done).
  - intros shown.
    destruct amount as [|value|[]| |]; cbn [float float_le float_lt];
      try discriminate.
    + destruct (Qle_bool_spec (User.bank user) 0); [discriminate|].
      destruct (Qle_bool_spec (User.bank user) (User.bank user));
        [|discriminate].
      cbn [negb fst snd]. intros [= <-]. exists (User.bank user).
      rewrite update_user_find by keeps_identity. rewrite Hs, Hf.
      repeat split; (tauto || lra || done).
    + destruct (Qle_bool_spec value 0); [discriminate|].
      destruct (Qle_bool_spec value (User.bank user)); [|discriminate].
      cbn [negb fst snd]. intros [= <-]. exists value.
      rewrite update_user_find by keeps_identity. rewrite Hs, Hf.
      repeat split; (tauto || lra || done).
  - intros message.
    destruct amount as [|value|[]| |]; cbn [float float_le float_lt];
      try done;
      repeat match goal with
             | |- context [if ?c then _ else _] => destruct c
             end; cbn [fst snd]; done.
  - intros message.
    destruct amount as [|value|[]| |]; cbn [float float_le float_lt];
      try done;
      repeat match goal with
             | |- context [if ?c then _ else _] => destruct c
             end; cbn [fst snd]; done.
Qed.

Lemma deposit_withdraw_move_amount_witness :
  balance_of 1 7 (deposit 1 7 0 (Number 50) poor_thief_db).1 = 100 - 50 /\
  bank_of 1 7 (deposit 1 7 0 (Number 50) poor_thief_db).1 = 0 + 50.
Proof.
  destruct (proj1 (deposit_withdraw_move_amount 1 7 0 (Number 50)
                     poor_thief_db) [50; 100 - 50; 0 + 50])
    as (moved & Hmoved & _ & _ & Hbalance & Hbank).
  - vm_compute. reflexivity.
  - destruct Hmoved as [[Hall _]|[= <-]]; [discriminate Hall|].
    split; [exact Hbalance | exact Hbank].
Defined.

(** An accepted transfer moves the amount out of the sender's cash and
    the amount less the 0.5% fee into the receiver's cash; the bank
    balances of both are untouched, so the two parties together lose
    exactly the fee.  It is accepted only for a positive amount within
    the sender's cash and a receiver other than the sender. *)
Theorem transfer_moves_money (user_id guild_id : Z) (utcnow : datetime)
    (target_id : Z) (amount : Q) (db : database) (shown : list Q) :
  (transfer user_id guild_id utcnow target_id amount db).2
  = Ok (Embed "Transfer Complete" shown) ->
  shown = [amount; amount * 0.005; amount - amount * 0.005] /\
  (0 < amount <= User.balance (get_user user_id guild_id db).1 /\
   target_id <> user_id) /\
  balance_of user_id guild_id
    (transfer user_id guild_id utcnow target_id amount db).1
  = User.balance (get_user user_id guild_id db).1 - amount /\
  balance_of target_id guild_id
    (transfer user_id guild_id utcnow target_id amount db).1
  = User.balance
      (get_user target_id guild_id (get_user user_id guild_id db).2).1
    + (amount - amount * 0.005) /\
  bank_of user_id guild_id
    (transfer user_id guild_id utcnow target_id amount db).1
  = User.bank (get_user user_id guild_id db).1 /\
  bank_of target_id guild_id
    (transfer user_id guild_id utcnow target_id amount db).1
  = User.bank
      (get_user target_id guild_id (get_user user_id guild_id db).2).1.
Proof.
  unfold transfer, balance_of, bank_of.
  pose proof (get_user_find user_id guild_id db) as Hsender.
  destruct (get_user user_id guild_id db) as [sender db1]; simpl in Hsender.
  cbn [fst snd].
  apply (get_user_keeps_found target_id guild_id) in Hsender.
  pose proof (get_user_find target_id guild_id db1) as Hreceiver.
  destruct (get_user target_id guild_id db1) as [receiver db2];
    simpl in Hsender, Hreceiver.
  pose proof (get_server_users guild_id utcnow db2) as Hs.
  destruct (get_server guild_id utcnow db2) as [server db3]; simpl in Hs.
  rewrite <- Hs in Hsender, Hreceiver. cbn [fst].
  destruct (Qle_bool_spec amount 0) as [|Hpos]; [discriminate|].
  destruct (Qle_bool_spec amount (User.balance sender)) as [Hfunds|];
    [|discriminate].
  cbn [negb]. destruct (target_id =? user_id)%Z eqn:Eself; [discriminate|].
  apply Z.eqb_neq in Eself.
  cbn [fst snd]. intros [= <-].
  cbn [users record_transaction set_transactions].
  set (credit := [UserSet.balance _; UserSet.statistics _]).
  set (debit := [UserSet.balance (User.balance sender - amount);
                 UserSet.statistics _]).
  assert (find_one (is_user user_id guild_id)
            (users (update_user target_id guild_id credit
                      (update_user user_id guild_id debit db3)))
          = Some (apply_set debit sender)) as ->.
  { cbn [users update_user set_users].
    rewrite find_one_update_one_other.
    - rewrite find_one_update_one by (apply is_user_apply_set; keeps_identity).
      by rewrite Hsender.
    - intros doc. by apply is_user_other.
    - apply is_user_apply_set_eq. keeps_identity. }
  assert (find_one (is_user target_id guild_id)
            (users (update_user target_id guild_id credit
                      (update_user user_id guild_id debit db3)))
          = Some (apply_set credit receiver)) as ->.
  { rewrite update_user_find by keeps_identity.
    cbn [users update_user set_users].
    rewrite find_one_update_one_other.
    - by rewrite Hreceiver.
    - intros doc. apply is_user_other. congruence.
    - apply is_user_apply_set_eq. keeps_identity. }
  simpl. repeat split; (done || lra).
Qed.

Lemma transfer_moves_money_witness :
  balance_of 1 7 (transfer 1 7 0 2 100 empty_db).1
  = User.balance (get_user 1 7 empty_db).1 - 100 /\
  balance_of 2 7 (transfer 1 7 0 2 100 empty_db).1
  = User.balance (get_user 2 7 (get_user 1 7 empty_db).2).1
    + (100 - 100 * 0.005).
Proof.
  pose proof (transfer_moves_money 1 7 0 2 100 empty_db
                [100; 100 * 0.005; 100 - 100 * 0.005])
    as H.
  destruct H as (_ & _ & Hsender & Hreceiver & _).
  - vm_compute. reflexivity.
  - split; [exact Hsender | exact Hreceiver].
Defined.

(** ** Cooldown and jail *)

Lemma work_success_user (user_id guild_id : Z) (utcnow : datetime)
    (log10_experience rnd : Q) (randint : Z) (db : database)
    (title : string) (amounts : list Q) :
  (work user_id guild_id utcnow log10_experience rnd randint db).2
  = Ok (Embed title amounts) ->
  exists worker,
    find_one (is_user user_id guild_id)
      (users (work user_id guild_id utcnow log10_experience rnd randint db).1)
    = Some worker /\
    String.eqb (User.job worker) "unemployed" = false /\
    User.last_work worker = Some utcnow /\
    (User.skill_level worker <= 10)%Z /\
    User.experience worker
    = (User.experience (get_user user_id guild_id db).1 + 1)%Z.
Proof.
  unfold work.
  pose proof (get_user_find user_id guild_id db) as Hf.
  destruct (get_user user_id guild_id db) as [user db1]; simpl in Hf.
  pose proof (get_server_users guild_id utcnow db1) as Hs.
  destruct (get_server guild_id utcnow db1) as [server db2]; simpl in Hs.
  cbn [fst snd].
  destruct (String.eqb (User.job user) "unemployed") eqn:Ejob; [discriminate|].
  destruct (on_cooldown _ _ _); [discriminate|].
  destruct (in_jail _ _); [discriminate|].
  destruct (calculate_salary _ _ _ _); [|discriminate].
  destruct (calculate_productivity _ _ _); [|discriminate].
  cbn [fst snd]. intros _.
  cbn [users update_server set_servers record_transaction set_transactions].
  rewrite update_user_find by keeps_identity. rewrite Hs, Hf.
  eexists. split; [reflexivity|]. simpl. repeat split; [done | lia].
Qed.

(** After a completed shift the worker has one more point of experience
    and a skill level of at most 10, and every further attempt to work
    made less than eight hours after that shift is refused as too
    early. *)
Theorem work_respects_cooldown (user_id guild_id : Z) (utcnow : datetime)
    (log10_experience rnd : Q) (randint : Z) (db : database)
    (title : string) (amounts : list Q)
    (again : datetime) (log10_experience' rnd' : Q) (randint' : Z) :
  (work user_id guild_id utcnow log10_experience rnd randint db).2
  = Ok (Embed title amounts) ->
  (again < utcnow + timedelta_of_seconds COOLDOWN_work)%Z ->
  (work user_id guild_id again log10_experience' rnd' randint'
     (work user_id guild_id utcnow log10_experience rnd randint db).1).2
  = Ok (Ephemeral "You're tired!").
Proof.
  intros Hdone Hearly.
  destruct (work_success_user _ _ _ _ _ _ _ _ _ Hdone)
    as (worker & Hfind & Hjob & Hlast & _).
  set (db' := (work user_id guild_id utcnow log10_experience rnd randint db).1)
    in *.
  unfold work at 1. rewrite (get_user_of_find _ _ _ _ Hfind).
  destruct (get_server guild_id again db') as [server db2].
  rewrite Hjob, Hlast. unfold on_cooldown.
  assert ((again - utcnow <? timedelta_of_seconds COOLDOWN_work)%Z = true)
    as -> by (apply Z.ltb_lt; lia).
  reflexivity.
Qed.

Lemma work_respects_cooldown_witness :
  (work 1 7 (timedelta_of_hours 7) 1 0.5 2
     (work 1 7 0 1 0.5 2
        (set_users [User.mk 1 7 1000 0 "teacher" 3 10 None None None 0
                            (Stats.mk 1000 0 0 0 0 0 0 0)] empty_db)).1).2
  = Ok (Ephemeral "You're tired!").
Proof.
  assert (exists amounts,
             (work 1 7 0 1 0.5 2
                (set_users [User.mk 1 7 1000 0 "teacher" 3 10 None None None 0
                                    (Stats.mk 1000 0 0 0 0 0 0 0)] empty_db)).2
             = Ok (Embed "Shift Complete" amounts)) as [amounts H]
    by (eexists; vm_compute; reflexivity).
  apply (work_respects_cooldown 1 7 0 1 0.5 2 _ _ _
           (timedelta_of_hours 7) 1 0.5 2 H).
  vm_compute. reflexivity.
Defined.

Lemma crime_failed_user (user_id guild_id : Z) (utcnow : datetime)
    (crime_type : string) (rnd u : Q) (db : database) (fine : Q) :
  (crime user_id guild_id utcnow crime_type rnd u db).2
  = Ok (Embed "Crime Failed!" [fine]) ->
  exists crime_data convict,
    CRIME_TYPES !! normalize_key crime_type = Some crime_data /\
    find_one (is_user user_id guild_id)
      (users (crime user_id guild_id utcnow crime_type rnd u db).1)
    = Some convict /\
    User.jail_until convict
    = Some (utcnow + timedelta_of_hours (Crime.jail_time_hours crime_data))%Z /\
    User.last_crime convict = Some utcnow.
Proof.
  unfold crime.
  pose proof (get_user_find user_id guild_id db) as Hf.
  destruct (get_user user_id guild_id db) as [user db1]; simpl in Hf.
  pose proof (get_server_users guild_id utcnow db1) as Hs.
  destruct (get_server guild_id utcnow db1) as [server db2]; simpl in Hs.
  cbn [fst snd].
  destruct (in_jail _ _); [discriminate|].
  destruct (on_cooldown _ _ _); [discriminate|].
  destruct (CRIME_TYPES !! normalize_key crime_type) as [crime_data|];
    [|discriminate].
  destruct (_ <? _)%Z; [discriminate|].
  destruct (calculate_crime_success_rate _ _ _ _ _); [|discriminate].
  destruct (negb _); [discriminate|].
  cbn [snd fst]. intros _. exists crime_data.
  cbn [users set_crimes record_crime].
  rewrite update_user_find by keeps_identity. rewrite Hs, Hf.
  eexists. split; [done|]. split; [reflexivity|]. by simpl.
Qed.

(** A failed crime puts the actor in jail for the jail time of the crime
    attempted: until that time has passed, every further crime is refused
    with the jail message, and every attempt to work is refused. *)
Theorem failed_crime_jails (user_id guild_id : Z) (utcnow : datetime)
    (crime_type : string) (rnd u : Q) (db : database) (fine : Q) :
  (crime user_id guild_id utcnow crime_type rnd u db).2
  = Ok (Embed "Crime Failed!" [fine]) ->
  exists crime_data,
    CRIME_TYPES !! normalize_key crime_type = Some crime_data /\
    forall (later : datetime),
      (later < utcnow + timedelta_of_hours (Crime.jail_time_hours crime_data))%Z ->
      (forall crime_type' rnd' u',
          (crime user_id guild_id later crime_type' rnd' u'
             (crime user_id guild_id utcnow crime_type rnd u db).1).2
          = Ok (Ephemeral "You're in jail!")) /\
      (forall log10_experience rnd' randint,
          exists message,
            (work user_id guild_id later log10_experience rnd' randint
               (crime user_id guild_id utcnow crime_type rnd u db).1).2
            = Ok (Ephemeral message)).
Proof.
  intros Hfailed.
  destruct (crime_failed_user _ _ _ _ _ _ _ _ Hfailed)
    as (crime_data & convict & Hcat & Hfind & Hjail & _).
  set (db' := (crime user_id guild_id utcnow crime_type rnd u db).1) in *.
  exists crime_data. split; [done|]. intros later Hlater.
  assert (in_jail convict later = true) as Hin.
  { unfold in_jail. rewrite Hjail. by apply Z.ltb_lt. }
  split.
  - intros crime_type' rnd' u'. unfold crime.
    rewrite (get_user_of_find _ _ _ _ Hfind).
    destruct (get_server guild_id later db') as [server db2].
    by rewrite Hin.
  - intros log10_experience rnd' randint. unfold work.
    rewrite (get_user_of_find _ _ _ _ Hfind).
    destruct (get_server guild_id later db') as [server db2].
    destruct (String.eqb _ _); [eauto|].
    destruct (on_cooldown _ _ _); [eauto|].
    rewrite Hin. eauto.
Qed.

Lemma failed_crime_jails_witness :
  exists crime_data,
    CRIME_TYPES !! normalize_key "pickpocket" = Some crime_data /\
    forall (later : datetime),
      (later < 0 + timedelta_of_hours (Crime.jail_time_hours crime_data))%Z ->
      (forall crime_type' rnd' u',
          (crime 1 7 later crime_type' rnd' u'
             (crime 1 7 0 "pickpocket" 0.99 1 poor_thief_db).1).2
          = Ok (Ephemeral "You're in jail!")) /\
      (forall log10_experience rnd' randint,
          exists message,
            (work 1 7 later log10_experience rnd' randint
               (crime 1 7 0 "pickpocket" 0.99 1 poor_thief_db).1).2
            = Ok (Ephemeral message)).
Proof.
  apply (failed_crime_jails 1 7 0 "pickpocket" 0.99 1 poor_thief_db 100).
  vm_compute. reflexivity.
Defined.

(** ** The default sweep leaves no overdue loan *)

Lemma default_sweep_shape (snapshot : list Loan.t) (db : database) :
  NoDup (map Loan._id (loans db)) ->
  Forall2 (fun l l' =>
             (Loan._id l ∈ map Loan._id snapshot -> Loan.defaulted l' = true) /\
             (Loan._id l ∉ map Loan._id snapshot -> l' = l))
          (loans db)
          (loans (for_each (fun loan db => (handle_loan_default loan db, Ok tt))
                           snapshot db).1).
Proof.
  revert db. induction snapshot as [|a rest IH]; intros db Hnd.
  { cbn [for_each fst]. apply Forall_Forall2_diag, Forall_forall.
    intros l _. split; [|done]. cbn [map]. by intros ?%elem_of_nil. }
  cbn [for_each].
  set (db1 := handle_loan_default a db).
  set (update_data := [LoanSet.defaulted true;
                       LoanSet.remaining
                         (Qmax 0 (Loan.remaining a
                                  - Qmin (User.balance
                                            (get_user (Loan.user_id a)
                                               (Loan.guild_id a) db).1
                                          + User.bank
                                              (get_user (Loan.user_id a)
                                                 (Loan.guild_id a) db).1)
                                         (Loan.remaining a)))]).
  assert (loans db1
          = update_one (has_id (Loan._id a)) (apply_set update_data) (loans db))
    as Hloans by apply handle_loan_default_loans.
  assert (map Loan._id (loans db1) = map Loan._id (loans db)) as Hids.
  { rewrite Hloans. apply update_one_ids. repeat constructor. }
  specialize (IH db1). rewrite Hids in IH. specialize (IH Hnd).
  rewrite Hloans, update_one_as_map in IH by done.
  apply Forall2_fmap_l in IH.
  eapply Forall2_impl; [apply IH|].
  intros l l'. unfold compose. cbn beta. cbn [map].
  unfold has_id. intros [Hin Hout].
  destruct (Z.eqb_spec (Loan._id l) (Loan._id a)) as [Eid|Eid].
  - split.
    + intros _.
      destruct (decide (Loan._id (apply_set update_data l)
                        ∈ map Loan._id rest)) as [Hd|Hd].
      * by apply Hin.
      * by rewrite (Hout Hd).
    + intros Hnot. exfalso. apply Hnot. rewrite Eid. by left.
  - split.
    + intros [?|?]%elem_of_cons; [done | by apply Hin].
    + intros Hnot. apply Hout. intros ?. apply Hnot. by right.
Qed.

Lemma for_each_never_raises {A} (step : A -> database -> database)
    (cursor : list A) (db : database) :
  (for_each (fun doc db => (step doc db, Ok tt)) cursor db).2 = Ok tt.
Proof.
  revert db. induction cursor as [|doc rest IH]; intros db; simpl; [done|].
  apply IH.
Qed.

(** With unique loan identifiers, the default sweep never logs an
    exception and leaves no overdue loan behind: every loan that was due
    before the sweep time with something left to pay is flagged as
    defaulted, so a second sweep at the same time changes nothing. *)
Theorem loan_check_loop_clears_overdue (utcnow : datetime) (db : database) :
  NoDup (map Loan._id (loans db)) ->
  (loan_check_loop utcnow db).2 = None /\
  Forall (fun l => is_overdue utcnow l = false)
         (loans (loan_check_loop utcnow db).1) /\
  loan_check_loop utcnow (loan_check_loop utcnow db).1
  = ((loan_check_loop utcnow db).1, None).
Proof.
  intros Hnd.
  pose proof (default_sweep_shape
                (List.filter (is_overdue utcnow) (loans db)) db Hnd) as Hshape.
  pose proof (for_each_never_raises handle_loan_default
                (List.filter (is_overdue utcnow) (loans db)) db) as Hok.
  assert (Forall (fun l => is_overdue utcnow l = false)
                 (loans (loan_check_loop utcnow db).1)) as Hclear.
  { unfold loan_check_loop.
    destruct (for_each _ _ db) as [db' r]. cbn [fst snd] in *. subst r.
    cbn [logged fst].
    eapply Forall2_Forall_r; [apply Hshape|]. apply Forall_forall.
    intros l Hl l' [Hin Hout].
    destruct (is_overdue utcnow l) eqn:E.
    - unfold is_overdue. rewrite Hin; [by rewrite andb_false_r|].
      apply list_elem_of_fmap_2. by apply elem_of_filter_bool.
    - rewrite Hout; [done|]. intros Hid.
      apply list_elem_of_fmap in Hid as (z & Hid & Hz).
      apply elem_of_filter_bool in Hz as [Hz Hover].
      rewrite (same_id_same_loan _ _ _ Hnd Hl Hz Hid) in E. congruence. }
  split; [|split; [done|]].
  - unfold loan_check_loop. destruct (for_each _ _ db) as [db' r].
    cbn [snd] in Hok. by subst r.
  - set (db' := (loan_check_loop utcnow db).1) in *.
    unfold loan_check_loop at 1.
    rewrite filter_none; [done|].
    intros l Hl. rewrite Forall_forall in Hclear. by apply Hclear.
Qed.

Lemma loan_check_loop_clears_overdue_witness :
  (loan_check_loop 2000 indebted_db).2 = None /\
  Forall (fun l => is_overdue 2000 l = false)
         (loans (loan_check_loop 2000 indebted_db).1) /\
  loan_check_loop 2000 (loan_check_loop 2000 indebted_db).1
  = ((loan_check_loop 2000 indebted_db).1, None).
Proof.
  apply (loan_check_loop_clears_overdue 2000 indebted_db).
  cbn. repeat (apply NoDup_cons; split;
               [rewrite ?elem_of_cons, elem_of_nil; lia|]).
  apply NoDup_nil_2.
Defined.

(** ** Selling an investment *)

Lemma delete_one_length {A} (matches : A -> bool) (docs : list A) (doc : A) :
  doc ∈ docs -> matches doc = true ->
  S (length (delete_one matches docs)) = length docs.
Proof.
  induction docs as [|d docs IH]; intros Hin Hm; simpl.
  - by apply elem_of_nil in Hin.
  - destruct (matches d) eqn:E; [done|]. simpl. f_equal. apply IH; [|done].
    apply elem_of_cons in Hin as [->|Hin]; [congruence | done].
Qed.

Lemma liquidity_range (investment_type : string) (inv_data : Investment.t) :
  INVESTMENT_TYPES !! investment_type = Some inv_data ->
  0 < Investment.liquidity inv_data <= 1.
Proof.
  intros H. apply investment_catalog_entry in H.
  unfold INVESTMENT_TYPES_items in H.
  rewrite !elem_of_cons, elem_of_nil in H.
  destruct H as [E|[E|[E|[E|[E|[E|[]]]]]]]; injection E as -> ->;
    cbn; lra.
Qed.

Lemma sellinvestment_sold (user_id guild_id : Z) (utcnow : datetime)
    (investment_type : string) (db : database) (shown : list Q) :
  (sellinvestment user_id guild_id utcnow investment_type db).2
  = Ok (Embed "Investment Sold!" shown) ->
  exists investment inv_data,
    find_one (is_holding user_id guild_id (normalize_key investment_type))
             (investments db) = Some investment /\
    INVESTMENT_TYPES !! normalize_key investment_type = Some inv_data /\
    shown = [ Holding.principal investment;
              Holding.current_value investment * Investment.liquidity inv_data;
              Holding.current_value investment * Investment.liquidity inv_data
              - Holding.principal investment ] /\
    balance_of user_id guild_id
      (sellinvestment user_id guild_id utcnow investment_type db).1
    = User.balance (get_user user_id guild_id db).1
      + Holding.current_value investment * Investment.liquidity inv_data /\
    investments (sellinvestment user_id guild_id utcnow investment_type db).1
    = delete_one (fun h => (Holding._id h =? Holding._id investment)%Z)
                 (investments db).
Proof.
  unfold sellinvestment, balance_of.
  pose proof (get_user_find user_id guild_id db) as Hf.
  pose proof (get_user_investments user_id guild_id db) as Hui.
  destruct (get_user user_id guild_id db) as [user db1]; simpl in Hf, Hui.
  pose proof (get_server_users guild_id utcnow db1) as Hs.
  pose proof (get_server_investments guild_id utcnow db1) as Hsi.
  destruct (get_server guild_id utcnow db1) as [server db2];
    simpl in Hs, Hsi.
  cbn [fst snd]. rewrite Hsi, Hui.
  destruct (find_one _ (investments db)) as [investment|]; [|discriminate].
  unfold getitem.
  destruct (INVESTMENT_TYPES !! normalize_key investment_type)
    as [inv_data|]; [|discriminate].
  cbn [fst snd]. intros [= <-]. exists investment, inv_data.
  cbn [users investments set_investments update_user set_users].
  rewrite Hsi, Hui.
  rewrite find_one_update_one by (apply is_user_apply_set; keeps_identity).
  by rewrite Hs, Hf.
Qed.

(** A sale pays the current value of the holding times the liquidity of
    its instrument into the seller's cash and removes one holding: the
    proceeds are [current_value * liquidity], the profit shown is the
    proceeds less the principal, and for a holding of non-negative value
    the proceeds are non-negative and never exceed that value. *)
Theorem sellinvestment_effect (user_id guild_id : Z) (utcnow : datetime)
    (investment_type : string) (db : database)
    (principal proceeds profit : Q) :
  (sellinvestment user_id guild_id utcnow investment_type db).2
  = Ok (Embed "Investment Sold!" [principal; proceeds; profit]) ->
  exists investment inv_data,
    find_one (is_holding user_id guild_id (normalize_key investment_type))
             (investments db) = Some investment /\
    INVESTMENT_TYPES !! normalize_key investment_type = Some inv_data /\
    principal = Holding.principal investment /\
    proceeds
    = Holding.current_value investment * Investment.liquidity inv_data /\
    profit = proceeds - principal /\
    balance_of user_id guild_id
      (sellinvestment user_id guild_id utcnow investment_type db).1
    = User.balance (get_user user_id guild_id db).1 + proceeds /\
    investments (sellinvestment user_id guild_id utcnow investment_type db).1
    = delete_one (fun h => (Holding._id h =? Holding._id investment)%Z)
                 (investments db) /\
    S (length (investments
                 (sellinvestment user_id guild_id utcnow investment_type db).1))
    = length (investments db) /\
    (0 <= Holding.current_value investment ->
     0 <= proceeds <= Holding.current_value investment).
Proof.
  intros Hsold.
  destruct (sellinvestment_sold _ _ _ _ _ _ Hsold)
    as (investment & inv_data & Hfind & Hcat & [= -> -> ->] & Hbal & Hinv).
  exists investment, inv_data.
  do 7 (split; [done|]). split; [|split].
  - rewrite Hinv. apply find_one_Some in Hfind as [Hin _].
    apply (delete_one_length _ _ investment Hin), Z.eqb_refl.
  - pose proof (liquidity_range _ _ Hcat).
    apply Qmult_le_0_compat; lra.
  - pose proof (liquidity_range _ _ Hcat) as [Hl0 Hl1].
    rewrite <- (Qmult_1_r (Holding.current_value investment)) at 2.
    apply Qmult_le_nonneg_l; lra.
Qed.

Lemma sellinvestment_effect_witness :
  exists investment inv_data,
    find_one (is_holding 1 7 (normalize_key "Stocks"))
             (investments after_invest_db) = Some investment /\
    INVESTMENT_TYPES !! normalize_key "Stocks" = Some inv_data /\
    500 = Holding.principal investment /\
    500 * 0.9
    = Holding.current_value investment * Investment.liquidity inv_data /\
    500 * 0.9 - 500 = 500 * 0.9 - 500 /\
    balance_of 1 7 (sellinvestment 1 7 10 "Stocks" after_invest_db).1
    = User.balance (get_user 1 7 after_invest_db).1 + 500 * 0.9 /\
    investments (sellinvestment 1 7 10 "Stocks" after_invest_db).1
    = delete_one (fun h => (Holding._id h =? Holding._id investment)%Z)
                 (investments after_invest_db) /\
    S (length (investments
                 (sellinvestment 1 7 10 "Stocks" after_invest_db).1))
    = length (investments after_invest_db) /\
    (0 <= Holding.current_value investment ->
     0 <= 500 * 0.9 <= Holding.current_value investment).
Proof.
  apply (sellinvestment_effect 1 7 10 "Stocks" after_invest_db
           500 (500 * 0.9) (500 * 0.9 - 500)).
  vm_compute. reflexivity.
Defined.

Lemma invest_made (user_id guild_id : Z) (utcnow : datetime)
    (investment_type : string) (amount : Q) (db : database)
    (shown : list Q) :
  (invest user_id guild_id utcnow investment_type amount db).2
  = Ok (Embed "Investment Made!" shown) ->
  exists inv_data investor holding,
    INVESTMENT_TYPES !! normalize_key investment_type = Some inv_data /\
    Investment.min_amount inv_data <= amount
    <= User.balance (get_user user_id guild_id db).1 /\
    find_one (is_user user_id guild_id)
      (users (invest user_id guild_id utcnow investment_type amount db).1)
    = Some investor /\
    User.balance investor
    = User.balance (get_user user_id guild_id db).1 - amount /\
    investments (invest user_id guild_id utcnow investment_type amount db).1
    = (investments db ++ [holding])%list /\
    is_holding user_id guild_id (normalize_key investment_type) holding
    = true /\
    Holding.principal holding = amount /\
    Holding.current_value holding = amount.
Proof.
  unfold invest.
  pose proof (get_user_find user_id guild_id db) as Hf.
  pose proof (get_user_investments user_id guild_id db) as Hui.
  destruct (get_user user_id guild_id db) as [user db1]; simpl in Hf, Hui.
  pose proof (get_server_users guild_id utcnow db1) as Hs.
  pose proof (get_server_investments guild_id utcnow db1) as Hsi.
  destruct (get_server guild_id utcnow db1) as [server db2];
    simpl in Hs, Hsi.
  cbn [fst snd].
  destruct (INVESTMENT_TYPES !! normalize_key investment_type)
    as [inv_data|]; [|discriminate].
  destruct (Qle_bool_spec (Investment.min_amount inv_data) amount)
    as [Hmin|]; [|discriminate].
  destruct (Qle_bool_spec amount (User.balance user)) as [Hfunds|];
    [|discriminate].
  cbn [negb fst snd create_investment]. intros _.
  cbn [users investments update_user set_users set_next_id set_investments].
  rewrite find_one_update_one by (apply is_user_apply_set; keeps_identity).
  rewrite Hs, Hf, Hsi, Hui.
  eexists inv_data, _, _. split; [done|]. split; [done|].
  split; [reflexivity|]. split; [done|]. split; [reflexivity|].
  unfold is_holding. cbn. by rewrite !Z.eqb_refl, String.eqb_refl.
Qed.

(** Buying and selling at once costs the liquidity penalty: a member
    without a holding of some instrument who invests an amount in it and
    then sells is left with the amount times (1 - liquidity) less cash
    than before, whatever the time of the sale, as long as no revaluation
    ran in between. *)
Theorem invest_then_sell_costs_liquidity (user_id guild_id : Z)
    (utcnow later : datetime) (investment_type : string) (amount : Q)
    (db : database) (shown : list Q) :
  (invest user_id guild_id utcnow investment_type amount db).2
  = Ok (Embed "Investment Made!" shown) ->
  find_one (is_holding user_id guild_id (normalize_key investment_type))
           (investments db) = None ->
  exists inv_data,
    INVESTMENT_TYPES !! normalize_key investment_type = Some inv_data /\
    (sellinvestment user_id guild_id later investment_type
       (invest user_id guild_id utcnow investment_type amount db).1).2
    = Ok (Embed "Investment Sold!"
            [ amount; amount * Investment.liquidity inv_data;
              amount * Investment.liquidity inv_data - amount ]) /\
    balance_of user_id guild_id
      (sellinvestment user_id guild_id later investment_type
         (invest user_id guild_id utcnow investment_type amount db).1).1
    == User.balance (get_user user_id guild_id db).1
       - amount * (1 - Investment.liquidity inv_data).
Proof.
  intros Hmade Hnone.
  destruct (invest_made _ _ _ _ _ _ _ Hmade)
    as (inv_data & investor & holding & Hcat & _ & Hfind & Hbal & Hinv
        & Hholding & Hprincipal & Hvalue).
  set (db1 := (invest user_id guild_id utcnow investment_type amount db).1)
    in *.
  exists inv_data. split; [done|].
  unfold sellinvestment, balance_of.
  rewrite (get_user_of_find _ _ _ _ Hfind).
  pose proof (get_server_users guild_id later db1) as Hs.
  pose proof (get_server_investments guild_id later db1) as Hsi.
  destruct (get_server guild_id later db1) as [server db2]; simpl in Hs, Hsi.
  assert (find_one
            (is_holding user_id guild_id (normalize_key investment_type))
            (investments db2) = Some holding) as ->.
  { rewrite Hsi, Hinv. apply find_one_None in Hnone. unfold find_one.
    rewrite List.filter_app, Hnone. simpl. by rewrite Hholding. }
  unfold getitem. rewrite Hcat. cbn [fst snd].
  rewrite Hprincipal, Hvalue. split; [done|].
  cbn [users set_investments].
  rewrite update_user_find by keeps_identity. rewrite Hs, Hfind.
  simpl. rewrite Hbal. ring.
Qed.

Lemma invest_then_sell_costs_liquidity_witness :
  exists inv_data,
    INVESTMENT_TYPES !! normalize_key "real estate" = Some inv_data /\
    (sellinvestment 1 7 5 "real estate"
       (invest 1 7 0 "real estate" 60000
          (set_users [UserSet.balance 80000 (default_user 1 7)] empty_db)).1).2
    = Ok (Embed "Investment Sold!"
            [ 60000; 60000 * Investment.liquidity inv_data;
              60000 * Investment.liquidity inv_data - 60000 ]) /\
    balance_of 1 7
      (sellinvestment 1 7 5 "real estate"
         (invest 1 7 0 "real estate" 60000
            (set_users [UserSet.balance 80000 (default_user 1 7)]
                       empty_db)).1).1
    == User.balance
         (get_user 1 7
            (set_users [UserSet.balance 80000 (default_user 1 7)]
                       empty_db)).1
       - 60000 * (1 - Investment.liquidity inv_data).
Proof.
  apply (invest_then_sell_costs_liquidity 1 7 0 5 "real estate" 60000
           (set_users [UserSet.balance 80000 (default_user 1 7)] empty_db)
           [60000]).
  - vm_compute. reflexivity.
  - vm_compute. reflexivity.
Defined.

(** ** Taking out a loan *)

Lemma class_max_loan_positive (c : EconomicClass) :
  0 < Benefits.max_loan (CLASS_BENEFITS c).
Proof. destruct c; reflexivity. Qed.

Lemma loan_approved (user_id guild_id : Z) (utcnow : datetime) (amount : Q)
    (db : database) :
  let user := (get_user user_id guild_id db).1 in
  let max_loan :=
    Benefits.max_loan
      (CLASS_BENEFITS
         (calculate_economic_class (User.balance user + User.bank user))) in
  let total_debt :=
    py_sum (map Loan.remaining (get_active_loans user_id guild_id db)) in
  amount <= max_loan ->
  total_debt + amount <= max_loan * 2 ->
  exists rate doc,
    0.01 <= rate <= 0.50 /\
    (loan user_id guild_id utcnow amount db).2
    = Ok (Embed "Loan Approved!" [amount; rate; amount * (1 + rate)]) /\
    loans (loan user_id guild_id utcnow amount db).1
    = (loans db ++ [doc])%list /\
    (Loan.user_id doc = user_id /\ Loan.guild_id doc = guild_id /\
     Loan.remaining doc = amount * (1 + rate) /\
     Loan.due_date doc = (utcnow + timedelta_of_days 30)%Z /\
     Loan.defaulted doc = false) /\
    find_one (is_user user_id guild_id)
      (users (loan user_id guild_id utcnow amount db).1)
    = Some (apply_set
              [ UserSet.balance (User.balance user + amount);
                UserSet.statistics
                  (set_loans_taken
                     (Stats.loans_taken (User.statistics user) + 1)%Z) ]
              user).
Proof.
  unfold loan, get_active_loans.
  pose proof (get_user_find user_id guild_id db) as Hf.
  pose proof (get_user_loans user_id guild_id db) as Hul.
  destruct (get_user user_id guild_id db) as [user db1]; simpl in Hf, Hul.
  pose proof (get_server_users guild_id utcnow db1) as Hs.
  pose proof (get_server_loans guild_id utcnow db1) as Hsl.
  destruct (get_server guild_id utcnow db1) as [server db2];
    simpl in Hs, Hsl.
  cbn [fst snd]. rewrite Hsl, Hul. intros Hmax Hdebt.
  rewrite (Qle_bool_true _ _ Hmax), (Qle_bool_true _ _ Hdebt).
  cbn [negb fst snd create_loan].
  eexists _, _. split; [apply Qclamp_bounds; lra|].
  split; [reflexivity|].
  cbn [loans users update_user set_users record_transaction set_transactions
       set_next_id set_loans].
  rewrite Hsl, Hul. split; [reflexivity|]. split; [by simpl|].
  rewrite find_one_update_one by (apply is_user_apply_set; keeps_identity).
  by rewrite Hs, Hf.
Qed.

(** A loan is granted whenever the amount is within the borrowing limit
    of the borrower's class and the active debt plus the amount is within
    twice that limit: the rate is between 1% and 50%, the loan document
    added owes the amount plus interest 30 days later, and the amount is
    added to the borrower's cash.  Otherwise the request is refused and
    no loan is written. *)
Theorem loan_approval (user_id guild_id : Z) (utcnow : datetime) (amount : Q)
    (db : database) :
  let user := (get_user user_id guild_id db).1 in
  let max_loan :=
    Benefits.max_loan
      (CLASS_BENEFITS
         (calculate_economic_class (User.balance user + User.bank user))) in
  let total_debt :=
    py_sum (map Loan.remaining (get_active_loans user_id guild_id db)) in
  (amount <= max_loan /\ total_debt + amount <= max_loan * 2 ->
   exists rate doc,
     0.01 <= rate <= 0.50 /\
     (loan user_id guild_id utcnow amount db).2
     = Ok (Embed "Loan Approved!" [amount; rate; amount * (1 + rate)]) /\
     loans (loan user_id guild_id utcnow amount db).1
     = (loans db ++ [doc])%list /\
     (Loan.user_id doc = user_id /\ Loan.guild_id doc = guild_id /\
      Loan.remaining doc = amount * (1 + rate) /\
      Loan.due_date doc = (utcnow + timedelta_of_days 30)%Z /\
      Loan.defaulted doc = false) /\
     balance_of user_id guild_id (loan user_id guild_id utcnow amount db).1
     = User.balance user + amount) /\
  (max_loan < amount \/ max_loan * 2 < total_debt + amount ->
   exists message,
     loan user_id guild_id utcnow amount db
     = (lookups user_id guild_id utcnow db, Ok (Ephemeral message))).
Proof.
  intros user max_loan total_debt. split.
  - intros [Hmax Hdebt].
    destruct (loan_approved user_id guild_id utcnow amount db Hmax Hdebt)
      as (rate & doc & Hrate & Hreply & Hloans & Hdoc & Hfind).
    exists rate, doc. repeat split; try tauto.
    unfold balance_of. by rewrite Hfind.
  - subst user max_loan total_debt. unfold loan, lookups, get_active_loans.
    pose proof (get_user_loans user_id guild_id db) as Hul.
    destruct (get_user user_id guild_id db) as [user db1]; simpl in Hul.
    cbn [fst snd].
    pose proof (get_server_loans guild_id utcnow db1) as Hsl.
    destruct (get_server guild_id utcnow db1) as [server db2]; simpl in Hsl.
    cbn [fst snd]. rewrite Hsl, Hul. intros [Hmax|Hdebt].
    + rewrite (Qle_bool_false _ _ Hmax). eauto.
    + destruct (negb _); [eauto|].
      rewrite (Qle_bool_false _ _ Hdebt). eauto.
Qed.

(** The loan command never checks the sign of the amount: a member
    without active loans who asks for a negative amount is granted the
    loan, the negative amount is added to the cash balance, and when it
    exceeds the cash held the balance ends below zero, outside the
    invariant of the data model. *)
Theorem loan_accepts_negative_amount (user_id guild_id : Z)
    (utcnow : datetime) (amount : Q) (db : database) :
  get_active_loans user_id guild_id db = [] ->
  amount < 0 ->
  (exists shown,
      (loan user_id guild_id utcnow amount db).2
      = Ok (Embed "Loan Approved!" shown)) /\
  balance_of user_id guild_id (loan user_id guild_id utcnow amount db).1
  = User.balance (get_user user_id guild_id db).1 + amount /\
  (User.balance (get_user user_id guild_id db).1 < - amount ->
   ~ sound (loan user_id guild_id utcnow amount db).1).
Proof.
  intros Hnone Hneg.
  pose proof (class_max_loan_positive
                (calculate_economic_class
                   (User.balance (get_user user_id guild_id db).1
                    + User.bank (get_user user_id guild_id db).1))) as Hmax.
  destruct (loan_approved user_id guild_id utcnow amount db)
    as (rate & doc & _ & Hreply & _ & _ & Hfind).
  { lra. }
  { rewrite Hnone. change (py_sum (map Loan.remaining [])) with 0. lra. }
  split; [eauto|]. split.
  - unfold balance_of. by rewrite Hfind.
  - intros Hshort [Husers _].
    apply find_one_Some in Hfind as [Hin _].
    rewrite Forall_forall in Husers. apply Husers in Hin as [Hbal _].
    simpl in Hbal. lra.
Qed.

Lemma loan_accepts_negative_amount_witness :
  (exists shown,
      (loan 1 7 0 (-2500) empty_db).2 = Ok (Embed "Loan Approved!" shown)) /\
  balance_of 1 7 (loan 1 7 0 (-2500) empty_db).1
  = User.balance (get_user 1 7 empty_db).1 + -2500 /\
  (User.balance (get_user 1 7 empty_db).1 < - -2500 ->
   ~ sound (loan 1 7 0 (-2500) empty_db).1).
Proof.
  apply (loan_accepts_negative_amount 1 7 0 (-2500) empty_db).
  - reflexivity.
  - reflexivity.
Defined.

(** ** Welfare *)

Lemma class_below_welfare_threshold (wealth : Q) :
  wealth <= WELFARE_THRESHOLD -> calculate_economic_class wealth = LOWER.
Proof.
  unfold WELFARE_THRESHOLD.
  cbv beta iota delta
    [calculate_economic_class first_band CLASS_THRESHOLDS in_band fst snd].
  intros H. qcases; done.
Qed.

Lemma update_server_find (guild_id : Z)
    (update_data : list (Server.t -> Server.t)) (db : database) :
  Forall (fun assign => forall s, Server.guild_id (assign s) = Server.guild_id s)
         update_data ->
  find_one (is_server guild_id)
           (servers (update_server guild_id update_data db))
  = apply_set update_data <$> find_one (is_server guild_id) (servers db).
Proof.
  intros H. simpl. apply find_one_update_one.
  unfold apply_set. induction H as [|assign rest Hassign _ IH]; intros s Hs;
    simpl; [done|].
  apply IH. unfold is_server in *. by rewrite Hassign.
Qed.

(** Welfare is paid exactly to the members whose total wealth is at most
    the threshold of 5000: the class test never refuses anyone whom the
    threshold lets through.  The payment is the tenant's welfare amount,
    doubled for the unemployed; it is added to the member's cash and
    taken from the government budget, whatever is left in that budget.
    Above the threshold the request is refused and nothing is written. *)
Theorem welfare_paid_iff (user_id guild_id : Z) (utcnow : datetime)
    (db : database) :
  let user := (get_user user_id guild_id db).1 in
  let server :=
    (get_server guild_id utcnow (get_user user_id guild_id db).2).1 in
  let base_payment := Settings.welfare_amount (Server.settings server) in
  let payment :=
    if String.eqb (User.job user) "unemployed" then base_payment * 2
    else base_payment in
  (User.balance user + User.bank user <= WELFARE_THRESHOLD ->
   (welfare user_id guild_id utcnow db).2
   = Ok (Embed "Welfare Benefits" [payment]) /\
   balance_of user_id guild_id (welfare user_id guild_id utcnow db).1
   = User.balance user + payment /\
   Server.government_budget
   <$> find_one (is_server guild_id)
         (servers (welfare user_id guild_id utcnow db).1)
   = Some (Server.government_budget server - payment)) /\
  (WELFARE_THRESHOLD < User.balance user + User.bank user ->
   exists message,
     welfare user_id guild_id utcnow db
     = (lookups user_id guild_id utcnow db, Ok (Ephemeral message))).
Proof.
  unfold welfare, lookups, balance_of.
  pose proof (get_user_find user_id guild_id db) as Hf.
  destruct (get_user user_id guild_id db) as [user db1]; simpl in Hf.
  cbn [fst snd].
  pose proof (get_server_users guild_id utcnow db1) as Hs.
  pose proof (get_server_find guild_id utcnow db1) as Hsf.
  destruct (get_server guild_id utcnow db1) as [server db2];
    simpl in Hs, Hsf.
  cbn [fst snd]. split.
  - intros Hpoor. rewrite (class_below_welfare_threshold _ Hpoor).
    cbn [CLASS_BENEFITS Benefits.welfare_eligible negb].
    rewrite (Qle_bool_true _ _ Hpoor). cbn [negb fst snd].
    unfold calculate_welfare_payment.
    cbn [CLASS_BENEFITS Benefits.welfare_eligible negb].
    split; [done|]. split.
    + cbn [users update_server set_servers record_transaction
           set_transactions].
      rewrite update_user_find by keeps_identity. by rewrite Hs, Hf.
    + rewrite update_server_find by (repeat constructor).
      cbn [servers record_transaction set_transactions update_user
           set_users].
      by rewrite Hsf.
  - intros Hrich. destruct (negb _); [eauto|].
    rewrite (Qle_bool_false _ _ Hrich). eauto.
Qed.

(** ** Revaluation within a day *)

Lemma update_investment_value_same_day (investment : Holding.t)
    (utcnow : datetime) (random_shock : Q) (db : database) :
  (0 <= utcnow - Holding.last_update investment < MICROSECONDS_PER_DAY)%Z ->
  (update_investment_value investment utcnow random_shock db).2 = Ok tt /\
  investments (update_investment_value investment utcnow random_shock db).1
  = investments db.
Proof.
  intros Hday. unfold update_investment_value.
  pose proof (get_server_investments (Holding.guild_id investment) utcnow db)
    as Hsi.
  destruct (get_server _ utcnow db) as [server db1]; simpl in Hsi.
  unfold timedelta_days. rewrite Z.div_small by done. by simpl.
Qed.

(** Holdings are revalued by whole days only: a sweep that runs less
    than a day after the last revaluation of every holding logs nothing
    and changes no holding, neither its value nor its revaluation time. *)
Theorem investment_update_loop_same_day (utcnow : datetime) (shock : Z -> Q)
    (db : database) :
  Forall (fun h =>
            (0 <= utcnow - Holding.last_update h < MICROSECONDS_PER_DAY)%Z)
         (investments db) ->
  (investment_update_loop utcnow shock db).2 = None /\
  investments (investment_update_loop utcnow shock db).1 = investments db.
Proof.
  unfold investment_update_loop.
  generalize (investments db) at 1 2 3 as cursor.
  intros cursor Hfresh.
  assert ((for_each
             (fun investment db =>
                update_investment_value investment utcnow
                  (shock (Holding._id investment)) db) cursor db).2 = Ok tt /\
          investments
            (for_each
               (fun investment db =>
                  update_investment_value investment utcnow
                    (shock (Holding._id investment)) db) cursor db).1
          = investments db) as [Hok Hsame].
  { revert db. induction Hfresh as [|h rest Hh _ IH]; intros db; [done|].
    cbn [for_each].
    destruct (update_investment_value_same_day h utcnow
                (shock (Holding._id h)) db Hh) as [Hok Hsame].
    destruct (update_investment_value h utcnow _ db) as [db1 r].
    cbn [fst snd] in Hok, Hsame. subst r.
    destruct (IH db1) as [Hok' Hsame']. by rewrite <- Hsame. }
  destruct (for_each _ cursor db) as [db' r]. cbn [fst snd] in *.
  by subst r.
Qed.

Lemma investment_update_loop_same_day_witness :
  (investment_update_loop (timedelta_of_hours 23) (fun _ => -2)
     after_invest_db).2 = None /\
  investments
    (investment_update_loop (timedelta_of_hours 23) (fun _ => -2)
       after_invest_db).1
  = investments after_invest_db.
Proof.
  apply (investment_update_loop_same_day (timedelta_of_hours 23)
           (fun _ => -2) after_invest_db).
  repeat constructor; vm_compute; discriminate.
Defined.

(** ** What a successful tick writes *)

Lemma get_server_market_history (guild_id : Z) (utcnow : datetime)
    (db : database) :
  market_history (get_server guild_id utcnow db).2 = market_history db.
Proof. unfold get_server. by destruct (find_one _ _). Qed.

(** When the tick of a tenant completes, the tenant's record and the
    snapshot appended to the market history carry the same figures: the
    money supply is the total wealth of the guild's members, the
    inflation stored lies between -5% and 20%, the record is stamped
    with the time of the tick and exactly one snapshot is added.  No user
    record is touched. *)
Theorem update_server_economy_writes (guild_id : Z) (utcnow : datetime)
    (rnd : Q) (db : database) :
  (update_server_economy guild_id utcnow rnd db).2 = Ok tt ->
  exists server snapshot,
    find_one (is_server guild_id)
      (servers (update_server_economy guild_id utcnow rnd db).1)
    = Some server /\
    market_history (update_server_economy guild_id utcnow rnd db).1
    = (market_history db ++ [snapshot])%list /\
    users (update_server_economy guild_id utcnow rnd db).1 = users db /\
    Server.last_update server = utcnow /\
    Server.total_money_supply server = py_sum (guild_wealth guild_id db) /\
    Server.gdp server = get_gdp guild_id 7 utcnow db /\
    -0.05 <= Server.inflation_rate server <= 0.20 /\
    calculate_gini_coefficient guild_id db
    = Ok (Server.gini_coefficient server) /\
    (Snapshot.guild_id snapshot = guild_id /\
     Snapshot.timestamp snapshot = utcnow /\
     Snapshot.gdp snapshot = Server.gdp server /\
     Snapshot.inflation snapshot = Server.inflation_rate server /\
     Snapshot.unemployment snapshot = Server.unemployment_rate server /\
     Snapshot.gini snapshot = Server.gini_coefficient server /\
     Snapshot.cycle_phase snapshot = Server.cycle_phase server).
Proof.
  unfold update_server_economy, guild_wealth.
  pose proof (get_server_find guild_id utcnow db) as Hsf.
  pose proof (get_server_users guild_id utcnow db) as Hsu.
  pose proof (get_server_market_history guild_id utcnow db) as Hsm.
  assert (get_gdp guild_id 7 utcnow (get_server guild_id utcnow db).2
          = get_gdp guild_id 7 utcnow db) as Hgdp.
  { unfold get_gdp.
    by destruct (get_server_frame guild_id utcnow db) as (_ & _ & _ & ->). }
  assert (calculate_gini_coefficient guild_id (get_server guild_id utcnow db).2
          = calculate_gini_coefficient guild_id db) as Hgini
    by (unfold calculate_gini_coefficient; by rewrite Hsu).
  assert (get_unemployment_rate guild_id (get_server guild_id utcnow db).2
          = get_unemployment_rate guild_id db) as Hunemp
    by (unfold get_unemployment_rate; by rewrite Hsu).
  destruct (get_server guild_id utcnow db) as [server db0];
    simpl in Hsf, Hsu, Hsm, Hgdp, Hgini, Hunemp.
  destruct (update_economic_cycle server utcnow rnd) as [cycle_update|];
    [|discriminate].
  rewrite Hsu, Hgdp, Hgini, Hunemp.
  destruct (rmap _ _) as [new_prices|]; [|discriminate].
  destruct (calculate_gini_coefficient guild_id db) as [gini|];
    [|discriminate].
  cbn [fst snd]. intros _.
  cbn [servers users market_history record_market_snapshot
       set_market_history].
  rewrite update_server_find by (repeat constructor).
  cbn [users market_history update_server set_servers]. rewrite Hsf, Hsu, Hsm.
  eexists _, _. split; [reflexivity|]. split; [reflexivity|].
  split; [done|]. simpl. repeat split.
  all: unfold calculate_inflation;
    destruct (Qle_bool _ 0); try lra; apply Qclamp_bounds; lra.
Qed.

Lemma update_server_economy_writes_witness :
  exists server snapshot,
    find_one (is_server 8)
      (servers (update_server_economy 8 100 0.5 three_guild_db).1)
    = Some server /\
    market_history (update_server_economy 8 100 0.5 three_guild_db).1
    = (market_history three_guild_db ++ [snapshot])%list /\
    users (update_server_economy 8 100 0.5 three_guild_db).1
    = users three_guild_db /\
    Server.last_update server = 100%Z /\
    Server.total_money_supply server
    = py_sum (guild_wealth 8 three_guild_db) /\
    Server.gdp server = get_gdp 8 7 100 three_guild_db /\
    -0.05 <= Server.inflation_rate server <= 0.20 /\
    calculate_gini_coefficient 8 three_guild_db
    = Ok (Server.gini_coefficient server) /\
    (Snapshot.guild_id snapshot = 8%Z /\
     Snapshot.timestamp snapshot = 100%Z /\
     Snapshot.gdp snapshot = Server.gdp server /\
     Snapshot.inflation snapshot = Server.inflation_rate server /\
     Snapshot.unemployment snapshot = Server.unemployment_rate server /\
     Snapshot.gini snapshot = Server.gini_coefficient server /\
     Snapshot.cycle_phase snapshot = Server.cycle_phase server).
Proof.
  apply (update_server_economy_writes 8 100 0.5 three_guild_db).
  vm_compute. reflexivity.
Defined.

(** ** The invariant of the data model under the other ledger commands *)

Lemma get_server_Forall (P : Server.t -> Prop) (guild_id : Z)
    (utcnow : datetime) (db : database) :
  Forall P (servers db) -> P (default_server guild_id utcnow) ->
  P (get_server guild_id utcnow db).1.
Proof.
  intros Hall Hdefault. unfold get_server.
  destruct (find_one _ _) as [server|] eqn:E; simpl; [|done].
  apply find_one_Some in E as [Hin _].
  rewrite Forall_forall in Hall. by apply Hall.
Qed.

Lemma sound_same_members (db db' : database) :
  users db' = users db -> servers db' = servers db -> sound db -> sound db'.
Proof. unfold sound. by intros -> ->. Qed.

(** Investing, selling a holding of non-negative value, borrowing a
    non-negative amount and claiming a non-negative welfare amount all
    keep both balances of every member non-negative. *)
Theorem ledger_commands_keep_invariant (db : database) :
  sound db ->
  (forall user_id guild_id utcnow investment_type amount,
      sound (invest user_id guild_id utcnow investment_type amount db).1) /\
  (forall user_id guild_id utcnow investment_type,
      Forall (fun h => 0 <= Holding.current_value h) (investments db) ->
      sound (sellinvestment user_id guild_id utcnow investment_type db).1) /\
  (forall user_id guild_id utcnow amount,
      0 <= amount ->
      sound (loan user_id guild_id utcnow amount db).1) /\
  (forall user_id guild_id utcnow,
      Forall (fun s => 0 <= Settings.welfare_amount (Server.settings s))
             (servers db) ->
      sound (welfare user_id guild_id utcnow db).1).
Proof.
  intros Hdb. split; [|split; [|split]].
  - intros user_id guild_id utcnow investment_type amount. unfold invest.
    lookup_user Hdb user db1 Huser Hdb1.
    lookup_server Hdb1 server db2 Hserver Hdb2.
    destruct Huser as (Hbal & Hbank & Hskill).
    destruct (INVESTMENT_TYPES !! _) as [inv_data|]; [|done].
    qcases; try done.
    apply update_user_sound; [user_ok_after|].
    by apply (sound_same_members db2).
  - intros user_id guild_id utcnow investment_type Hvalues.
    unfold sellinvestment.
    pose proof (get_user_investments user_id guild_id db) as Hui.
    lookup_user Hdb user db1 Huser Hdb1. simpl in Hui.
    pose proof (get_server_investments guild_id utcnow db1) as Hsi.
    lookup_server Hdb1 server db2 Hserver Hdb2. simpl in Hsi.
    destruct Huser as (Hbal & Hbank & Hskill).
    destruct (find_one _ (investments db2)) as [investment|] eqn:Hfind;
      [|done].
    unfold getitem.
    destruct (INVESTMENT_TYPES !! _) as [inv_data|] eqn:Hcat; [|done].
    cbn [fst snd rbind].
    apply find_one_Some in Hfind as [Hin _]. rewrite Hsi, Hui in Hin.
    rewrite Forall_forall in Hvalues. apply Hvalues in Hin.
    pose proof (liquidity_range _ _ Hcat) as [Hl0 Hl1].
    assert (0 <= Holding.current_value investment
                 * Investment.liquidity inv_data)
      by (apply Qmult_le_0_compat; lra).
    match goal with
    | |- sound (set_investments _ ?d) =>
        apply (sound_same_members d); [done | done |]
    end.
    apply update_user_sound; [user_ok_after | done].
  - intros user_id guild_id utcnow amount Hamount. unfold loan.
    lookup_user Hdb user db1 Huser Hdb1.
    lookup_server Hdb1 server db2 Hserver Hdb2.
    destruct Huser as (Hbal & Hbank & Hskill).
    destruct (negb _); [done|]. destruct (negb _); [done|].
    cbn [fst snd create_loan].
    match goal with
    | |- sound (record_transaction _ _ _ _ _ _ ?d) =>
        apply (sound_same_members d); [done | done |]
    end.
    apply update_user_sound; [user_ok_after|].
    by apply (sound_same_members db2).
  - intros user_id guild_id utcnow Hwelfare. unfold welfare.
    pose proof (get_user_frame user_id guild_id db) as (Hservers & _).
    lookup_user Hdb user db1 Huser Hdb1. simpl in Hservers.
    rewrite <- Hservers in Hwelfare.
    pose proof (get_server_Forall _ guild_id utcnow db1 Hwelfare) as Hamount.
    lookup_server Hdb1 server db2 Hserver Hdb2.
    destruct Huser as (Hbal & Hbank & Hskill).
    cbn [fst] in Hamount.
    assert (0 <= Settings.welfare_amount (Server.settings server))
      as Hbase by (apply Hamount; simpl; lra).
    destruct (negb (Benefits.welfare_eligible _)) eqn:Eligible; [done|].
    destruct (negb (Qle_bool _ _)); [done|]. cbn [fst].
    apply update_server_sound; [by intros s [? ?]|].
    match goal with
    | |- sound (record_transaction _ _ _ _ _ _ ?d) =>
        apply (sound_same_members d); [done | done |]
    end.
    assert (0 <= calculate_welfare_payment server
                   (calculate_economic_class
                      (User.balance user + User.bank user))
                   (String.eqb (User.job user) "unemployed")) as Hpay.
    { unfold calculate_welfare_payment. rewrite Eligible.
      destruct (String.eqb _ _); lra. }
    apply update_user_sound; [user_ok_after | done].
Qed.

Lemma ledger_commands_keep_invariant_witness :
  (forall user_id guild_id utcnow investment_type amount,
      sound (invest user_id guild_id utcnow investment_type amount
               poor_thief_db).1) /\
  (forall user_id guild_id utcnow investment_type,
      Forall (fun h => 0 <= Holding.current_value h)
             (investments poor_thief_db) ->
      sound (sellinvestment user_id guild_id utcnow investment_type
               poor_thief_db).1) /\
  (forall user_id guild_id utcnow amount,
      0 <= amount ->
      sound (loan user_id guild_id utcnow amount poor_thief_db).1) /\
  (forall user_id guild_id utcnow,
      Forall (fun s => 0 <= Settings.welfare_amount (Server.settings s))
             (servers poor_thief_db) ->
      sound (welfare user_id guild_id utcnow poor_thief_db).1).
Proof.
  apply (ledger_commands_keep_invariant poor_thief_db).
  split; repeat constructor; simpl; (lra || lia).
Defined.
